(** * Service-call analytics: filter queries and KPI aggregation

    A shallow embedding of the query and aggregation layer of the
    service-analytics dashboard:

    - [backend/utils/query_tools.py]   (dashboard path, pandas frames),
    - [backend/utils/query_builder.py] (REST filter endpoint),
    - [backend/api/routes/calls.py]    (REST endpoints, plain SQL).

    Modelling conventions.
    - A data frame is the list of its rows, in frame order; a Series is the
      list of its cells in the same order.  An absent cell (None, NaN, NaT,
      SQL NULL) is [None].  Frames come from [SELECT *] on [service_calls]
      and have every column, so the guards [column not in df] never fire.
    - Text is [string]: a sequence of characters with code points below
      256.  SQL [LOWER] acts on the letters A-Z.  [str.lower] also lowers
      the letters above U+007F, to letters above U+007F: the comparisons
      with the status words, which are ASCII, are the same either way.
    - A timestamp is a number of seconds on the time line ([Z]); the store
      keeps them with a resolution of one second.
    - A float is the rational number it holds, an IEEE 754 binary64 number;
      a float operation is the exact operation followed by the rounding to
      the nearest double, ties to even ([PyNum.double]).  Infinities and
      NaN are not modelled: no quantity of this layer overflows. *)

From Stdlib Require Import ZArith QArith Qround Qabs List String Ascii Bool Lia Lqa.
From Stdlib Require Import Permutation Sorted RelationClasses DecimalString.
Import ListNotations.

Local Open Scope string_scope.
Local Open Scope Z_scope.
Local Open Scope list_scope.

(** ** Python string primitives *)

Module PyStr.

Definition is_upper (c : ascii) : bool :=
  let n := N_of_ascii c in (65 <=? n)%N && (n <=? 90)%N.

Definition lower_char (c : ascii) : ascii :=
  if is_upper c then ascii_of_N (N_of_ascii c + 32) else c.

(** [s.lower()] *)
Fixpoint lower (s : string) : string :=
  match s with
  | EmptyString => EmptyString
  | String c r => String (lower_char c) (lower r)
  end.

(** [s.startswith(p)] *)
Definition startswith (s p : string) : bool := String.prefix p s.

(** The characters [str.strip()] removes, among those with code points
    below 256: tab, LF, VT, FF, CR, the four separators FS GS RS US, the
    blank, NEL (U+0085) and the no-break space (U+00A0). *)
Definition is_space (c : ascii) : bool :=
  let n := N_of_ascii c in
  ((9 <=? n)%N && (n <=? 13)%N) || ((28 <=? n)%N && (n <=? 32)%N)
  || (n =? 133)%N || (n =? 160)%N.

Fixpoint lstrip (s : string) : string :=
  match s with
  | EmptyString => EmptyString
  | String c r => if is_space c then lstrip r else s
  end.

Fixpoint rstrip (s : string) : string :=
  match s with
  | EmptyString => EmptyString
  | String c r =>
      match rstrip r with
      | EmptyString => if is_space c then EmptyString else String c EmptyString
      | r' => String c r'
      end
  end.

(** [s.strip()] *)
Definition strip (s : string) : string := rstrip (lstrip s).

(** [sep.join(parts)] *)
Definition join (sep : string) (parts : list string) : string :=
  String.concat sep parts.

(** Truthiness of a string: [bool(s)]. *)
Definition truthy (s : string) : bool :=
  match s with EmptyString => false | _ => true end.

End PyStr.

(** ** Rows of [service_calls] *)

(** The columns the aggregation layer reads.  [call_entry_datetime] and
    [call_solved_datetime] are timestamps after [_postprocess_dataframe]. *)
Record CallRecord : Type := {
  call_id : Z;
  customer_name : option string;
  state : option string;
  model : option string;
  visited_engineer_name : option string;
  forward_employee_name : option string;
  nature_of_complaint : option string;
  customer_complaint : option string;
  call_type : option string;
  call_status : option string;
  status : option string;
  instrument_status : option string;
  call_entry_datetime : option Z;
  call_solved_datetime : option Z
}.

Definition DataFrame : Type := list CallRecord.

(** ** pandas primitives on Series *)

Module Pandas.

(** [series.fillna(d)] on one cell *)
Definition fillna {A} (d : A) (v : option A) : A :=
  match v with Some x => x | None => d end.

(** [x in targets] for a set of strings *)
Definition isin (targets : list string) (s : string) : bool :=
  existsb (String.eqb s) targets.

(** [a | b] on two aligned boolean Series *)
Fixpoint mask_or (a b : list bool) : list bool :=
  match a, b with
  | x :: a', y :: b' => (x || y) :: mask_or a' b'
  | _, _ => []
  end.

(** [int(mask.sum())] *)
Definition mask_sum (m : list bool) : Z :=
  Z.of_nat (List.length (List.filter (fun b => b) m)).

(** Number of rows satisfying a row predicate. *)
Definition count_rows {A} (p : A -> bool) (l : list A) : Z :=
  Z.of_nat (List.length (List.filter p l)).

End Pandas.

(** ** Status classification, dashboard path ([query_tools.py]) *)

Definition closed_targets : list string :=
  ["solved"; "closed"; "completed"; "resolved"].

Definition pending_targets : list string :=
  ["pending"; "processing"; "unsolved"; "open"; "in progress"].

(** [_status_matches(df, targets)]: the exact-match mask on [status], the
    prefix mask on [call_status], and their disjunction. *)
Definition _status_matches (df : DataFrame) (targets : list string) : list bool :=
  let targets_lower := List.map PyStr.lower targets in
  let status_match :=
    List.map (fun r => Pandas.isin targets_lower
                         (PyStr.lower (Pandas.fillna "" (status r)))) df in
  let call_status_match :=
    List.map (fun r =>
                let value := PyStr.lower (Pandas.fillna "" (call_status r)) in
                existsb (fun target => PyStr.startswith value target) targets_lower)
             df in
  Pandas.mask_or status_match call_status_match.

(** ** Status classification, REST path ([get_stats] in [calls.py]) *)

Module Sql.

(** [COALESCE(x, '')] *)
Definition coalesce (x : option string) : string := Pandas.fillna "" x.

(** [LOWER(x)] *)
Definition LOWER (s : string) : string := PyStr.lower s.

(** [x IN (v1, ..., vn)] for text *)
Definition IN (s : string) (vs : list string) : bool :=
  existsb (String.eqb s) vs.

(** [x LIKE 'p%'] for a pattern [p] without wildcards: LIKE ignores
    the case of the letters A-Z. *)
Definition LIKE_prefix (s p : string) : bool :=
  String.prefix (PyStr.lower p) (PyStr.lower s).

(** [SUM(CASE WHEN c THEN 1 ELSE 0 END)]: NULL over no rows. *)
Definition SUM_CASE {A} (c : A -> bool) (rows : list A) : option Z :=
  match rows with
  | [] => None
  | _ => Some (List.fold_right (fun r acc => (if c r then 1 else 0) + acc) 0 rows)
  end.

(** [value or 0] on a fetched aggregate *)
Definition or_zero (v : option Z) : Z :=
  match v with
  | Some n => n
  | None => 0
  end.

End Sql.

Definition stats_closed_case (r : CallRecord) : bool :=
  Sql.IN (Sql.LOWER (Sql.coalesce (status r)))
         ["solved"; "closed"; "completed"; "resolved"]
  || Sql.LIKE_prefix (Sql.LOWER (Sql.coalesce (call_status r))) "solved".

Definition stats_pending_case (r : CallRecord) : bool :=
  Sql.IN (Sql.LOWER (Sql.coalesce (status r)))
         ["pending"; "processing"; "unsolved"; "open"; "in progress"].

(** The [closed_calls] and [pending_calls] fields of [get_stats]. *)
Definition get_stats_closed_calls (rows : DataFrame) : Z :=
  Sql.or_zero (Sql.SUM_CASE stats_closed_case rows).

Definition get_stats_pending_calls (rows : DataFrame) : Z :=
  Sql.or_zero (Sql.SUM_CASE stats_pending_case rows).

Definition get_stats_total_calls (rows : DataFrame) : Z :=
  Z.of_nat (List.length rows).

(** ** Python floats *)

Module PyNum.

(** Nearest integer, ties to the even neighbour. *)
Definition round_half_even (q : Q) : Z :=
  let f := Qfloor q in
  match Qcompare (q - inject_Z f) (1 # 2) with
  | Lt => f
  | Gt => f + 1
  | Eq => if Z.even f then f else f + 1
  end.

(** [floor(log2 q)] for a positive [q = n / d]: it is [k] or [k - 1]
    for [k = log2 n - log2 d]. *)
Definition ilog2 (q : Q) : Z :=
  let n := Qnum q in
  let d := Zpos (Qden q) in
  let k := Z.log2 n - Z.log2 d in
  if (if 0 <=? k then 2 ^ k * d <=? n else d <=? n * 2 ^ (- k)) then k else k - 1.

(** The exponent of the last place of the double nearest to [q]: a double
    carries 53 significant bits, and 2^-1074 is the smallest step. *)
Definition exponent (q : Q) : Z := Z.max (ilog2 (Qabs q) - 52) (-1074).

(** The binary64 number nearest to [q], ties to the even significand. *)
Definition double (q : Q) : Q :=
  let r := Qred q in
  let e := exponent r in
  if e <=? 0 then
    let scale := inject_Z (2 ^ (- e)) in
    Qred (inject_Z (round_half_even (r * scale)) / scale)
  else
    let scale := inject_Z (2 ^ e) in
    Qred (inject_Z (round_half_even (r / scale)) * scale).

(** [x + y], [x - y], [x * y], [x / y] on floats. *)
Definition add (x y : Q) : Q := double (x + y).
Definition sub (x y : Q) : Q := double (x - y).
Definition mul (x y : Q) : Q := double (x * y).
Definition div (x y : Q) : Q := double (x / y).

(** [a / b] on two integers: the double nearest to the quotient. *)
Definition truediv (a b : Z) : Q := double (inject_Z a / inject_Z b).

(** [round(x, ndigits)] on a float: the double nearest to the decimal
    number with [ndigits] places nearest to the exact value of [x], ties
    to the even last digit. *)
Definition round (x : Q) (ndigits : nat) : Q :=
  let scale := inject_Z (10 ^ Z.of_nat ndigits) in
  double (inject_Z (round_half_even (x * scale)) / scale).

(** The sum of a float Series, the cells added one after another, as
    numpy adds fewer than eight cells.  Longer Series are added in blocks:
    the sum is the same whenever the partial sums are doubles, and can
    differ in the last place otherwise. *)
Definition sum (xs : list Q) : Q := List.fold_left add xs 0%Q.

(** [series.mean()] of a non-empty float Series, and SQL [AVG]: the sum
    divided by the number of cells. *)
Definition mean (xs : list Q) : Q :=
  div (sum xs) (inject_Z (Z.of_nat (List.length xs))).

End PyNum.

(** ** Resolution time *)

(** [df.dropna(subset=["call_entry_datetime", "call_solved_datetime"])],
    projected on the two columns: (entry, solved). *)
Definition dropna_entry_solved (df : DataFrame) : list (Z * Z) :=
  List.flat_map
    (fun r =>
       match call_entry_datetime r, call_solved_datetime r with
       | Some e, Some s => [(e, s)]
       | _, _ => []
       end) df.

(** [_resolution_days(df)]: one sample, in days, for every row that has
    both timestamps.  [total_seconds()] is a whole number of seconds, held
    exactly; [.div(86400)] is a float division. *)
Definition _resolution_days (df : DataFrame) : list Q :=
  let resolved := dropna_entry_solved df in
  match resolved with
  | [] => []
  | _ =>
      let delta := List.map (fun es => snd es - fst es) resolved in
      List.map (fun seconds => PyNum.div (inject_Z seconds) 86400) delta
  end.

(** [resolution_days[resolution_days <= 2]] *)
Definition sla_hits (resolution_days : list Q) : list Q :=
  List.filter (fun d => Qle_bool d 2) resolution_days.

(** ** Repeated issues *)

(** A row of the subset [_repeated_issue_count] works on:
    (customer_name, customer_complaint, call_entry_datetime). *)
Definition IssueRow : Type := (string * string * Z)%type.

Definition issue_name (x : IssueRow) : string := fst (fst x).
Definition issue_complaint (x : IssueRow) : string := snd (fst x).
Definition issue_time (x : IssueRow) : Z := snd x.

(** [df.dropna(subset=["customer_name", "customer_complaint",
    "call_entry_datetime"])] projected on the three columns. *)
Definition dropna_issue (df : DataFrame) : list IssueRow :=
  List.flat_map
    (fun r =>
       match customer_name r, customer_complaint r, call_entry_datetime r with
       | Some n, Some c, Some t => [(n, c, t)]
       | _, _, _ => []
       end) df.

(** Stable insertion sort: among rows that compare equal the frame order
    is kept. *)
Fixpoint insert_by {A} (leb : A -> A -> bool) (x : A) (l : list A) : list A :=
  match l with
  | [] => [x]
  | y :: l' => if leb x y then x :: l else y :: insert_by leb x l'
  end.

Definition sort_by {A} (leb : A -> A -> bool) (l : list A) : list A :=
  List.fold_right (insert_by leb) [] l.

(** The order of [sort_values(by=[customer_name, customer_complaint,
    call_entry_datetime])]: lexicographic on the three columns. *)
Definition issue_leb (a b : IssueRow) : bool :=
  match String.compare (issue_name a) (issue_name b) with
  | Lt => true
  | Gt => false
  | Eq =>
      match String.compare (issue_complaint a) (issue_complaint b) with
      | Lt => true
      | Gt => false
      | Eq => issue_time a <=? issue_time b
      end
  end.

(** Two rows belong to the same [groupby(["customer_name",
    "customer_complaint"])] group. *)
Definition same_group (a b : IssueRow) : bool :=
  String.eqb (issue_name a) (issue_name b)
  && String.eqb (issue_complaint a) (issue_complaint b).

(** [groupby(...)["call_entry_datetime"].diff()]: every row gets the
    difference, in seconds, to the previous row of its own group in frame
    order, and NaT when it is the first row of its group.  [seen] holds
    the rows already passed, the latest first. *)
Fixpoint group_diff (seen rows : list IssueRow) : list (option Z) :=
  match rows with
  | [] => []
  | r :: rest =>
      match List.find (same_group r) seen with
      | Some p => Some (issue_time r - issue_time p)
      | None => None
      end :: group_diff (r :: seen) rest
  end.

(** [diff_days.notna() & (diff_days <= 30)] on one cell, with
    [diff_days = seconds / 86400]. *)
Definition repeat_flag (diff : option Z) : bool :=
  match diff with
  | Some seconds => Qle_bool (PyNum.div (inject_Z seconds) 86400) 30
  | None => false
  end.

(** [_repeated_issue_count(df)] *)
Definition _repeated_issue_count (df : DataFrame) : Z :=
  let subset := dropna_issue df in
  match subset with
  | [] => 0
  | _ =>
      let sorted := sort_by issue_leb subset in
      let diff_days := group_diff [] sorted in
      let flags := List.map repeat_flag diff_days in
      Pandas.mask_sum flags
  end.

(** ** [compute_kpis] *)

Record KPIs : Type := {
  total_calls : Z;
  closed_calls : Z;
  pending_calls : Z;
  avg_resolution_days : Q;
  sla_compliance : Q;
  repeated_issues : Z
}.

Definition compute_kpis (df : DataFrame) : KPIs :=
  let total := Z.of_nat (List.length df) in
  if total =? 0 then
    {| total_calls := 0; closed_calls := 0; pending_calls := 0;
       avg_resolution_days := 0; sla_compliance := 0; repeated_issues := 0 |}
  else
    let closed_mask := _status_matches df closed_targets in
    let pending_mask := _status_matches df pending_targets in
    let resolution_days := _resolution_days df in
    let avg_resolution :=
      match resolution_days with
      | [] => 0%Q
      | _ => PyNum.round (PyNum.mean resolution_days) 2
      end in
    let hits := sla_hits resolution_days in
    let sla :=
      match resolution_days with
      | [] => 0%Q
      | _ =>
          PyNum.round
            (PyNum.mul
               (PyNum.truediv (Z.of_nat (List.length hits))
                  (Z.of_nat (List.length resolution_days))) 100) 1
      end in
    {| total_calls := total;
       closed_calls := Pandas.mask_sum closed_mask;
       pending_calls := Pandas.mask_sum pending_mask;
       avg_resolution_days := avg_resolution;
       sla_compliance := sla;
       repeated_issues := _repeated_issue_count df |}.

(** SQL [julianday(t)]: the store counts the milliseconds since noon of
    24 November 4714 BC (210866760000000 of them at the Unix epoch) and
    returns their quotient by 86400000.0. *)
Definition julianday (t : Z) : Q :=
  PyNum.div (inject_Z (t * 1000 + 210866760000000)) 86400000.

(** The [avg_resolution] aggregate of [get_stats]:
    [AVG((julianday(solved) - julianday(entry)) * 24.0)], in hours, then
    [round(avg_resolution, 2)]; AVG skips the rows where the expression
    is NULL and is NULL over none. *)
Definition get_stats_avg_resolution (rows : DataFrame) : option Q :=
  match dropna_entry_solved rows with
  | [] => None
  | resolved =>
      let hours :=
        List.map (fun es => PyNum.mul (PyNum.sub (julianday (snd es))
                                         (julianday (fst es))) 24) resolved in
      Some (PyNum.round (PyNum.mean hours) 2)
  end.

(** ** Distributions *)

(** The text columns a distribution can be taken over. *)
Inductive TextColumn : Type :=
| col_customer_name | col_state | col_model | col_visited_engineer_name
| col_forward_employee_name | col_nature_of_complaint | col_customer_complaint
| col_call_type | col_call_status | col_status | col_instrument_status.

(** [df[column]] *)
Definition column_series (column : TextColumn) (df : DataFrame) : list (option string) :=
  List.map
    (match column with
     | col_customer_name => customer_name
     | col_state => state
     | col_model => model
     | col_visited_engineer_name => visited_engineer_name
     | col_forward_employee_name => forward_employee_name
     | col_nature_of_complaint => nature_of_complaint
     | col_customer_complaint => customer_complaint
     | col_call_type => call_type
     | col_call_status => call_status
     | col_status => status
     | col_instrument_status => instrument_status
     end) df.

(** [series.dropna()] *)
Definition dropna {A} (series : list (option A)) : list A :=
  List.flat_map (fun v => match v with Some x => [x] | None => [] end) series.

(** [series.replace("", pd.NA)] *)
Definition replace_blank (series : list string) : list (option string) :=
  List.map (fun s => if String.eqb s "" then None else Some s) series.

(** One more occurrence of [v] in a tally that keeps the values in the
    order in which they were first seen. *)
Fixpoint bump (v : string) (acc : list (string * Z)) : list (string * Z) :=
  match acc with
  | [] => [(v, 1)]
  | (k, c) :: acc' =>
      if String.eqb k v then (k, c + 1) :: acc' else (k, c) :: bump v acc'
  end.

(** The distinct values of a Series with their number of occurrences, in
    order of first appearance. *)
Definition tally (series : list string) : list (string * Z) :=
  List.fold_left (fun acc v => bump v acc) series [].

(** [series.value_counts()]: the tally sorted by descending count.  The
    sort looks at the counts only.  pandas does not fix the order of the
    groups that have the same count; here they keep the tally order, as
    they do in pandas on short tables.  The properties proved of a
    distribution, its examples apart, hold for every such order. *)
Definition count_geb (a b : string * Z) : bool := snd b <=? snd a.

Definition value_counts (series : list string) : list (string * Z) :=
  sort_by count_geb (tally series).

(** [data.head(n)]: the first [n] rows, or all but the last [-n] rows
    for a negative [n]. *)
Definition head {A} (n : Z) (data : list A) : list A :=
  if 0 <=? n then List.firstn (Z.to_nat n) data
  else List.firstn (List.length data - Z.to_nat (- n)) data.

(** [prepare_distribution(df, column, limit)] *)
Definition prepare_distribution
    (df : DataFrame) (column : TextColumn) (limit : option Z) : list (string * Z) :=
  let series := List.map PyStr.strip (dropna (column_series column df)) in
  let series := dropna (replace_blank series) in
  let data := value_counts series in
  match limit with
  | Some n => if n =? 0 then data else head n data
  | None => data
  end.

(** ** Query construction *)

(** A bound parameter.  [PDay d] is the text [YYYY-MM-DD] of the calendar
    day number [d], as [str(d)] and [d.isoformat()] give it. *)
Inductive Param : Type :=
| PNull
| PText (s : string)
| PDay (d : Z)
| PInt (n : Z).

Record Query : Type := { sql : string; params : list Param }.

Inductive Result (A : Type) : Type :=
| Ok (a : A)
| ValueError (msg : string).
Arguments Ok {A} a.
Arguments ValueError {A} msg.

Definition nl : string := String (ascii_of_nat 10) EmptyString.

(** The statement template shared by both builders, before [.strip()]. *)
Definition select_template (where_clause limit_clause : string) : string :=
  (nl ++ "        SELECT *"
   ++ nl ++ "        FROM service_calls"
   ++ nl ++ "        " ++ where_clause
   ++ nl ++ "        ORDER BY call_entry_datetime DESC"
   ++ nl ++ "        " ++ limit_clause
   ++ nl ++ "    ")%string.

(** A filter criterion of the dashboard: nothing, one value, or a
    collection (list, tuple or set) of values, some possibly blank. *)
Inductive Criterion : Type :=
| Absent
| Single (v : string)
| Many (vs : list (option string)).

Module QueryTools.

Definition FILTER_COLUMN_MAP : list (string * string) :=
  [("state", "state");
   ("model", "model");
   ("assigned_to", "forward_employee_name");
   ("engineer", "visited_engineer_name");
   ("issue_category", "nature_of_complaint");
   ("instrument_status", "instrument_status");
   ("status", "status")].

(** The [filters] dict: the two date bounds (calendar day numbers) and
    the criterion stored under each key ([Absent] for a missing key). *)
Record Filters : Type := {
  start_date : option Z;
  end_date : option Z;
  get : string -> Criterion
}.

(** [bool(value)] *)
Definition truthy (value : Criterion) : bool :=
  match value with
  | Absent => false
  | Single v => PyStr.truthy v
  | Many vs => match vs with [] => false | _ => true end
  end.

(** [[v for v in value if v not in (None, "")]] *)
Definition nonblank (vs : list (option string)) : list string :=
  List.flat_map
    (fun v => match v with
              | Some s => if String.eqb s "" then [] else [s]
              | None => []
              end) vs.

(** [_append_condition(column, value, conditions, params)], on the pair
    of lists it extends. *)
Definition _append_condition (column : string) (value : Criterion)
    (acc : list string * list Param) : list string * list Param :=
  let (conditions, params) := acc in
  match value with
  | Many vs =>
      let values := nonblank vs in
      match values with
      | [] => (conditions, params)
      | _ =>
          let placeholders := PyStr.join ", " (List.repeat "?" (List.length values)) in
          (conditions ++ [(column ++ " IN (" ++ placeholders ++ ")")%string],
           params ++ List.map PText values)
      end
  | Single v => (conditions ++ [(column ++ " = ?")%string], params ++ [PText v])
  | Absent => (conditions ++ [(column ++ " = ?")%string], params ++ [PNull])
  end.

(** The loop over [FILTER_COLUMN_MAP.items()]. *)
Definition append_filters (filters : Filters)
    (acc : list string * list Param) : list string * list Param :=
  List.fold_left
    (fun acc kc =>
       let value := get filters (fst kc) in
       if negb (truthy value) then acc
       else _append_condition (snd kc) value acc)
    FILTER_COLUMN_MAP acc.

(** [fetch_filtered_calls(filters, limit)] up to the statement and the
    parameters it hands to [pd.read_sql_query]. *)
Definition fetch_filtered_calls_query
    (filters : Filters) (limit : option Z) : Result Query :=
  let acc : list string * list Param := ([], []) in
  let acc :=
    match start_date filters with
    | Some d => (fst acc ++ ["date(call_entry_datetime) >= ?"], snd acc ++ [PDay d])
    | None => acc
    end in
  let acc :=
    match end_date filters with
    | Some d => (fst acc ++ ["date(call_entry_datetime) <= ?"], snd acc ++ [PDay d])
    | None => acc
    end in
  let (conditions, params) := append_filters filters acc in
  let where_clause :=
    match conditions with
    | [] => ""
    | _ => ("WHERE " ++ PyStr.join " AND " conditions)%string
    end in
  match limit with
  | Some n =>
      if n <=? 0 then ValueError "limit must be positive"
      else
        Ok {| sql := PyStr.strip (select_template where_clause " LIMIT ?");
              params := params ++ [PInt n] |}
  | None =>
      Ok {| sql := PyStr.strip (select_template where_clause "");
            params := params |}
  end.


End QueryTools.

Module QueryBuilder.

Definition FILTER_COLUMN_MAP : list (string * string) :=
  [("state", "state");
   ("model", "model");
   ("engineer", "visited_engineer_name");
   ("status", "status");
   ("instrument_status", "instrument_status")].

Definition DATE_COLUMN : string := "call_entry_datetime".

(** The [filters] dict of the REST endpoint: optional text under the
    five keys, optional dates under [start_date] and [end_date]. *)
Record Filters : Type := {
  start_date : option Z;
  end_date : option Z;
  get : string -> option string
}.

(** [_coerce_date(value)] on a date *)
Definition _coerce_date (d : Z) : Param := PDay d.

(** [build_service_calls_query(filters, limit=limit)] *)
Definition build_service_calls_query
    (filters : Filters) (limit : option Z) : Result Query :=
  let acc : list string * list Param :=
    List.fold_left
      (fun acc kc =>
         match get filters (fst kc) with
         | None => acc
         | Some value => (fst acc ++ [(snd kc ++ " = ?")%string], snd acc ++ [PText value])
         end)
      FILTER_COLUMN_MAP ([], []) in
  let acc :=
    match start_date filters with
    | Some d => (fst acc ++ [("date(" ++ DATE_COLUMN ++ ") >= ?")%string],
                 snd acc ++ [_coerce_date d])
    | None => acc
    end in
  let acc :=
    match end_date filters with
    | Some d => (fst acc ++ [("date(" ++ DATE_COLUMN ++ ") <= ?")%string],
                 snd acc ++ [_coerce_date d])
    | None => acc
    end in
  let (conditions, params) := acc in
  let where_clause :=
    match conditions with
    | [] => ""
    | _ => (" WHERE " ++ PyStr.join " AND " conditions)%string
    end in
  match limit with
  | Some n =>
      if n <=? 0 then ValueError "limit must be positive"
      else
        Ok {| sql := PyStr.strip (select_template where_clause " LIMIT ?");
              params := params ++ [PInt n] |}
  | None =>
      Ok {| sql := PyStr.strip (select_template where_clause "");
            params := params |}
  end.

End QueryBuilder.

(** ** The structure of the statements [fetch_filtered_calls] builds *)

(** One condition of the WHERE clause with the values bound to it. *)
Inductive Cond : Type :=
| CondDateGe (d : Z)
| CondDateLe (d : Z)
| CondEq (column : string) (v : string)
| CondIn (column : string) (vs : list string).

Definition cond_sql (c : Cond) : string :=
  match c with
  | CondDateGe _ => "date(call_entry_datetime) >= ?"
  | CondDateLe _ => "date(call_entry_datetime) <= ?"
  | CondEq column _ => column ++ " = ?"
  | CondIn column vs =>
      column ++ " IN (" ++ PyStr.join ", " (List.repeat "?" (List.length vs)) ++ ")"
  end%string.

Definition cond_params (c : Cond) : list Param :=
  match c with
  | CondDateGe d => [PDay d]
  | CondDateLe d => [PDay d]
  | CondEq _ v => [PText v]
  | CondIn _ vs => List.map PText vs
  end.

(** The members of a collection criterion: its entries that are neither
    absent nor blank. *)
Definition members (vs : list (option string)) : list string :=
  dropna (List.map (fun v => match v with
                             | Some EmptyString => None
                             | other => other
                             end) vs).

(** The condition a criterion contributes on its column, if any. *)
Definition criterion_conds (column : string) (c : Criterion) : list Cond :=
  match c with
  | Absent => []
  | Single EmptyString => []
  | Single v => [CondEq column v]
  | Many vs =>
      match members vs with
      | [] => []
      | ms => [CondIn column ms]
      end
  end.

Definition date_conds (start_date end_date : option Z) : list Cond :=
  match start_date with Some d => [CondDateGe d] | None => [] end
  ++ match end_date with Some d => [CondDateLe d] | None => [] end.

Definition filter_conds (filters : QueryTools.Filters) : list Cond :=
  date_conds (QueryTools.start_date filters) (QueryTools.end_date filters)
  ++ List.flat_map
       (fun kc => criterion_conds (snd kc) (QueryTools.get filters (fst kc)))
       QueryTools.FILTER_COLUMN_MAP.

(** The statement with a given list of conditions and an optional limit. *)
Definition render_query (conds : list Cond) (limit : option Z) : Query :=
  let where_clause :=
    match conds with
    | [] => ""
    | _ => ("WHERE " ++ PyStr.join " AND " (List.map cond_sql conds))%string
    end in
  {| sql := PyStr.strip (select_template where_clause
                           (match limit with Some _ => " LIMIT ?" | None => "" end));
     params := List.flat_map cond_params conds
               ++ match limit with Some n => [PInt n] | None => [] end |}.

(** ** How the store evaluates these conditions *)

Module Store.

(** The column of [service_calls] with a given name, for the columns
    the filters range over. *)
Definition text_column (name : string) (r : CallRecord) : option string :=
  if String.eqb name "state" then state r
  else if String.eqb name "model" then model r
  else if String.eqb name "forward_employee_name" then forward_employee_name r
  else if String.eqb name "visited_engineer_name" then visited_engineer_name r
  else if String.eqb name "nature_of_complaint" then nature_of_complaint r
  else if String.eqb name "instrument_status" then instrument_status r
  else if String.eqb name "status" then status r
  else None.

(** [date(call_entry_datetime)] as a calendar day number. *)
Definition entry_day (r : CallRecord) : option Z :=
  match call_entry_datetime r with
  | Some t => Some (t / 86400)
  | None => None
  end.

(** Truth of one condition on one row.  A comparison with NULL is not
    true; text is compared exactly. *)
Definition cond_holds (r : CallRecord) (c : Cond) : bool :=
  match c with
  | CondDateGe d => match entry_day r with Some e => d <=? e | None => false end
  | CondDateLe d => match entry_day r with Some e => e <=? d | None => false end
  | CondEq column v =>
      match text_column column r with Some s => String.eqb s v | None => false end
  | CondIn column vs =>
      match text_column column r with
      | Some s => existsb (String.eqb s) vs
      | None => false
      end
  end.

(** [WHERE c1 AND ... AND cn] *)
Definition selects (conds : list Cond) (r : CallRecord) : bool :=
  List.forallb (cond_holds r) conds.

End Store.

(** ** The specification's reading of the aggregates *)

Module Spec.

(** Case-insensitive exact match of an optional text with one of the
    words; an absent text matches nothing. *)
Definition is_one_of (words : list string) (v : option string) : bool :=
  match v with
  | Some s => existsb (fun w => String.eqb (PyStr.lower s) (PyStr.lower w)) words
  | None => false
  end.

(** Case-insensitive prefix test on an optional text. *)
Definition starts_with (word : string) (v : option string) : bool :=
  match v with
  | Some s => String.prefix (PyStr.lower word) (PyStr.lower s)
  | None => false
  end.

Definition closed_words : list string :=
  ["solved"; "closed"; "completed"; "resolved"].

Definition pending_words : list string :=
  ["pending"; "processing"; "unsolved"; "open"; "in progress"].

(** Closed: [status] is one of the closed words, or [call_status]
    starts with "solved". *)
Definition is_closed (r : CallRecord) : bool :=
  is_one_of closed_words (status r) || starts_with "solved" (call_status r).

(** Pending: [status] is one of the pending words. *)
Definition is_pending (r : CallRecord) : bool :=
  is_one_of pending_words (status r).

(** The wider rules of the dashboard: [call_status] may start with any
    word of the list. *)
Definition is_closed_dashboard (r : CallRecord) : bool :=
  is_one_of closed_words (status r)
  || existsb (fun w => starts_with w (call_status r)) closed_words.

Definition is_pending_dashboard (r : CallRecord) : bool :=
  is_one_of pending_words (status r)
  || existsb (fun w => starts_with w (call_status r)) pending_words.

(** The resolution-time sample of a record, in days, when both
    timestamps are present. *)
Definition resolution_sample (r : CallRecord) : option Q :=
  match call_entry_datetime r, call_solved_datetime r with
  | Some e, Some s => Some (inject_Z (s - e) / 86400)%Q
  | _, _ => None
  end.

Definition resolution_samples (df : DataFrame) : list Q :=
  dropna (List.map resolution_sample df).

(** Share, in percent, of the samples of at most two days; 0 without
    samples. *)
Definition sla_percentage (df : DataFrame) : Q :=
  let samples := resolution_samples df in
  match samples with
  | [] => 0%Q
  | _ =>
      (100 * inject_Z (Pandas.count_rows (fun d => Qle_bool d 2) samples)
       / inject_Z (Z.of_nat (List.length samples)))%Q
  end.

(** Thirty days, in seconds. *)
Definition thirty_days : Z := 30 * 86400.

(** In a chronological list of entry times that follows an entry at
    [prev]: the number of entries at most thirty days after their
    immediate predecessor. *)
Fixpoint close_successors_from (prev : Z) (times : list Z) : Z :=
  match times with
  | [] => 0
  | t :: rest =>
      (if t - prev <=? thirty_days then 1 else 0) + close_successors_from t rest
  end.

(** The first entry of a pair is never counted. *)
Definition close_successors (times : list Z) : Z :=
  match times with
  | [] => 0
  | t :: rest => close_successors_from t rest
  end.

(** The (customer_name, customer_complaint) pair of a record that has
    both, and an entry time. *)
Definition issue_key (r : CallRecord) : option (string * string) :=
  match customer_name r, customer_complaint r, call_entry_datetime r with
  | Some n, Some c, Some _ => Some (n, c)
  | _, _, _ => None
  end.

Definition key_eqb (a b : string * string) : bool :=
  String.eqb (fst a) (fst b) && String.eqb (snd a) (snd b).

(** The distinct values of a list, each at its first occurrence. *)
Fixpoint first_seen {A} (eqb : A -> A -> bool) (l : list A) : list A :=
  match l with
  | [] => []
  | x :: rest => x :: List.filter (fun y => negb (eqb x y)) (first_seen eqb rest)
  end.

(** The entry times of the records of one pair, in frame order. *)
Definition entry_times (key : string * string) (df : DataFrame) : list Z :=
  List.flat_map
    (fun r =>
       match issue_key r, call_entry_datetime r with
       | Some k, Some t => if key_eqb key k then [t] else []
       | _, _ => []
       end) df.

(** Repeated issues: over every pair, the entries that follow another
    entry of the pair by at most thirty days, in chronological order. *)
Definition repeated_issues (df : DataFrame) : Z :=
  let keys := first_seen key_eqb (dropna (List.map issue_key df)) in
  List.fold_right
    (fun key acc => close_successors (sort_by Z.leb (entry_times key df)) + acc)
    0 keys.

(** The values a distribution groups: present, trimmed, not blank. *)
Definition grouping_values (column : TextColumn) (df : DataFrame) : list string :=
  List.filter (fun s => negb (String.eqb s ""))
    (List.map PyStr.strip (dropna (column_series column df))).

(** Number of occurrences of a value. *)
Definition occurrences (v : string) (vals : list string) : Z :=
  Pandas.count_rows (String.eqb v) vals.

(** Equal counts in ascending order of the value, on neighbours. *)
Fixpoint ties_ascending (data : list (string * Z)) : bool :=
  match data with
  | a :: (b :: _) as rest =>
      (if snd a =? snd b then String.leb (fst a) (fst b) else true)
      && ties_ascending rest
  | _ => true
  end.

(** Counts in descending order. *)
Definition count_ge (a b : string * Z) : Prop := snd b <= snd a.

(** The shape of a criterion: no constraint, one value, or a set with
    so many members. *)
Inductive CriterionShape : Type :=
| NoConstraint
| OneValue
| SetOf (size : nat).

Definition criterion_shape (c : Criterion) : CriterionShape :=
  match c with
  | Absent => NoConstraint
  | Single EmptyString => NoConstraint
  | Single _ => OneValue
  | Many vs =>
      match List.length (members vs) with
      | O => NoConstraint
      | n => SetOf n
      end
  end.

Definition is_present {A} (v : option A) : bool :=
  match v with Some _ => true | None => false end.

Definition criteria_keys : list string :=
  ["state"; "model"; "assigned_to"; "engineer"; "issue_category";
   "instrument_status"; "status"].

(** Which criteria of a dashboard filter are present, and the sizes of
    their sets. *)
Definition filters_shape (f : QueryTools.Filters)
  : bool * bool * list CriterionShape :=
  (is_present (QueryTools.start_date f),
   is_present (QueryTools.end_date f),
   List.map (fun k => criterion_shape (QueryTools.get f k)) criteria_keys).

Definition builder_keys : list string :=
  ["state"; "model"; "engineer"; "status"; "instrument_status"].

(** Which criteria of a REST filter are present. *)
Definition builder_shape (f : QueryBuilder.Filters) : bool * bool * list bool :=
  (is_present (QueryBuilder.start_date f),
   is_present (QueryBuilder.end_date f),
   List.map (fun k => is_present (QueryBuilder.get f k)) builder_keys).



End Spec.

(** Sample rows used in the examples. *)
Definition row_status (id : Z) (s cs : option string) : CallRecord :=
  {| call_id := id; customer_name := None; state := None; model := None;
     visited_engineer_name := None; forward_employee_name := None;
     nature_of_complaint := None; customer_complaint := None;
     call_type := None; call_status := cs; status := s;
     instrument_status := None; call_entry_datetime := None;
     call_solved_datetime := None |}.

Definition row_times (id : Z) (entry solved : option Z) : CallRecord :=
  {| call_id := id; customer_name := None; state := None; model := None;
     visited_engineer_name := None; forward_employee_name := None;
     nature_of_complaint := None; customer_complaint := None;
     call_type := None; call_status := None; status := None;
     instrument_status := None; call_entry_datetime := entry;
     call_solved_datetime := solved |}.

Definition row_issue (id : Z) (name complaint : string) (day : Z) : CallRecord :=
  {| call_id := id; customer_name := Some name; state := None; model := None;
     visited_engineer_name := None; forward_employee_name := None;
     nature_of_complaint := None; customer_complaint := Some complaint;
     call_type := None; call_status := None; status := None;
     instrument_status := None; call_entry_datetime := Some (day * 86400);
     call_solved_datetime := None |}.

Definition row_state (id : Z) (s : option string) : CallRecord :=
  {| call_id := id; customer_name := None; state := s; model := None;
     visited_engineer_name := None; forward_employee_name := None;
     nature_of_complaint := None; customer_complaint := None;
     call_type := None; call_status := None; status := None;
     instrument_status := None; call_entry_datetime := None;
     call_solved_datetime := None |}.

Definition row_call (id : Z) (st s : option string) (entry : option Z) : CallRecord :=
  {| call_id := id; customer_name := None; state := st; model := None;
     visited_engineer_name := None; forward_employee_name := None;
     nature_of_complaint := None; customer_complaint := None;
     call_type := None; call_status := None; status := s;
     instrument_status := None; call_entry_datetime := entry;
     call_solved_datetime := None |}.

(** The row with its [call_status] replaced. *)
Definition with_call_status (cs : option string) (r : CallRecord) : CallRecord :=
  {| call_id := call_id r; customer_name := customer_name r; state := state r;
     model := model r; visited_engineer_name := visited_engineer_name r;
     forward_employee_name := forward_employee_name r;
     nature_of_complaint := nature_of_complaint r;
     customer_complaint := customer_complaint r; call_type := call_type r;
     call_status := cs; status := status r;
     instrument_status := instrument_status r;
     call_entry_datetime := call_entry_datetime r;
     call_solved_datetime := call_solved_datetime r |}.

(** ** Auxiliary notions for the proofs *)

(** Sum of [f] over a list. *)
Definition sum_over {A} (f : A -> Z) (l : list A) : Z :=
  List.fold_right (fun k acc => f k + acc) 0 l.

(** The entry times of the rows of one pair, in row order. *)
Definition group_times (key : string * string) (rows : list IssueRow) : list Z :=
  List.map snd (List.filter (fun x => Spec.key_eqb key (fst x)) rows).

(** The entry time of the latest row of a pair among the rows passed. *)
Definition last_time (key : string * string) (seen : list IssueRow) : option Z :=
  match List.find (fun x => Spec.key_eqb key (fst x)) seen with
  | Some p => Some (snd p)
  | None => None
  end.

(** [Spec.close_successors] for a group that may already have an entry. *)
Definition close_successors_after (prev : option Z) (times : list Z) : Z :=
  match prev with
  | Some p => Spec.close_successors_from p times
  | None => Spec.close_successors times
  end.

(** The relation of a boolean order. *)
Definition leb_rel {A} (leb : A -> A -> bool) (x y : A) : Prop := leb x y = true.

(** The conditions [build_service_calls_query] emits: one equality per
    key that holds a value, then the date bounds. *)
Definition builder_conditions (filters : QueryBuilder.Filters) : list string :=
  List.flat_map
    (fun kc =>
       match QueryBuilder.get filters (fst kc) with
       | Some _ => [(snd kc ++ " = ?")%string]
       | None => []
       end) QueryBuilder.FILTER_COLUMN_MAP
  ++ match QueryBuilder.start_date filters with
     | Some _ => ["date(call_entry_datetime) >= ?"]
     | None => []
     end
  ++ match QueryBuilder.end_date filters with
     | Some _ => ["date(call_entry_datetime) <= ?"]
     | None => []
     end.

(** The values [build_service_calls_query] binds, in order. *)
Definition builder_values (filters : QueryBuilder.Filters) : list Param :=
  List.map PText
    (dropna (List.map (fun kc => QueryBuilder.get filters (fst kc))
               QueryBuilder.FILTER_COLUMN_MAP))
  ++ List.map PDay
       (dropna [QueryBuilder.start_date filters; QueryBuilder.end_date filters]).

(** The statement text of a result, when there is one. *)
Definition statement (r : Result Query) : option string :=
  match r with
  | Ok q => Some (sql q)
  | ValueError _ => None
  end.

(** The parameter a limit binds. *)
Definition limit_params (limit : option Z) : list Param :=
  match limit with
  | Some n => [PInt n]
  | None => []
  end.

(** Sample filters used in the examples. *)
Definition sample_filters (state_values : list (option string)) : QueryTools.Filters :=
  {| QueryTools.start_date := Some 19723;
     QueryTools.end_date := None;
     QueryTools.get :=
       fun k => if String.eqb k "state" then Many state_values
                else if String.eqb k "status" then Single "Open"
                else Absent |}.

Definition sample_builder_filters (model_value : string) : QueryBuilder.Filters :=
  {| QueryBuilder.start_date := None;
     QueryBuilder.end_date := Some 19754;
     QueryBuilder.get :=
       fun k => if String.eqb k "model" then Some model_value else None |}.

(** ** Time series *)

(** [timestamp.date()]: the calendar day number of a timestamp. *)
Definition day_of (t : Z) : Z := t / 86400.

(** One more row on [day] in a table of group sizes kept in ascending
    order of the days. *)
Fixpoint day_bump (day : Z) (sizes : list (Z * Z)) : list (Z * Z) :=
  match sizes with
  | [] => [(day, 1)]
  | (d, c) :: rest =>
      if day <? d then (day, 1) :: sizes
      else if day =? d then (d, c + 1) :: rest
      else (d, c) :: day_bump day rest
  end.

(** [groupby("date").size().reset_index(name="count")]: one row per
    distinct date with the number of rows of that date, the dates in
    ascending order. *)
Definition group_sizes (dates : list Z) : list (Z * Z) :=
  List.fold_left (fun sizes d => day_bump d sizes) dates [].

(** The order of [sort_values("date")]. *)
Definition date_leb (a b : Z * Z) : bool := fst a <=? fst b.

(** [prepare_calls_logged_per_day(df)]: rows (date, count). *)
Definition prepare_calls_logged_per_day (df : DataFrame) : list (Z * Z) :=
  match df with
  | [] => []
  | _ =>
      let dates := List.map day_of (dropna (List.map call_entry_datetime df)) in
      sort_by date_leb (group_sizes dates)
  end.

(** [prepare_calls_closed_per_day(df)]: rows (date, count). *)
Definition prepare_calls_closed_per_day (df : DataFrame) : list (Z * Z) :=
  match df with
  | [] => []
  | _ =>
      let dates := List.map day_of (dropna (List.map call_solved_datetime df)) in
      sort_by date_leb (group_sizes dates)
  end.

(** The size recorded for a day in a table of group sizes. *)
Definition size_at (day : Z) (sizes : list (Z * Z)) : Z :=
  sum_over (fun kc => if fst kc =? day then snd kc else 0) sizes.

(** Dates in strictly ascending order. *)
Definition date_lt (a b : Z * Z) : Prop := fst a < fst b.

(** [prepare_top_issues(df, limit)]: rows (issue, count).  The dashboard
    calls it with the default [limit = 10]. *)
Definition prepare_top_issues (df : DataFrame) (limit : Z) : list (string * Z) :=
  let series := dropna (column_series col_customer_complaint df) in
  let series := List.map PyStr.strip series in
  let series := dropna (replace_blank series) in
  head limit (value_counts series).

(** ** Placeholders *)

(** Number of occurrences of a character in a text. *)
Fixpoint count_char (c : ascii) (s : string) : nat :=
  match s with
  | EmptyString => O
  | String a r => ((if Ascii.eqb a c then 1 else 0) + count_char c r)%nat
  end.

(** Number of [?] placeholders of a statement. *)
Definition placeholders (s : string) : nat := count_char "?"%char s.

(** ** The REST endpoints *)

Definition ALL_CALLS_LIMIT : Z := 2000.
Definition FILTER_DEFAULT_LIMIT : Z := 1000.

(** The outcome of a request: the statement the handler executes, a
    rejection of the request parameters (422), a missing resource (404), or
    an exception that escapes the handler (500). *)
Inductive Response (A : Type) : Type :=
| Served (a : A)
| Unprocessable
| NotFound (detail : string)
| InternalError (msg : string).
Arguments Served {A} a.
Arguments Unprocessable {A}.
Arguments NotFound {A} detail.
Arguments InternalError {A} msg.

(** The statement and the parameter of [get_all_calls]. *)
Definition get_all_calls_query : Query :=
  {| sql := (nl ++ "        SELECT *"
             ++ nl ++ "        FROM service_calls"
             ++ nl ++ "        ORDER BY call_entry_datetime DESC"
             ++ nl ++ "        LIMIT ?"
             ++ nl ++ "        ")%string;
     params := [PInt ALL_CALLS_LIMIT] |}.

(** The [filters] dict [filter_calls] builds from its query parameters. *)
Definition filter_calls_filters
    (state model engineer : option string) (start_date end_date : option Z)
    (status instrument_status : option string) : QueryBuilder.Filters :=
  {| QueryBuilder.start_date := start_date;
     QueryBuilder.end_date := end_date;
     QueryBuilder.get :=
       fun key =>
         if String.eqb key "state" then state
         else if String.eqb key "model" then model
         else if String.eqb key "engineer" then engineer
         else if String.eqb key "status" then status
         else if String.eqb key "instrument_status" then instrument_status
         else None |}.

(** [filter_calls] up to the statement it executes.  [limit] is the
    query parameter, [None] when the request leaves it out; it is declared
    [Query(FILTER_DEFAULT_LIMIT, ge=1, le=5000)]. *)
Definition filter_calls_query
    (state model engineer : option string) (start_date end_date : option Z)
    (status instrument_status : option string) (limit : option Z) : Response Query :=
  let limit := match limit with Some n => n | None => FILTER_DEFAULT_LIMIT end in
  if (limit <? 1) || (5000 <? limit) then Unprocessable
  else
    let filters :=
      filter_calls_filters state model engineer start_date end_date
        status instrument_status in
    match QueryBuilder.build_service_calls_query filters (Some limit) with
    | Ok query => Served query
    | ValueError msg => InternalError msg
    end.

(** The words of a statement: its maximal runs of characters other than
    white space. *)
Fixpoint words_from (current : string) (s : string) : list string :=
  match s with
  | EmptyString => match current with EmptyString => [] | _ => [current] end
  | String c rest =>
      if PyStr.is_space c then
        match current with
        | EmptyString => words_from EmptyString rest
        | _ => current :: words_from EmptyString rest
        end
      else words_from (current ++ String c EmptyString) rest
  end.

Definition sql_words (s : string) : list string := words_from EmptyString s.

(** ** Filter metadata *)

(** SQL [TRIM(x)]: [x] without the blanks at its two ends. *)
Fixpoint sql_ltrim (s : string) : string :=
  match s with
  | EmptyString => EmptyString
  | String c r => if Ascii.eqb c " " then sql_ltrim r else s
  end.

Fixpoint sql_rtrim (s : string) : string :=
  match s with
  | EmptyString => EmptyString
  | String c r =>
      match sql_rtrim r with
      | EmptyString => if Ascii.eqb c " " then EmptyString else String c EmptyString
      | r' => String c r'
      end
  end.

Definition sql_trim (s : string) : string := sql_rtrim (sql_ltrim s).

(** [_fetch_distinct_values(connection, column)]: the distinct values of
    the column that are not NULL and not blank, in ascending order. *)
Definition _fetch_distinct_values (rows : DataFrame) (column : string) : list string :=
  let present := dropna (List.map (Store.text_column column) rows) in
  let kept := List.filter (fun v => negb (String.eqb (sql_trim v) "")) present in
  sort_by String.leb (Spec.first_seen String.eqb kept).

(** [MIN(x)] and [MAX(x)] over the values that are not NULL; NULL over
    none. *)
Definition sql_min (values : list Z) : option Z :=
  match values with
  | [] => None
  | v :: rest => Some (List.fold_left Z.min rest v)
  end.

Definition sql_max (values : list Z) : option Z :=
  match values with
  | [] => None
  | v :: rest => Some (List.fold_left Z.max rest v)
  end.

Record FilterMetadata : Type := {
  date_min : option Z;
  date_max : option Z;
  state_options : list string;
  model_options : list string;
  assigned_to_options : list string;
  engineer_options : list string;
  issue_category_options : list string;
  instrument_status_options : list string;
  status_options : list string
}.

(** [column_options[key]]: the options of the column a key stands for. *)
Definition column_options (rows : DataFrame) (key : string) : list string :=
  match List.find (fun kc => String.eqb (fst kc) key) QueryTools.FILTER_COLUMN_MAP with
  | Some kc => _fetch_distinct_values rows (snd kc)
  | None => []
  end.

(** [get_filter_metadata()] on the rows of the store, before caching. *)
Definition get_filter_metadata (rows : DataFrame) : FilterMetadata :=
  let days := dropna (List.map Store.entry_day rows) in
  {| date_min := sql_min days;
     date_max := sql_max days;
     state_options := column_options rows "state";
     model_options := column_options rows "model";
     assigned_to_options := column_options rows "assigned_to";
     engineer_options := column_options rows "engineer";
     issue_category_options := column_options rows "issue_category";
     instrument_status_options := column_options rows "instrument_status";
     status_options := column_options rows "status" |}.

(** The filters of the dashboard when nothing is selected: the date range
    and no criterion. *)
Definition date_range_filters (start_date end_date : option Z) : QueryTools.Filters :=
  {| QueryTools.start_date := start_date;
     QueryTools.end_date := end_date;
     QueryTools.get := fun _ => Absent |}.

(** Strictly ascending order of texts. *)
Definition string_lt (s t : string) : Prop := String.compare s t = Lt.

(** ** Reading single records and the latest update *)

(** [str(n)] for an integer. *)
Definition py_str_int (n : Z) : string := NilZero.string_of_int (Z.to_int n).

(** The integers the store holds and binds: 64 bits, signed. *)
Definition sqlite_integer (n : Z) : bool := (- 2 ^ 63 <=? n) && (n <? 2 ^ 63).

(** [get_call_by_id(call_id)]: the first row [WHERE call_id = ?], or 404.
    Binding an integer that does not fit 64 bits raises OverflowError,
    which the handler does not catch. *)
Definition get_call_by_id (rows : DataFrame) (id : Z) : Response CallRecord :=
  if negb (sqlite_integer id) then
    InternalError "Python int too large to convert to SQLite INTEGER"
  else
    match List.find (fun r => call_id r =? id) rows with
    | Some row => Served row
    | None => NotFound ("Call ID " ++ py_str_int id ++ " not found")
    end.

(** [ORDER BY call_entry_datetime DESC]: later entries first, NULL last. *)
Definition entry_desc_leb (a b : CallRecord) : bool :=
  match call_entry_datetime a, call_entry_datetime b with
  | Some x, Some y => y <=? x
  | Some _, None => true
  | None, Some _ => false
  | None, None => true
  end.

(** [get_all_calls()]: the rows the statement of [get_all_calls_query]
    returns. *)
Definition get_all_calls (rows : DataFrame) : list CallRecord :=
  List.firstn (Z.to_nat ALL_CALLS_LIMIT) (sort_by entry_desc_leb rows).

(** A row of [update_history]. *)
Record HistoryRow : Type := {
  h_file_name : option string;
  h_rows_processed : option Z;
  h_new_rows : option Z;
  h_updated_at : option string
}.

(** The three timestamp columns of a stored call, as the store keeps
    them: text or NULL. *)
Record CallStamps : Type := {
  entry_text : option string;
  solved_text : option string;
  start_text : option string
}.

(** The store as [get_latest_update] reads it: the rows of
    [update_history], if the table exists, and the stored calls. *)
Record UpdateStore : Type := {
  update_history : option (list HistoryRow);
  service_calls : list CallStamps
}.

Record LatestUpdate : Type := {
  source : string;
  file_name : option string;
  rows_processed : option Z;
  new_rows : option Z;
  updated_at : option string;
  fallback : bool;
  metadata : option (list (string * option string))
}.

(** The order of texts in the store, NULL below every text. *)
Definition text_leb (a b : option string) : bool :=
  match a, b with
  | None, _ => true
  | Some _, None => false
  | Some x, Some y => String.leb x y
  end.

(** [ORDER BY updated_at DESC] *)
Definition updated_desc_leb (a b : HistoryRow) : bool :=
  text_leb (h_updated_at b) (h_updated_at a).

(** [MAX(x)] over a text column: the greatest text, NULL over none. *)
Definition sql_max_text (values : list (option string)) : option string :=
  List.fold_left (fun best v => if text_leb v best then best else v) values None.

(** [_latest_update_from_history(db)] *)
Definition _latest_update_from_history (db : UpdateStore) : option LatestUpdate :=
  match update_history db with
  | None => None
  | Some history =>
      match sort_by updated_desc_leb history with
      | [] => None
      | row :: _ =>
          Some {| source := "update_history";
                  file_name := h_file_name row;
                  rows_processed := h_rows_processed row;
                  new_rows := h_new_rows row;
                  updated_at := h_updated_at row;
                  fallback := false;
                  metadata := None |}
      end
  end.

(** [_fallback_latest_update(db)] *)
Definition _fallback_latest_update (db : UpdateStore) : option LatestUpdate :=
  let total_rows := Z.of_nat (List.length (service_calls db)) in
  let last_call_entry := sql_max_text (List.map entry_text (service_calls db)) in
  let last_call_solved := sql_max_text (List.map solved_text (service_calls db)) in
  let last_start := sql_max_text (List.map start_text (service_calls db)) in
  if total_rows =? 0 then None
  else
    Some {| source := "service_calls";
            file_name := None;
            rows_processed := Some total_rows;
            new_rows := None;
            updated_at := last_call_entry;
            fallback := true;
            metadata :=
              Some [("last_call_entry", last_call_entry);
                    ("last_call_solved", last_call_solved);
                    ("last_start_call", last_start);
                    ("total_rows", Some (py_str_int total_rows))] |}.

(** [get_latest_update()] *)
Definition get_latest_update (db : UpdateStore) : Response LatestUpdate :=
  match _latest_update_from_history db with
  | Some history => Served history
  | None =>
      match _fallback_latest_update db with
      | Some fallback => Served fallback
      | None => NotFound "No update information available"
      end
  end.

(** ** How the store runs the statements of the filter queries *)

Module Sqlite.

(** White space of the SQL tokenizer: blank, tab, LF, FF, CR. *)
Definition is_space (c : ascii) : bool :=
  let n := N_of_ascii c in
  ((n =? 32) || (n =? 9) || (n =? 10) || (n =? 12) || (n =? 13))%N.

(** The words of a statement: its maximal runs of characters other than
    white space. *)
Fixpoint words_from (current : string) (s : string) : list string :=
  match s with
  | EmptyString => match current with EmptyString => [] | _ => [current] end
  | String c rest =>
      if is_space c then
        match current with
        | EmptyString => words_from EmptyString rest
        | _ => current :: words_from EmptyString rest
        end
      else words_from (current ++ String c EmptyString) rest
  end.

Definition words (s : string) : list string := words_from EmptyString s.

(** One condition of a WHERE clause, before its parameters are bound. *)
Inductive Shape : Type :=
| ShapeDateGe
| ShapeDateLe
| ShapeEq (column : string)
| ShapeIn (column : string) (size : nat).

(** The text columns of [service_calls] a condition may name. *)
Definition text_columns : list string :=
  ["state"; "model"; "forward_employee_name"; "visited_engineer_name";
   "nature_of_complaint"; "instrument_status"; "status"].

Definition is_text_column (name : string) : bool :=
  existsb (String.eqb name) text_columns.

(** The rest of a placeholder list [(?, ..., ?)] after its first word
    [(?,]: the number of placeholders left and the words that follow. *)
Fixpoint parse_marks (ws : list string) : option (nat * list string) :=
  match ws with
  | w :: rest =>
      if String.eqb w "?)" then Some (1%nat, rest)
      else if String.eqb w "?," then
        match parse_marks rest with
        | Some (n, rest') => Some (S n, rest')
        | None => None
        end
      else None
  | [] => None
  end.

(** One condition at the head of a list of words. *)
Definition parse_cond (ws : list string) : option (Shape * list string) :=
  match ws with
  | w1 :: w2 :: w3 :: rest =>
      if String.eqb w1 "date(call_entry_datetime)" then
        if String.eqb w3 "?" then
          if String.eqb w2 ">=" then Some (ShapeDateGe, rest)
          else if String.eqb w2 "<=" then Some (ShapeDateLe, rest)
          else None
        else None
      else if is_text_column w1 then
        if String.eqb w2 "=" then
          if String.eqb w3 "?" then Some (ShapeEq w1, rest) else None
        else if String.eqb w2 "IN" then
          if String.eqb w3 "(?)" then Some (ShapeIn w1 1, rest)
          else if String.eqb w3 "(?," then
            match parse_marks rest with
            | Some (n, rest') => Some (ShapeIn w1 (S n), rest')
            | None => None
            end
          else None
        else None
      else None
  | _ => None
  end.

(** Conditions joined by AND; [fuel] bounds the number of conditions. *)
Fixpoint parse_conds (fuel : nat) (ws : list string) : option (list Shape * list string) :=
  match fuel with
  | O => None
  | S fuel' =>
      match parse_cond ws with
      | Some (shape, rest) =>
          match rest with
          | w :: rest' =>
              if String.eqb w "AND" then
                match parse_conds fuel' rest' with
                | Some (shapes, rest'') => Some (shape :: shapes, rest'')
                | None => None
                end
              else Some ([shape], rest)
          | [] => Some ([shape], [])
          end
      | None => None
      end
  end.

Fixpoint strip_prefix (prefix ws : list string) : option (list string) :=
  match prefix, ws with
  | [], _ => Some ws
  | p :: prefix', w :: ws' => if String.eqb p w then strip_prefix prefix' ws' else None
  | _ :: _, [] => None
  end.

(** A statement of the fragment the filter queries are written in:
    [SELECT * FROM service_calls [WHERE c AND ... AND c]
     ORDER BY call_entry_datetime DESC [LIMIT ?]]. *)
Record Statement : Type := { where_shapes : list Shape; has_limit : bool }.

Definition parse (text : string) : option Statement :=
  match strip_prefix ["SELECT"; "*"; "FROM"; "service_calls"] (words text) with
  | Some rest =>
      let conditions :=
        match rest with
        | w :: rest' =>
            if String.eqb w "WHERE" then parse_conds (List.length rest') rest'
            else Some ([], rest)
        | [] => Some ([], [])
        end in
      match conditions with
      | Some (shapes, rest') =>
          match strip_prefix ["ORDER"; "BY"; "call_entry_datetime"; "DESC"] rest' with
          | Some [] => Some {| where_shapes := shapes; has_limit := false |}
          | Some [w1; w2] =>
              if String.eqb w1 "LIMIT" && String.eqb w2 "?"
              then Some {| where_shapes := shapes; has_limit := true |}
              else None
          | _ => None
          end
      | None => None
      end
  | None => None
  end.

(** The texts bound to the [size] placeholders of an IN list. *)
Fixpoint take_texts (size : nat) (ps : list Param) : option (list string * list Param) :=
  match size with
  | O => Some ([], ps)
  | S size' =>
      match ps with
      | PText v :: ps' =>
          match take_texts size' ps' with
          | Some (vs, rest) => Some (v :: vs, rest)
          | None => None
          end
      | _ => None
      end
  end.

(** A condition with the parameters bound to its placeholders, in the
    order of the statement.  A date condition takes a date text, a text
    condition takes texts; [column = NULL] is true of no row. *)
Definition bind_one (shape : Shape) (ps : list Param) : option (Cond * list Param) :=
  match shape with
  | ShapeDateGe =>
      match ps with PDay d :: rest => Some (CondDateGe d, rest) | _ => None end
  | ShapeDateLe =>
      match ps with PDay d :: rest => Some (CondDateLe d, rest) | _ => None end
  | ShapeEq column =>
      match ps with
      | PText v :: rest => Some (CondEq column v, rest)
      | PNull :: rest => Some (CondIn column [], rest)
      | _ => None
      end
  | ShapeIn column size =>
      match take_texts size ps with
      | Some (vs, rest) => Some (CondIn column vs, rest)
      | None => None
      end
  end.

Fixpoint bind (shapes : list Shape) (ps : list Param) : option (list Cond * list Param) :=
  match shapes with
  | [] => Some ([], ps)
  | shape :: shapes' =>
      match bind_one shape ps with
      | Some (c, ps') =>
          match bind shapes' ps' with
          | Some (cs, rest) => Some (c :: cs, rest)
          | None => None
          end
      | None => None
      end
  end.

(** [connection.execute(text, params).fetchall()] on the rows of
    [service_calls]: the rows every condition holds of, the latest entry
    first, at most as many as the limit says (a negative limit is none).
    A statement outside the fragment, or parameters that do not fit its
    placeholders, get no result here. *)
Definition execute (text : string) (ps : list Param) (rows : DataFrame)
  : option (list CallRecord) :=
  match parse text with
  | Some statement =>
      match bind (where_shapes statement) ps with
      | Some (conds, rest) =>
          let selected := sort_by entry_desc_leb (List.filter (Store.selects conds) rows) in
          if has_limit statement then
            match rest with
            | [PInt n] =>
                if negb (sqlite_integer n) then None
                else if n <? 0 then Some selected
                else Some (List.firstn (Z.to_nat n) selected)
            | _ => None
            end
          else
            match rest with
            | [] => Some selected
            | _ => None
            end
      | None => None
      end
  | None => None
  end.

End Sqlite.






(** * Properties *)

(** ** Strings *)

Lemma lower_char_idem (c : ascii) :
  PyStr.lower_char (PyStr.lower_char c) = PyStr.lower_char c.
Proof.
  destruct c as [[] [] [] [] [] [] [] []]; reflexivity.
Qed.

Lemma lower_idem (s : string) : PyStr.lower (PyStr.lower s) = PyStr.lower s.
Proof.
  induction s as [| c s IH]; simpl.
  - reflexivity.
  - now rewrite lower_char_idem, IH.
Qed.

(** ** Counting rows *)

Lemma count_rows_cons {A} (p : A -> bool) (x : A) (l : list A) :
  Pandas.count_rows p (x :: l) = (if p x then 1 else 0) + Pandas.count_rows p l.
Proof.
  unfold Pandas.count_rows. cbn [List.filter].
  destruct (p x); cbn [List.length]; lia.
Qed.

Lemma count_rows_ext {A} (p q : A -> bool) (l : list A) :
  (forall x, p x = q x) -> Pandas.count_rows p l = Pandas.count_rows q l.
Proof.
  intros E. unfold Pandas.count_rows. now rewrite (List.filter_ext _ _ E).
Qed.

Lemma mask_sum_cons (b : bool) (m : list bool) :
  Pandas.mask_sum (b :: m) = (if b then 1 else 0) + Pandas.mask_sum m.
Proof.
  unfold Pandas.mask_sum. cbn [List.filter].
  destruct b; cbn [List.length]; lia.
Qed.

(** The sum of two aligned masks built row by row counts the rows where
    either test holds. *)
Lemma mask_sum_or {A} (p q : A -> bool) (l : list A) :
  Pandas.mask_sum (Pandas.mask_or (List.map p l) (List.map q l))
  = Pandas.count_rows (fun x => p x || q x) l.
Proof.
  induction l as [| x l IH].
  - reflexivity.
  - cbn [List.map Pandas.mask_or]. now rewrite mask_sum_cons, count_rows_cons, IH.
Qed.

Lemma sum_case_count {A} (c : A -> bool) (rows : list A) :
  Sql.or_zero (Sql.SUM_CASE c rows) = Pandas.count_rows c rows.
Proof.
  destruct rows as [| r rows]; [reflexivity |].
  unfold Sql.SUM_CASE, Sql.or_zero.
  generalize (r :: rows). intros l.
  induction l as [| x l IH]; [reflexivity |].
  cbn [List.fold_right]. now rewrite count_rows_cons, IH.
Qed.

(** ** Status classification *)

Lemma dashboard_closed_row (r : CallRecord) :
  Pandas.isin (List.map PyStr.lower closed_targets)
    (PyStr.lower (Pandas.fillna "" (status r)))
  || existsb
       (fun target =>
          PyStr.startswith (PyStr.lower (Pandas.fillna "" (call_status r))) target)
       (List.map PyStr.lower closed_targets)
  = Spec.is_closed_dashboard r.
Proof.
  unfold Spec.is_closed_dashboard, Spec.is_one_of, Spec.starts_with.
  destruct (status r) as [s |], (call_status r) as [cs |]; reflexivity.
Qed.

Lemma dashboard_pending_row (r : CallRecord) :
  Pandas.isin (List.map PyStr.lower pending_targets)
    (PyStr.lower (Pandas.fillna "" (status r)))
  || existsb
       (fun target =>
          PyStr.startswith (PyStr.lower (Pandas.fillna "" (call_status r))) target)
       (List.map PyStr.lower pending_targets)
  = Spec.is_pending_dashboard r.
Proof.
  unfold Spec.is_pending_dashboard, Spec.is_one_of, Spec.starts_with.
  destruct (status r) as [s |], (call_status r) as [cs |]; reflexivity.
Qed.

Lemma status_matches_count (df : DataFrame) (targets : list string) :
  Pandas.mask_sum (_status_matches df targets)
  = Pandas.count_rows
      (fun r =>
         Pandas.isin (List.map PyStr.lower targets)
           (PyStr.lower (Pandas.fillna "" (status r)))
         || existsb
              (fun target =>
                 PyStr.startswith (PyStr.lower (Pandas.fillna "" (call_status r))) target)
              (List.map PyStr.lower targets)) df.
Proof.
  unfold _status_matches. apply mask_sum_or.
Qed.

Lemma stats_closed_row (r : CallRecord) : stats_closed_case r = Spec.is_closed r.
Proof.
  unfold stats_closed_case, Spec.is_closed, Spec.is_one_of, Spec.starts_with,
    Sql.LIKE_prefix, Sql.LOWER, Sql.coalesce.
  destruct (status r) as [s |], (call_status r) as [cs |]; cbn [Pandas.fillna];
    rewrite ?lower_idem; reflexivity.
Qed.

Lemma stats_pending_row (r : CallRecord) : stats_pending_case r = Spec.is_pending r.
Proof.
  unfold stats_pending_case, Spec.is_pending, Spec.is_one_of, Sql.LOWER, Sql.coalesce.
  destruct (status r) as [s |]; reflexivity.
Qed.

Lemma compute_kpis_closed (df : DataFrame) :
  closed_calls (compute_kpis df) = Pandas.count_rows Spec.is_closed_dashboard df.
Proof.
  unfold compute_kpis.
  destruct df as [| r df]; [reflexivity |].
  replace (Z.of_nat (List.length (r :: df)) =? 0) with false
    by (symmetry; apply Z.eqb_neq; cbn [List.length]; lia).
  cbn [closed_calls]. rewrite status_matches_count.
  apply count_rows_ext, dashboard_closed_row.
Qed.

Lemma compute_kpis_pending (df : DataFrame) :
  pending_calls (compute_kpis df) = Pandas.count_rows Spec.is_pending_dashboard df.
Proof.
  unfold compute_kpis.
  destruct df as [| r df]; [reflexivity |].
  replace (Z.of_nat (List.length (r :: df)) =? 0) with false
    by (symmetry; apply Z.eqb_neq; cbn [List.length]; lia).
  cbn [pending_calls]. rewrite status_matches_count.
  apply count_rows_ext, dashboard_pending_row.
Qed.

(** The closed calls of both paths.  On the REST statistics path
    [closed_calls] counts the records whose [status] is, ignoring case, one
    of solved, closed, completed, resolved, or whose [call_status] starts,
    ignoring case, with "solved".  On the dashboard path the [call_status]
    may start with any of the four words, so every record closed by the
    first rule is closed by the second.  A record with status "Solved" and
    no call_status, one with call_status "Solved - OK" and no status, and
    one with status "solved" are counted on both paths. *)
Theorem closed_calls_rule (df : DataFrame) :
  get_stats_closed_calls df = Pandas.count_rows Spec.is_closed df
  /\ closed_calls (compute_kpis df) = Pandas.count_rows Spec.is_closed_dashboard df
  /\ (forall r, implb (Spec.is_closed r) (Spec.is_closed_dashboard r) = true)
  /\ (get_stats_closed_calls [row_status 1 (Some "Solved") None] = 1
      /\ closed_calls (compute_kpis [row_status 1 (Some "Solved") None]) = 1)
  /\ (get_stats_closed_calls [row_status 2 None (Some "Solved - OK")] = 1
      /\ closed_calls (compute_kpis [row_status 2 None (Some "Solved - OK")]) = 1)
  /\ (get_stats_closed_calls [row_status 3 (Some "solved") None] = 1
      /\ closed_calls (compute_kpis [row_status 3 (Some "solved") None]) = 1).
Proof.
  split; [| split; [| split]].
  - unfold get_stats_closed_calls. rewrite sum_case_count.
    apply count_rows_ext, stats_closed_row.
  - apply compute_kpis_closed.
  - intros r. unfold Spec.is_closed, Spec.is_closed_dashboard, Spec.closed_words.
    destruct (Spec.is_one_of _ (status r)); [reflexivity |].
    cbn [orb existsb].
    destruct (Spec.starts_with "solved" (call_status r)); reflexivity.
  - repeat split; reflexivity.
Qed.

(** C1.  [closed_calls] is the number of records whose [status] is one of
    solved, closed, completed, resolved or whose [call_status] starts with
    "solved": [get_stats] computes exactly this count on every collection.
    [compute_kpis] departs from it: for the single record without status
    and with call_status "Closed" it reports one closed call where the
    rule, and [get_stats], give none. *)
Theorem closed_calls_dashboard_counts_other_prefixes :
  (forall df, get_stats_closed_calls df = Pandas.count_rows Spec.is_closed df)
  /\ Pandas.count_rows Spec.is_closed [row_status 1 None (Some "Closed")] = 0
  /\ get_stats_closed_calls [row_status 1 None (Some "Closed")] = 0
  /\ closed_calls (compute_kpis [row_status 1 None (Some "Closed")]) = 1.
Proof.
  split; [| repeat split; reflexivity].
  intros df. unfold get_stats_closed_calls. rewrite sum_case_count.
  apply count_rows_ext, stats_closed_row.
Qed.

(** The pending calls of both paths.  On the REST statistics path
    [pending_calls] counts the records whose [status] is, ignoring case,
    one of pending, processing, unsolved, open, in progress, and
    [call_status] plays no role: replacing the call_status of every row by
    anything leaves the count unchanged.  On the dashboard path a record is
    pending also when its [call_status] starts, ignoring case, with one of
    the five words. *)
Theorem pending_calls_rule (df : DataFrame) :
  get_stats_pending_calls df = Pandas.count_rows Spec.is_pending df
  /\ (forall other : CallRecord -> option string,
        get_stats_pending_calls (List.map (fun r => with_call_status (other r) r) df)
        = get_stats_pending_calls df)
  /\ pending_calls (compute_kpis df) = Pandas.count_rows Spec.is_pending_dashboard df
  /\ (forall r, implb (Spec.is_pending r) (Spec.is_pending_dashboard r) = true).
Proof.
  assert (E : forall l, get_stats_pending_calls l = Pandas.count_rows Spec.is_pending l).
  { intros l. unfold get_stats_pending_calls. rewrite sum_case_count.
    apply count_rows_ext, stats_pending_row. }
  split; [apply E | split; [| split]].
  - intros other. rewrite !E.
    induction df as [| r df IH]; [reflexivity |].
    cbn [List.map]. rewrite !count_rows_cons, IH. reflexivity.
  - apply compute_kpis_pending.
  - intros r. unfold Spec.is_pending, Spec.is_pending_dashboard.
    destruct (Spec.is_one_of _ (status r)); reflexivity.
Qed.

(** C2.  [pending_calls] is the number of records whose [status] alone is
    one of pending, processing, unsolved, open, in progress: [get_stats]
    computes exactly this count on every collection.  [compute_kpis]
    departs from it: the record without status and with call_status
    "Pending" is counted as pending, and is no longer counted once its
    call_status is removed, so call_status does play a role there. *)
Theorem pending_calls_dashboard_reads_call_status :
  (forall df, get_stats_pending_calls df = Pandas.count_rows Spec.is_pending df)
  /\ Pandas.count_rows Spec.is_pending [row_status 1 None (Some "Pending")] = 0
  /\ get_stats_pending_calls [row_status 1 None (Some "Pending")] = 0
  /\ pending_calls (compute_kpis [row_status 1 None (Some "Pending")]) = 1
  /\ pending_calls (compute_kpis [row_status 1 None None]) = 0.
Proof.
  split; [| repeat split; reflexivity].
  intros df. unfold get_stats_pending_calls. rewrite sum_case_count.
  apply count_rows_ext, stats_pending_row.
Qed.

(** ** Rounding *)

Lemma round_half_even_comp (q q' : Q) :
  (q == q')%Q -> PyNum.round_half_even q = PyNum.round_half_even q'.
Proof.
  intros E. unfold PyNum.round_half_even.
  rewrite (Qfloor_comp _ _ E).
  assert (E' : (q - inject_Z (Qfloor q') == q' - inject_Z (Qfloor q'))%Q)
    by (now rewrite E).
  now rewrite (Qcompare_comp _ _ E' _ _ (Qeq_refl (1 # 2))).
Qed.

Lemma round_half_even_close (x : Q) :
  (Qabs (inject_Z (PyNum.round_half_even x) - x) <= 1 # 2)%Q.
Proof.
  unfold PyNum.round_half_even.
  pose proof (Qfloor_le x) as Hlo.
  pose proof (Qlt_floor x) as Hhi.
  rewrite inject_Z_plus in Hhi. change (inject_Z 1) with 1%Q in Hhi.
  set (f := Qfloor x) in *.
  apply Qabs_Qle_condition.
  destruct (Qcompare (x - inject_Z f) (1 # 2)) eqn:C.
  - apply Qeq_alt in C.
    destruct (Z.even f); rewrite ?inject_Z_plus; change (inject_Z 1) with 1%Q;
      split; lra.
  - apply Qlt_alt in C. split; lra.
  - apply Qgt_alt in C. rewrite inject_Z_plus. change (inject_Z 1) with 1%Q.
    split; lra.
Qed.

Lemma round_half_even_ge (a : Z) (x : Q) :
  (inject_Z a <= x)%Q -> a <= PyNum.round_half_even x.
Proof.
  intros H. unfold PyNum.round_half_even.
  assert (F : a <= Qfloor x).
  { rewrite <- (Qfloor_Z a). now apply Qfloor_resp_le. }
  destruct (Qcompare _ _); [destruct (Z.even _) |..]; lia.
Qed.

Lemma round_half_even_le (b : Z) (x : Q) :
  (x <= inject_Z b)%Q -> PyNum.round_half_even x <= b.
Proof.
  intros H. unfold PyNum.round_half_even.
  pose proof (Qfloor_le x) as Hlo.
  assert (F : Qfloor x <= b).
  { rewrite <- (Qfloor_Z b). now apply Qfloor_resp_le. }
  destruct (Z.eq_dec (Qfloor x) b) as [E | N].
  - assert (X : (x == inject_Z b)%Q).
    { apply Qle_antisym; [exact H | now rewrite <- E]. }
    assert (C : Qcompare (x - inject_Z (Qfloor x)) (1 # 2) = Lt).
    { apply Qlt_alt. rewrite E, X. unfold Qminus. rewrite Qplus_opp_r. reflexivity. }
    rewrite C. lia.
  - destruct (Qcompare _ _); [destruct (Z.even _) |..]; lia.
Qed.

(** ** Doubles *)

Lemma pow2_pos (k : Z) : 0 < 2 ^ k \/ k < 0.
Proof. destruct (Z.lt_ge_cases k 0); [now right | left; now apply Z.pow_pos_nonneg]. Qed.

Lemma ilog2_le (r : Q) (K : Z) :
  0 <= K -> (r <= inject_Z (2 ^ K))%Q -> PyNum.ilog2 r <= K.
Proof.
  intros HK H. destruct r as [n d]. unfold Qle in H. cbn in H.
  assert (L : Z.log2 n - Z.log2 (Z.pos d) <= K).
  { destruct (Z.le_gt_cases n 0) as [N | N].
    - rewrite (Z.log2_nonpos n N). pose proof (Z.log2_nonneg (Z.pos d)). lia.
    - assert (M : Z.log2 n <= Z.log2 (Z.pos d * 2 ^ K))
        by (apply Z.log2_le_mono; lia).
      rewrite Z.log2_mul_pow2 in M by lia. lia. }
  unfold PyNum.ilog2. cbn [Qnum Qden].
  destruct (if 0 <=? _ then _ else _); lia.
Qed.

Lemma exponent_le (r : Q) : (Qabs r <= 128)%Q -> PyNum.exponent r <= -45.
Proof.
  intros H. unfold PyNum.exponent.
  pose proof (ilog2_le (Qabs r) 7 ltac:(lia) H). lia.
Qed.

Lemma ilog2_low (r : Q) :
  0 < PyNum.ilog2 r -> (inject_Z (2 ^ PyNum.ilog2 r) <= r)%Q.
Proof.
  destruct r as [n d]. unfold PyNum.ilog2. cbn [Qnum Qden].
  set (k := Z.log2 n - Z.log2 (Z.pos d)).
  unfold Qle. cbn [Qnum Qden inject_Z]. rewrite Z.mul_1_r.
  destruct (0 <=? k) eqn:K.
  - destruct (2 ^ k * Z.pos d <=? n) eqn:T.
    + intros _. now apply Z.leb_le in T.
    + intros P. assert (N : 0 < n).
      { destruct (Z.le_gt_cases n 0) as [N | N]; [| exact N].
        unfold k in P. rewrite (Z.log2_nonpos n N) in P.
        pose proof (Z.log2_nonneg (Z.pos d)). lia. }
      pose proof (Z.log2_spec n N) as [Ln _].
      pose proof (Z.log2_spec (Z.pos d) ltac:(lia)) as [_ Ld].
      pose proof (Z.log2_nonneg (Z.pos d)) as D0.
      replace (Z.log2 n) with ((k - 1) + Z.succ (Z.log2 (Z.pos d))) in Ln
        by (unfold k; lia).
      rewrite Z.pow_add_r in Ln by lia.
      assert (0 < 2 ^ (k - 1)) by (apply Z.pow_pos_nonneg; lia).
      nia.
  - apply Z.leb_gt in K. destruct (Z.pos d <=? n * 2 ^ (- k)); lia.
Qed.

(** The two branches of [double]. *)
Lemma double_low (q : Q) :
  let e := PyNum.exponent (Qred q) in
  e <= 0 ->
  (PyNum.double q
   == inject_Z (PyNum.round_half_even (q * inject_Z (2 ^ (- e)))) / inject_Z (2 ^ (- e)))%Q.
Proof.
  intros e H. unfold PyNum.double. fold e.
  replace (e <=? 0) with true by (symmetry; now apply Z.leb_le).
  rewrite Qred_correct.
  now rewrite (round_half_even_comp (Qred q * inject_Z (2 ^ (- e))) (q * inject_Z (2 ^ (- e))))
    by (now rewrite Qred_correct).
Qed.

Lemma double_high (q : Q) :
  let e := PyNum.exponent (Qred q) in
  0 < e ->
  (PyNum.double q
   == inject_Z (PyNum.round_half_even (q / inject_Z (2 ^ e))) * inject_Z (2 ^ e))%Q.
Proof.
  intros e H. unfold PyNum.double. fold e.
  replace (e <=? 0) with false by (symmetry; now apply Z.leb_gt).
  rewrite Qred_correct.
  now rewrite (round_half_even_comp (Qred q / inject_Z (2 ^ e)) (q / inject_Z (2 ^ e)))
    by (now rewrite Qred_correct).
Qed.

Lemma double_comp (q q' : Q) : (q == q')%Q -> PyNum.double q = PyNum.double q'.
Proof. intros E. unfold PyNum.double. now rewrite (Qred_complete _ _ E). Qed.

Lemma inject_pow2_pos (k : Z) : 0 <= k -> (0 < inject_Z (2 ^ k))%Q.
Proof.
  intros H. change 0%Q with (inject_Z 0). rewrite <- Zlt_Qlt.
  now apply Z.pow_pos_nonneg.
Qed.

(** An integer below [q] is below the scaled and rounded [q]. *)
Lemma scaled_ge (a : Z) (q : Q) (n : Z) :
  0 < n -> (inject_Z a <= q)%Q ->
  (inject_Z a <= inject_Z (PyNum.round_half_even (q * inject_Z n)) / inject_Z n)%Q.
Proof.
  intros N H.
  assert (P : (0 < inject_Z n)%Q) by (change 0%Q with (inject_Z 0); now rewrite <- Zlt_Qlt).
  apply Qle_shift_div_l; [exact P |].
  rewrite <- inject_Z_mult, <- Zle_Qle. apply round_half_even_ge.
  rewrite inject_Z_mult. apply Qmult_le_compat_r; [exact H | now apply Qlt_le_weak].
Qed.

Lemma scaled_le (b : Z) (q : Q) (n : Z) :
  0 < n -> (q <= inject_Z b)%Q ->
  (inject_Z (PyNum.round_half_even (q * inject_Z n)) / inject_Z n <= inject_Z b)%Q.
Proof.
  intros N H.
  assert (P : (0 < inject_Z n)%Q) by (change 0%Q with (inject_Z 0); now rewrite <- Zlt_Qlt).
  apply Qle_shift_div_r; [exact P |].
  rewrite <- inject_Z_mult, <- Zle_Qle. apply round_half_even_le.
  rewrite inject_Z_mult. apply Qmult_le_compat_r; [exact H | now apply Qlt_le_weak].
Qed.

Lemma Qle_div_mult (a b c : Q) : (0 < c)%Q -> (a <= b / c)%Q -> (a * c <= b)%Q.
Proof.
  intros P H. setoid_replace b with (b / c * c)%Q by (field; lra).
  apply Qmult_le_compat_r; [exact H | now apply Qlt_le_weak].
Qed.

(** Beyond 53 bits the quotient by the last place is at least 2^52. *)
Lemma high_quotient (q : Q) :
  let e := PyNum.exponent (Qred q) in
  0 < e ->
  (inject_Z (2 ^ 52) <= Qabs q / inject_Z (2 ^ e))%Q.
Proof.
  intros e H.
  assert (E : e = PyNum.ilog2 (Qabs (Qred q)) - 52) by (unfold e, PyNum.exponent in *; lia).
  pose proof (ilog2_low (Qabs (Qred q)) ltac:(lia)) as L.
  assert (A : (Qabs (Qred q) == Qabs q)%Q) by (now rewrite Qred_correct).
  apply Qle_shift_div_l; [apply inject_pow2_pos; lia |].
  rewrite <- inject_Z_mult, <- Z.pow_add_r by lia.
  replace (52 + e) with (PyNum.ilog2 (Qabs (Qred q))) by lia.
  apply (Qle_trans _ _ _ L). rewrite A. apply Qle_refl.
Qed.


Lemma double_nonpos (q : Q) : (q <= 0)%Q -> (PyNum.double q <= 0)%Q.
Proof.
  intros H. destruct (Z.le_gt_cases (PyNum.exponent (Qred q)) 0) as [E | E].
  - rewrite (double_low q E). apply (scaled_le 0); [| exact H].
    apply Z.pow_pos_nonneg; lia.
  - rewrite (double_high q E).
    assert (P : (0 < inject_Z (2 ^ PyNum.exponent (Qred q)))%Q)
      by (apply inject_pow2_pos; lia).
    assert (R : PyNum.round_half_even (q / inject_Z (2 ^ PyNum.exponent (Qred q))) <= 0).
    { apply round_half_even_le. apply Qle_shift_div_r; [exact P |].
      now rewrite Qmult_0_l. }
    rewrite Zle_Qle in R. change (inject_Z 0) with 0%Q in R.
    revert R P. generalize (inject_Z (PyNum.round_half_even (q / inject_Z (2 ^ PyNum.exponent (Qred q))))).
    generalize (inject_Z (2 ^ PyNum.exponent (Qred q))). intros s k R P.
    setoid_replace (k * s)%Q with (- ((- k) * s))%Q by ring.
    assert (0 <= (- k) * s)%Q by (apply Qmult_le_0_compat; lra). lra.
Qed.

Lemma double_ge_int (a : Z) (q : Q) :
  Z.abs a <= 2 ^ 52 -> (inject_Z a <= q)%Q -> (inject_Z a <= PyNum.double q)%Q.
Proof.
  intros A H. destruct (Z.le_gt_cases (PyNum.exponent (Qred q)) 0) as [E | E].
  - rewrite (double_low q E). apply scaled_ge; [| exact H].
    apply Z.pow_pos_nonneg; lia.
  - pose proof (high_quotient q E) as Hq.
    set (e := PyNum.exponent (Qred q)) in *.
    assert (P : (0 < inject_Z (2 ^ e))%Q) by (apply inject_pow2_pos; lia).
    assert (P1 : (1 <= inject_Z (2 ^ e))%Q).
    { change 1%Q with (inject_Z 1). rewrite <- Zle_Qle.
      assert (0 < 2 ^ e) by (apply Z.pow_pos_nonneg; lia). lia. }
    destruct (Qlt_le_dec q 0) as [N | N].
    + exfalso. rewrite (Qabs_neg q) in Hq by now apply Qlt_le_weak.
      assert (B : (inject_Z (2 ^ 52) * inject_Z (2 ^ e) <= - q)%Q)
        by (apply Qle_div_mult; assumption).
      assert (C : (inject_Z (2 ^ 52) * 1 <= inject_Z (2 ^ 52) * inject_Z (2 ^ e))%Q).
      { apply Qmult_le_l; [reflexivity | exact P1]. }
      assert (D : (inject_Z (2 ^ 52 * 2) <= inject_Z (2 ^ 52) * inject_Z (2 ^ e))%Q).
      { rewrite <- inject_Z_mult, <- Zle_Qle.
        assert (2 <= 2 ^ e).
        { change 2 with (2 ^ 1) at 1. apply Z.pow_le_mono_r; lia. }
        nia. }
      assert (F : (- q <= inject_Z (- a))%Q) by (rewrite inject_Z_opp; lra).
      assert (G : (inject_Z (2 ^ 52 * 2) <= inject_Z (- a))%Q) by lra.
      rewrite <- Zle_Qle in G. lia.
    + rewrite (double_high q E). fold e.
      rewrite (Qabs_pos q N) in Hq.
      apply round_half_even_ge in Hq. rewrite Zle_Qle in Hq.
      revert Hq. generalize (inject_Z (PyNum.round_half_even (q / inject_Z (2 ^ e)))).
      intros k Hq.
      assert (B : (inject_Z a <= inject_Z (2 ^ 52))%Q) by (rewrite <- Zle_Qle; lia).
      assert (C : (inject_Z (2 ^ 52) * 1 <= k * inject_Z (2 ^ e))%Q).
      { apply Qmult_le_compat_nonneg; split; try lra.
        change 0%Q with (inject_Z 0). rewrite <- Zle_Qle. lia. }
      lra.
Qed.

Lemma double_le_int (b : Z) (q : Q) :
  Z.abs b <= 2 ^ 52 -> (q <= inject_Z b)%Q -> (PyNum.double q <= inject_Z b)%Q.
Proof.
  intros A H. destruct (Z.le_gt_cases (PyNum.exponent (Qred q)) 0) as [E | E].
  - rewrite (double_low q E). apply scaled_le; [| exact H].
    apply Z.pow_pos_nonneg; lia.
  - pose proof (high_quotient q E) as Hq.
    set (e := PyNum.exponent (Qred q)) in *.
    assert (P : (0 < inject_Z (2 ^ e))%Q) by (apply inject_pow2_pos; lia).
    assert (P2 : (inject_Z 2 <= inject_Z (2 ^ e))%Q).
    { rewrite <- Zle_Qle. change 2 with (2 ^ 1) at 1. apply Z.pow_le_mono_r; lia. }
    assert (B : (inject_Z (- 2 ^ 52) <= inject_Z b)%Q) by (rewrite <- Zle_Qle; lia).
    assert (B' : (inject_Z b <= inject_Z (2 ^ 52))%Q) by (rewrite <- Zle_Qle; lia).
    rewrite inject_Z_opp in B.
    destruct (Qlt_le_dec 0 q) as [N | N].
    + exfalso. rewrite (Qabs_pos q) in Hq by now apply Qlt_le_weak.
      apply Qle_div_mult in Hq; [| exact P].
      assert (C : (inject_Z (2 ^ 52) * inject_Z 2 <= inject_Z (2 ^ 52) * inject_Z (2 ^ e))%Q).
      { apply Qmult_le_l; [reflexivity | exact P2]. }
      change (inject_Z 2) with 2%Q in C.
      assert (D : (0 < inject_Z (2 ^ 52))%Q) by reflexivity.
      lra.
    + rewrite (double_high q E). fold e.
      rewrite (Qabs_neg q N) in Hq.
      assert (R : PyNum.round_half_even (q / inject_Z (2 ^ e)) <= - 2 ^ 52).
      { apply round_half_even_le. rewrite inject_Z_opp.
        setoid_replace (q / inject_Z (2 ^ e))%Q with (- (- q / inject_Z (2 ^ e)))%Q
          by (field; lra).
        lra. }
      rewrite Zle_Qle, inject_Z_opp in R.
      revert R. generalize (inject_Z (PyNum.round_half_even (q / inject_Z (2 ^ e)))).
      intros k R.
      assert (C : (inject_Z (2 ^ 52) * 1 <= (- k) * inject_Z (2 ^ e))%Q).
      { apply Qmult_le_compat_nonneg; split; try lra; unfold Qle; cbn; lia. }
      setoid_replace (k * inject_Z (2 ^ e))%Q with (- ((- k) * inject_Z (2 ^ e)))%Q by ring.
      lra.
Qed.

(** Below 128 a double is within 2^-46 of the number it stands for. *)
Lemma double_close (q : Q) :
  (Qabs q <= 128)%Q -> (Qabs (PyNum.double q - q) <= 1 # 70368744177664)%Q.
Proof.
  intros H.
  assert (E : PyNum.exponent (Qred q) <= -45).
  { apply exponent_le. now rewrite Qred_correct. }
  rewrite (double_low q ltac:(lia)).
  set (e := PyNum.exponent (Qred q)) in *.
  assert (N : (inject_Z (2 ^ 45) <= inject_Z (2 ^ (- e)))%Q).
  { rewrite <- Zle_Qle. apply Z.pow_le_mono_r; lia. }
  pose proof (round_half_even_close (q * inject_Z (2 ^ (- e)))) as C.
  apply Qabs_Qle_condition in C. destruct C as [C1 C2].
  revert C1 C2 N.
  generalize (inject_Z (PyNum.round_half_even (q * inject_Z (2 ^ (- e))))).
  generalize (inject_Z (2 ^ (- e))). intros n k C1 C2 N.
  change (inject_Z (2 ^ 45)) with (35184372088832 # 1)%Q in N.
  assert (P : (0 < n)%Q) by lra.
  set (x := (q * n)%Q) in *.
  apply Qabs_Qle_condition. split.
  - assert (G : (q - (1 # 70368744177664) <= k / n)%Q).
    { apply Qle_shift_div_l; [exact P |].
      setoid_replace ((q - (1 # 70368744177664)) * n)%Q
        with (x - (1 # 70368744177664) * n)%Q by (unfold x; ring).
      lra. }
    lra.
  - assert (G : (k / n <= q + (1 # 70368744177664))%Q).
    { apply Qle_shift_div_r; [exact P |].
      setoid_replace ((q + (1 # 70368744177664)) * n)%Q
        with (x + (1 # 70368744177664) * n)%Q by (unfold x; ring).
      lra. }
    lra.
Qed.

(** A duration in days against a whole number of days: the comparison of
    the double is the comparison of the seconds. *)
Lemma days_le_int (seconds k : Z) :
  0 <= k <= 100 ->
  Qle_bool (PyNum.div (inject_Z seconds) 86400) (inject_Z k) = (seconds <=? k * 86400).
Proof.
  intros K. unfold PyNum.div.
  set (q := (inject_Z seconds / 86400)%Q).
  destruct (seconds <=? k * 86400) eqn:C.
  - apply Z.leb_le in C. apply Qle_bool_iff. apply double_le_int; [lia |].
    unfold q. apply Qle_shift_div_r; [reflexivity |].
    change 86400%Q with (inject_Z 86400). rewrite <- inject_Z_mult, <- Zle_Qle. exact C.
  - apply Z.leb_gt in C. apply Bool.not_true_is_false. intros T.
    apply Qle_bool_iff in T.
    assert (Q1 : (inject_Z k + (1 # 86400) <= q)%Q).
    { unfold q. apply Qle_shift_div_l; [reflexivity |].
      setoid_replace ((inject_Z k + (1 # 86400)) * 86400)%Q
        with (inject_Z (k * 86400 + 1)) by (rewrite inject_Z_plus, inject_Z_mult; field).
      rewrite <- Zle_Qle. lia. }
    assert (K1 : (0 <= inject_Z k)%Q) by (change 0%Q with (inject_Z 0); rewrite <- Zle_Qle; lia).
    assert (K2 : (inject_Z k <= 100)%Q) by (change 100%Q with (inject_Z 100); rewrite <- Zle_Qle; lia).
    destruct (Qlt_le_dec 128 q) as [B | B].
    + pose proof (double_ge_int 128 q ltac:(lia) (Qlt_le_weak _ _ B)) as G.
      change (inject_Z 128) with 128%Q in G. lra.
    + pose proof (double_close q) as D.
      rewrite Qabs_pos in D by lra. specialize (D B).
      apply Qabs_Qle_condition in D. destruct D as [D _]. lra.
Qed.

Lemma days_negative (seconds : Z) :
  seconds < 0 -> (PyNum.div (inject_Z seconds) 86400 < 0)%Q.
Proof.
  intros S. unfold PyNum.div.
  set (q := (inject_Z seconds / 86400)%Q).
  assert (Q1 : (q <= - (1 # 86400))%Q).
  { unfold q. apply Qle_shift_div_r; [reflexivity |].
    setoid_replace (- (1 # 86400) * 86400)%Q with (inject_Z (-1)) by reflexivity.
    rewrite <- Zle_Qle. lia. }
  destruct (Qlt_le_dec q (- (128))) as [B | B].
  - pose proof (double_le_int (-128) q ltac:(lia) (Qlt_le_weak _ _ B)) as G.
    change (inject_Z (-128)) with (-(128))%Q in G. lra.
  - pose proof (double_close q) as D.
    rewrite Qabs_neg in D by lra. specialize (D ltac:(lra)).
    apply Qabs_Qle_condition in D. destruct D as [_ D]. lra.
Qed.

Lemma round_comp (q q' : Q) (n : nat) :
  (q == q')%Q -> PyNum.round q n = PyNum.round q' n.
Proof.
  intros E. unfold PyNum.round.
  set (scale := inject_Z (10 ^ Z.of_nat n)).
  rewrite (round_half_even_comp (q * scale) (q' * scale)); [reflexivity |].
  now rewrite E.
Qed.

Lemma round_ge (a : Z) (x : Q) (n : nat) :
  Z.abs a <= 2 ^ 52 -> (inject_Z a <= x)%Q -> (inject_Z a <= PyNum.round x n)%Q.
Proof.
  intros A H. unfold PyNum.round. apply double_ge_int; [exact A |].
  apply scaled_ge; [apply Z.pow_pos_nonneg; lia | exact H].
Qed.

Lemma round_le (b : Z) (x : Q) (n : nat) :
  Z.abs b <= 2 ^ 52 -> (x <= inject_Z b)%Q -> (PyNum.round x n <= inject_Z b)%Q.
Proof.
  intros B H. unfold PyNum.round. apply double_le_int; [exact B |].
  apply scaled_le; [apply Z.pow_pos_nonneg; lia | exact H].
Qed.

(** [round(x, n)] of a float between 0 and 100: the double nearest to a
    decimal number, at most half a unit of the last decimal place (and the
    2^-46 of the final rounding) away from [x]. *)
Lemma round_decimal (x : Q) (n : nat) :
  (0 <= x <= 100)%Q ->
  let s := 10 ^ Z.of_nat n in
  exists k : Z,
    0 <= k <= 100 * s
    /\ PyNum.round x n = PyNum.double (inject_Z k / inject_Z s)
    /\ (Qabs (inject_Z k / inject_Z s - x) <= (1 # 2) / inject_Z s)%Q
    /\ (Qabs (PyNum.round x n - inject_Z k / inject_Z s) <= 1 # 70368744177664)%Q.
Proof.
  intros [X0 X1] s.
  assert (S : 0 < s) by (apply Z.pow_pos_nonneg; lia).
  assert (SQ : (0 < inject_Z s)%Q)
    by (change 0%Q with (inject_Z 0); now rewrite <- Zlt_Qlt).
  set (k := PyNum.round_half_even (x * inject_Z s)).
  assert (K0 : 0 <= k).
  { apply round_half_even_ge. apply Qmult_le_0_compat; [exact X0 | now apply Qlt_le_weak]. }
  assert (K1 : k <= 100 * s).
  { apply round_half_even_le. rewrite inject_Z_mult.
    apply Qmult_le_compat_r; [exact X1 | now apply Qlt_le_weak]. }
  exists k. split; [lia |]. split; [reflexivity |]. split.
  - pose proof (round_half_even_close (x * inject_Z s)) as C. fold k in C.
    apply Qabs_Qle_condition in C. destruct C as [C1 C2].
    revert C1 C2 SQ. generalize (inject_Z k), (inject_Z s). intros z t C1 C2 T.
    apply Qabs_Qle_condition. split.
    + assert (G : (x - (1 # 2) / t <= z / t)%Q).
      { apply Qle_shift_div_l; [exact T |].
        setoid_replace ((x - (1 # 2) / t) * t)%Q with (x * t - (1 # 2))%Q by (field; lra).
        lra. }
      lra.
    + assert (G : (z / t <= x + (1 # 2) / t)%Q).
      { apply Qle_shift_div_r; [exact T |].
        setoid_replace ((x + (1 # 2) / t) * t)%Q with (x * t + (1 # 2))%Q by (field; lra).
        lra. }
      lra.
  - unfold PyNum.round. fold s k. apply double_close.
    assert (L : (0 <= inject_Z k / inject_Z s)%Q).
    { apply Qle_shift_div_l; [exact SQ |]. rewrite Qmult_0_l.
      change 0%Q with (inject_Z 0). now rewrite <- Zle_Qle. }
    assert (U : (inject_Z k / inject_Z s <= 100)%Q).
    { apply Qle_shift_div_r; [exact SQ |]. change 100%Q with (inject_Z 100).
      now rewrite <- inject_Z_mult, <- Zle_Qle. }
    rewrite Qabs_pos by exact L. lra.
Qed.

(** ** Resolution time *)

Lemma dropna_app {A} (a b : list (option A)) : dropna (a ++ b) = dropna a ++ dropna b.
Proof. unfold dropna. apply List.flat_map_app. Qed.

Lemma resolution_samples_map (df : DataFrame) :
  Spec.resolution_samples df
  = List.map (fun es : Z * Z => (inject_Z (snd es - fst es) / 86400)%Q)
      (dropna_entry_solved df).
Proof.
  induction df as [| r df IH]; [reflexivity |].
  change (Spec.resolution_samples (r :: df))
    with (match Spec.resolution_sample r with Some x => [x] | None => [] end
          ++ Spec.resolution_samples df).
  change (dropna_entry_solved (r :: df))
    with (match call_entry_datetime r, call_solved_datetime r with
          | Some e, Some s => [(e, s)]
          | _, _ => []
          end ++ dropna_entry_solved df).
  rewrite IH, List.map_app. unfold Spec.resolution_sample.
  destruct (call_entry_datetime r) as [e |], (call_solved_datetime r) as [s |];
    reflexivity.
Qed.

(** The samples of the program are the doubles nearest to the exact
    durations in days. *)
Lemma resolution_days_samples (df : DataFrame) :
  _resolution_days df = List.map PyNum.double (Spec.resolution_samples df).
Proof.
  rewrite resolution_samples_map. unfold _resolution_days.
  rewrite !List.map_map.
  destruct (dropna_entry_solved df); reflexivity.
Qed.

Lemma resolution_samples_app (a b : DataFrame) :
  Spec.resolution_samples (a ++ b)
  = Spec.resolution_samples a ++ Spec.resolution_samples b.
Proof.
  unfold Spec.resolution_samples. now rewrite List.map_app, dropna_app.
Qed.

Lemma resolution_days_app (a b : DataFrame) :
  _resolution_days (a ++ b) = _resolution_days a ++ _resolution_days b.
Proof.
  now rewrite !resolution_days_samples, resolution_samples_app, List.map_app.
Qed.

Lemma exact_days_le (seconds k : Z) :
  Qle_bool (inject_Z seconds / 86400) (inject_Z k) = (seconds <=? k * 86400).
Proof.
  apply Bool.eq_iff_eq_true. rewrite Qle_bool_iff, Z.leb_le.
  unfold Qle, Qdiv, Qmult, Qinv, inject_Z. cbn. lia.
Qed.

(** The test [days <= 2] gives the same answer on the double as on the
    exact duration. *)
Lemma sla_hits_samples (df : DataFrame) :
  Z.of_nat (List.length (sla_hits (_resolution_days df)))
  = Pandas.count_rows (fun d => Qle_bool d 2) (Spec.resolution_samples df).
Proof.
  rewrite resolution_days_samples, resolution_samples_map.
  unfold sla_hits, Pandas.count_rows. f_equal.
  induction (dropna_entry_solved df) as [| es l IH]; [reflexivity |].
  cbn [List.map List.filter].
  change (Qle_bool (PyNum.double (inject_Z (snd es - fst es) / 86400)) 2)
    with (Qle_bool (PyNum.div (inject_Z (snd es - fst es)) 86400) (inject_Z 2)).
  change (Qle_bool (inject_Z (snd es - fst es) / 86400) 2)
    with (Qle_bool (inject_Z (snd es - fst es) / 86400) (inject_Z 2)).
  rewrite days_le_int, exact_days_le by lia.
  destruct (snd es - fst es <=? 2 * 86400); cbn [List.length]; now rewrite IH.
Qed.

Lemma compute_kpis_total (df : DataFrame) :
  total_calls (compute_kpis df) = Z.of_nat (List.length df).
Proof.
  unfold compute_kpis.
  destruct (Z.of_nat (List.length df) =? 0) eqn:E; cbn [total_calls].
  - apply Z.eqb_eq in E. now rewrite E.
  - reflexivity.
Qed.

Lemma compute_kpis_sla (df : DataFrame) :
  sla_compliance (compute_kpis df)
  = match _resolution_days df with
    | [] => 0%Q
    | days =>
        PyNum.round
          (PyNum.mul
             (PyNum.truediv (Z.of_nat (List.length (sla_hits days)))
                (Z.of_nat (List.length days))) 100) 1
    end.
Proof.
  unfold compute_kpis.
  destruct df as [| r df]; [reflexivity |].
  replace (Z.of_nat (List.length (r :: df)) =? 0) with false
    by (symmetry; apply Z.eqb_neq; cbn [List.length]; lia).
  cbv beta iota zeta delta [sla_compliance avg_resolution_days].
  destruct (_resolution_days (r :: df)); reflexivity.
Qed.

Lemma compute_kpis_avg (df : DataFrame) :
  avg_resolution_days (compute_kpis df)
  = match _resolution_days df with
    | [] => 0%Q
    | days => PyNum.round (PyNum.mean days) 2
    end.
Proof.
  unfold compute_kpis.
  destruct df as [| r df]; [reflexivity |].
  replace (Z.of_nat (List.length (r :: df)) =? 0) with false
    by (symmetry; apply Z.eqb_neq; cbn [List.length]; lia).
  cbv beta iota zeta delta [sla_compliance avg_resolution_days].
  destruct (_resolution_days (r :: df)); reflexivity.
Qed.

(** The percentage [round(h / n * 100.0, 1)] of [h] hits among [n]
    samples, as the floats compute it. *)
Lemma percentage_rounding (h n : Z) :
  0 <= h <= n -> 0 < n ->
  let sla := PyNum.round (PyNum.mul (PyNum.truediv h n) 100) 1 in
  (exists tenths : Z, 0 <= tenths <= 1000 /\ sla = PyNum.double (tenths # 10))
  /\ (Qabs (sla - 100 * inject_Z h / inject_Z n) <= (1 # 20) + (1 # 100000000000))%Q
  /\ (0 <= sla <= 100)%Q.
Proof.
  intros H N. cbv zeta.
  assert (NQ : (0 < inject_Z n)%Q)
    by (change 0%Q with (inject_Z 0); now rewrite <- Zlt_Qlt).
  set (x0 := (inject_Z h / inject_Z n)%Q).
  assert (X0 : (0 <= x0 <= 1)%Q).
  { unfold x0. split.
    - apply Qle_shift_div_l; [exact NQ |]. rewrite Qmult_0_l.
      change 0%Q with (inject_Z 0). rewrite <- Zle_Qle. lia.
    - apply Qle_shift_div_r; [exact NQ |]. rewrite Qmult_1_l.
      rewrite <- Zle_Qle. lia. }
  set (x1 := PyNum.truediv h n).
  set (x2 := PyNum.mul x1 100).
  set (sla := PyNum.round x2 1).
  assert (B1 : (0 <= x1 <= 1)%Q).
  { unfold x1, PyNum.truediv. fold x0. split.
    - apply (double_ge_int 0); [lia | apply X0].
    - apply (double_le_int 1); [lia | apply X0]. }
  assert (C1 : (Qabs (x1 - x0) <= 1 # 70368744177664)%Q).
  { unfold x1, PyNum.truediv. fold x0. apply double_close.
    rewrite Qabs_pos by apply X0. destruct X0. lra. }
  assert (B2 : (0 <= x2 <= 100)%Q).
  { unfold x2, PyNum.mul. destruct B1. split.
    - apply (double_ge_int 0); [lia |]. change (inject_Z 0) with 0%Q. lra.
    - apply (double_le_int 100); [lia |]. change (inject_Z 100) with 100%Q. lra. }
  assert (C2 : (Qabs (x2 - x1 * 100) <= 1 # 70368744177664)%Q).
  { unfold x2, PyNum.mul. apply double_close. destruct B1.
    rewrite Qabs_pos by lra. lra. }
  destruct (round_decimal x2 1 B2) as (k & K & E & D1 & D2).
  change (10 ^ Z.of_nat 1) with 10 in K, E, D1, D2.
  fold sla in E, D2.
  split; [| split].
  - exists k. split; [lia |]. rewrite E. apply double_comp.
    unfold Qeq, Qdiv, Qmult, Qinv, inject_Z. cbn. lia.
  - apply Qabs_Qle_condition in C1, C2, D1, D2.
    change (inject_Z 10) with 10%Q in D1, D2.
    revert D1 D2. generalize (inject_Z k / 10)%Q. intros t D1 D2.
    setoid_replace (100 * inject_Z h / inject_Z n)%Q with (100 * x0)%Q
      by (unfold x0; field; lra).
    apply Qabs_Qle_condition.
    assert (T : ((1 # 2) / 10 == 1 # 20)%Q) by reflexivity.
    rewrite T in D1. clearbody sla x2 x1 x0.
    destruct C1, C2, D1, D2. split; lra.
  - unfold sla. destruct B2. split.
    + apply (round_ge 0); [lia | assumption].
    + apply (round_le 100); [lia | assumption].
Qed.

(** C3, as stated: a record solved two days before it was entered is not
    left out.  Next to a record that took three days, it moves the average
    from 3 days to 0.5 days and the SLA compliance from 0 to 50 percent,
    and its sample of -2 days is in the sample list.  The average of
    [get_stats] moves as well, from 72 hours to 12 hours. *)
Lemma negative_duration_changes_aggregates :
  let r_neg := row_times 1 (Some (3 * 86400)) (Some (1 * 86400)) in
  let r_slow := row_times 2 (Some 0) (Some (3 * 86400)) in
  (avg_resolution_days (compute_kpis [r_slow]) = 3%Q
   /\ sla_compliance (compute_kpis [r_slow]) = 0%Q)
  /\ (avg_resolution_days (compute_kpis [r_neg; r_slow]) = (1 # 2)%Q
      /\ sla_compliance (compute_kpis [r_neg; r_slow]) = 50%Q)
  /\ _resolution_days [r_neg; r_slow] = [(-2 # 1); (3 # 1)]%Q
  /\ (get_stats_avg_resolution [r_slow] = Some 72%Q
      /\ get_stats_avg_resolution [r_neg; r_slow] = Some 12%Q
      /\ get_stats_total_calls [r_neg; r_slow] = 2).
Proof. repeat split; vm_compute; reflexivity. Qed.

(** C3 (amended).  A record whose [call_solved_datetime] is earlier than
    its [call_entry_datetime] contributes its negative duration as one
    resolution-time sample: the sample is in the list the average is taken
    over, it is among the SLA hits (a negative duration is below two days),
    and the record is counted in [total_calls].  [compute_kpis] is a total
    function: no input makes it fail. *)
Theorem negative_duration_is_a_sample
    (before after : DataFrame) (r : CallRecord) (e s : Z) :
  call_entry_datetime r = Some e ->
  call_solved_datetime r = Some s ->
  s < e ->
  let df := before ++ r :: after in
  let sample := PyNum.div (inject_Z (s - e)) 86400 in
  (sample < 0)%Q
  /\ _resolution_days df
     = _resolution_days before ++ sample :: _resolution_days after
  /\ sla_hits (_resolution_days df)
     = sla_hits (_resolution_days before) ++ sample :: sla_hits (_resolution_days after)
  /\ avg_resolution_days (compute_kpis df)
     = PyNum.round (PyNum.mean (_resolution_days df)) 2
  /\ sla_compliance (compute_kpis df)
     = PyNum.round
         (PyNum.mul
            (PyNum.truediv (Z.of_nat (List.length (sla_hits (_resolution_days df))))
               (Z.of_nat (List.length (_resolution_days df)))) 100) 1
  /\ total_calls (compute_kpis df)
     = Z.of_nat (List.length before) + 1 + Z.of_nat (List.length after).
Proof.
  intros He Hs Hlt df sample.
  assert (Hneg : (sample < 0)%Q) by (apply days_negative; lia).
  assert (Hdays : _resolution_days df
                  = _resolution_days before ++ sample :: _resolution_days after).
  { unfold df. rewrite resolution_days_app. f_equal.
    change (r :: after) with ([r] ++ after).
    rewrite resolution_days_app. f_equal.
    unfold _resolution_days, dropna_entry_solved. cbn [List.flat_map].
    rewrite He, Hs. reflexivity. }
  split; [exact Hneg |]. split; [exact Hdays |]. split; [| split; [| split]].
  - rewrite Hdays. unfold sla_hits. rewrite List.filter_app. cbn [List.filter].
    replace (Qle_bool sample 2) with true; [reflexivity |].
    symmetry. apply Qle_bool_iff. apply Qlt_le_weak.
    apply Qlt_trans with 0%Q; [exact Hneg | reflexivity].
  - rewrite compute_kpis_avg, Hdays.
    destruct (_resolution_days before); reflexivity.
  - rewrite compute_kpis_sla, Hdays.
    destruct (_resolution_days before); reflexivity.
  - rewrite compute_kpis_total. unfold df.
    rewrite List.length_app. cbn [List.length]. lia.
Qed.

Lemma negative_duration_is_a_sample_witness :
  let r := row_times 1 (Some (3 * 86400)) (Some (1 * 86400)) in
  _resolution_days [r] = [PyNum.div (inject_Z (1 * 86400 - 3 * 86400)) 86400]
  /\ total_calls (compute_kpis [r]) = 1.
Proof.
  intros r.
  destruct (negative_duration_is_a_sample [] [] r (3 * 86400) (1 * 86400)
              eq_refl eq_refl ltac:(lia)) as (_ & Hd & _ & _ & _ & Ht).
  split; [exact Hd | exact Ht].
Defined.

(** C5.  [sla_compliance] is [round(hits / samples * 100.0, 1)], where the
    samples are the records with both timestamps and the hits are the
    samples of at most two days: the double nearest to a number of tenths,
    at most 0.05 (and the error of the float operations, below 1e-11) away
    from the exact percentage.  It is 0.0 without samples.  A sample of
    exactly two days (entry 2024-01-01T00:00:00, solved
    2024-01-03T00:00:00) is compliant, one second more is not.  One
    compliant sample among 2000 gives 0.1. *)
Theorem sla_compliance_rule (df : DataFrame) :
  let sla := sla_compliance (compute_kpis df) in
  let samples := Spec.resolution_samples df in
  let hits := Pandas.count_rows (fun d => Qle_bool d 2) samples in
  let total := Z.of_nat (List.length samples) in
  sla = match samples with
        | [] => 0%Q
        | _ => PyNum.round (PyNum.mul (PyNum.truediv hits total) 100) 1
        end
  /\ (exists tenths : Z, 0 <= tenths <= 1000 /\ sla = PyNum.double (tenths # 10))
  /\ (Qabs (sla - Spec.sla_percentage df) <= (1 # 20) + (1 # 100000000000))%Q
  /\ sla_compliance
       (compute_kpis [row_times 1 (Some 1704067200) (Some 1704240000)]) = 100%Q
  /\ sla_compliance
       (compute_kpis [row_times 1 (Some 1704067200) (Some 1704240001)]) = 0%Q
  /\ sla_compliance
       (compute_kpis [row_times 1 (Some 1704067200) None;
                      row_times 2 None (Some 1704240000)]) = 0%Q
  /\ sla_compliance
       (compute_kpis (row_times 0 (Some 0) (Some 3600)
                      :: List.repeat (row_times 1 (Some 0) (Some 864000)) 1999))
     = PyNum.double (1 # 10).
Proof.
  intros sla samples hits total.
  assert (E : sla = match samples with
                    | [] => 0%Q
                    | _ => PyNum.round (PyNum.mul (PyNum.truediv hits total) 100) 1
                    end).
  { unfold sla. rewrite compute_kpis_sla.
    pose proof (sla_hits_samples df) as Hh. fold samples hits in Hh.
    pose proof (resolution_days_samples df) as Hd. fold samples in Hd.
    rewrite Hd in *. unfold total.
    destruct samples as [| d days]; [reflexivity |].
    cbn [List.map]. cbn [List.map] in Hh. rewrite Hh.
    cbn [List.length]. now rewrite List.length_map. }
  assert (R : samples <> [] ->
              0 <= hits <= total /\ 0 < total).
  { intros NE. unfold hits, total, Pandas.count_rows.
    pose proof (List.filter_length_le (fun d => Qle_bool d 2) samples).
    destruct samples; [congruence |]. cbn [List.length] in *. lia. }
  split; [exact E |].
  split; [| split; [| repeat split; vm_compute; reflexivity]].
  - rewrite E. destruct samples as [| d days] eqn:S.
    + exists 0. split; [lia | reflexivity].
    + destruct (R ltac:(discriminate)) as [H N].
      exact (proj1 (percentage_rounding hits total H N)).
  - rewrite E. unfold Spec.sla_percentage. fold samples. fold hits. fold total.
    destruct samples as [| d days] eqn:S.
    + vm_compute. discriminate.
    + destruct (R ltac:(discriminate)) as [H N].
      pose proof (proj1 (proj2 (percentage_rounding hits total H N))) as T.
      cbv zeta in T. exact T.
Qed.

(** ** Sorting *)

Section Sorting.

Context {A : Type} (leb : A -> A -> bool).

Lemma insert_by_perm (x : A) (l : list A) : Permutation (insert_by leb x l) (x :: l).
Proof.
  induction l as [| y l IH]; cbn [insert_by].
  - apply Permutation_refl.
  - destruct (leb x y).
    + apply Permutation_refl.
    + apply Permutation_trans with (y :: x :: l).
      * now apply perm_skip.
      * apply perm_swap.
Qed.

Lemma sort_by_perm (l : list A) : Permutation (sort_by leb l) l.
Proof.
  induction l as [| x l IH]; cbn [sort_by List.fold_right].
  - apply perm_nil.
  - apply Permutation_trans with (x :: sort_by leb l).
    + apply insert_by_perm.
    + now apply perm_skip.
Qed.

Hypothesis leb_total : forall x y, leb x y = true \/ leb y x = true.
Hypothesis leb_trans : forall x y z, leb x y = true -> leb y z = true -> leb x z = true.

Lemma insert_by_sorted (x : A) (l : list A) :
  StronglySorted (leb_rel leb) l -> StronglySorted (leb_rel leb) (insert_by leb x l).
Proof.
  induction 1 as [| y l Hs IH Hy]; cbn [insert_by].
  - constructor; constructor.
  - destruct (leb x y) eqn:E.
    + constructor.
      * now constructor.
      * constructor; [exact E |].
        eapply Forall_impl; [| exact Hy].
        intros z Hz. exact (leb_trans _ _ _ E Hz).
    + constructor; [exact IH |].
      apply (Permutation_Forall (Permutation_sym (insert_by_perm x l))).
      constructor; [| exact Hy].
      destruct (leb_total x y) as [H | H]; [congruence | exact H].
Qed.

Lemma sort_by_sorted (l : list A) : StronglySorted (leb_rel leb) (sort_by leb l).
Proof.
  induction l as [| x l IH]; cbn [sort_by List.fold_right].
  - constructor.
  - now apply insert_by_sorted.
Qed.

End Sorting.

Lemma Z_leb_total (x y : Z) : (x <=? y) = true \/ (y <=? x) = true.
Proof. destruct (Z.leb_spec x y); [now left | right; apply Z.leb_le; lia]. Qed.

Lemma Z_leb_trans (x y z : Z) : (x <=? y) = true -> (y <=? z) = true -> (x <=? z) = true.
Proof. rewrite !Z.leb_le. lia. Qed.

(** A sorted list of integers is determined by its elements. *)
Lemma sorted_Z_unique (l l' : list Z) :
  StronglySorted (leb_rel Z.leb) l -> StronglySorted (leb_rel Z.leb) l' ->
  Permutation l l' -> l = l'.
Proof.
  intros Hl. revert l'.
  induction Hl as [| a l Hs IH Ha]; intros l' Hl' P.
  - now apply Permutation_nil in P.
  - destruct Hl' as [| a' l' Hs' Ha'].
    + symmetry in P. now apply Permutation_nil in P.
    + assert (E : a = a').
      { assert (I : In a (a' :: l')) by (apply (Permutation_in _ P); now left).
        assert (I' : In a' (a :: l))
          by (apply (Permutation_in _ (Permutation_sym P)); now left).
        destruct I as [I | I]; [now symmetry |].
        destruct I' as [I' | I']; [exact I' |].
        rewrite Forall_forall in Ha, Ha'.
        pose proof (Ha _ I') as H1. pose proof (Ha' _ I) as H2.
        unfold leb_rel in H1, H2. rewrite Z.leb_le in H1, H2. lia. }
      subst a'. f_equal. apply IH; [exact Hs' |].
      now apply Permutation_cons_inv in P.
Qed.

Lemma sort_Z_perm (l l' : list Z) :
  Permutation l l' -> sort_by Z.leb l = sort_by Z.leb l'.
Proof.
  intros P. apply sorted_Z_unique.
  - apply sort_by_sorted; [apply Z_leb_total | apply Z_leb_trans].
  - apply sort_by_sorted; [apply Z_leb_total | apply Z_leb_trans].
  - apply Permutation_trans with l; [apply sort_by_perm |].
    apply Permutation_trans with l'; [exact P |].
    apply Permutation_sym, sort_by_perm.
Qed.

(** ** The order of strings *)

Lemma ascii_compare_refl (a : ascii) : Ascii.compare a a = Eq.
Proof. unfold Ascii.compare. apply N.compare_refl. Qed.

Lemma string_compare_refl (s : string) : String.compare s s = Eq.
Proof.
  induction s as [| a s IH]; [reflexivity |].
  cbn [String.compare]. now rewrite ascii_compare_refl.
Qed.

Lemma string_compare_eq (s t : string) : String.compare s t = Eq <-> s = t.
Proof.
  split; [apply String.compare_eq_iff |].
  intros ->. apply string_compare_refl.
Qed.

Lemma ascii_compare_lt_trans (a b c : ascii) :
  Ascii.compare a b = Lt -> Ascii.compare b c = Lt -> Ascii.compare a c = Lt.
Proof.
  unfold Ascii.compare. rewrite !N.compare_lt_iff. apply N.lt_trans.
Qed.

Lemma string_compare_lt_trans (s t u : string) :
  String.compare s t = Lt -> String.compare t u = Lt -> String.compare s u = Lt.
Proof.
  revert t u.
  induction s as [| a s IH]; intros [| b t] [| c u]; cbn [String.compare];
    try congruence.
  destruct (Ascii.compare a b) eqn:Eab; try discriminate;
    destruct (Ascii.compare b c) eqn:Ebc; try discriminate; intros H1 H2.
  - apply Ascii.compare_eq_iff in Eab, Ebc. subst.
    rewrite ascii_compare_refl. now apply IH with t.
  - apply Ascii.compare_eq_iff in Eab. subst. now rewrite Ebc.
  - apply Ascii.compare_eq_iff in Ebc. subst. now rewrite Eab.
  - now rewrite (ascii_compare_lt_trans _ _ _ Eab Ebc).
Qed.

Lemma string_compare_gt_lt (s t : string) :
  String.compare s t = Gt <-> String.compare t s = Lt.
Proof.
  rewrite (String.compare_antisym t s).
  destruct (String.compare s t); cbn; split; congruence.
Qed.

(** ** The order of [sort_values] *)

Lemma issue_leb_spec (a b : IssueRow) :
  issue_leb a b = true <->
  String.compare (issue_name a) (issue_name b) = Lt
  \/ (issue_name a = issue_name b
      /\ (String.compare (issue_complaint a) (issue_complaint b) = Lt
          \/ (issue_complaint a = issue_complaint b
              /\ issue_time a <= issue_time b))).
Proof.
  unfold issue_leb.
  rewrite <- (string_compare_eq (issue_name a)), <- (string_compare_eq (issue_complaint a)).
  destruct (String.compare (issue_name a) (issue_name b));
    destruct (String.compare (issue_complaint a) (issue_complaint b));
    rewrite ?Z.leb_le; intuition congruence.
Qed.

Lemma issue_leb_total (a b : IssueRow) : issue_leb a b = true \/ issue_leb b a = true.
Proof.
  rewrite !issue_leb_spec.
  destruct (String.compare (issue_name a) (issue_name b)) eqn:En.
  - apply string_compare_eq in En.
    destruct (String.compare (issue_complaint a) (issue_complaint b)) eqn:Ec.
    + apply string_compare_eq in Ec.
      destruct (Z.le_ge_cases (issue_time a) (issue_time b)).
      * left. right. split; [exact En | right; now split].
      * right. right. split; [now symmetry | right; split; [now symmetry | lia]].
    + left. right. split; [exact En | now left].
    + apply string_compare_gt_lt in Ec.
      right. right. split; [now symmetry | now left].
  - left. now left.
  - apply string_compare_gt_lt in En. right. now left.
Qed.

Lemma issue_leb_trans (a b c : IssueRow) :
  issue_leb a b = true -> issue_leb b c = true -> issue_leb a c = true.
Proof.
  rewrite !issue_leb_spec.
  intros [N1 | [N1 R1]] [N2 | [N2 R2]].
  - left. now apply string_compare_lt_trans with (issue_name b).
  - left. now rewrite <- N2.
  - left. now rewrite N1.
  - right. split; [congruence |].
    destruct R1 as [C1 | [C1 T1]], R2 as [C2 | [C2 T2]].
    + left. now apply string_compare_lt_trans with (issue_complaint b).
    + left. now rewrite <- C2.
    + left. now rewrite C1.
    + right. split; [congruence | lia].
Qed.

Lemma key_eqb_eq (a b : string * string) : Spec.key_eqb a b = true <-> a = b.
Proof.
  unfold Spec.key_eqb. rewrite andb_true_iff, !String.eqb_eq.
  destruct a, b; cbn. split; [intros [-> ->]; reflexivity | intros [= -> ->]; now split].
Qed.

Lemma key_eqb_refl (a : string * string) : Spec.key_eqb a a = true.
Proof. now apply key_eqb_eq. Qed.

(** Within one pair the order of [sort_values] is the order of the entry
    times. *)
Lemma issue_leb_same_key (a b : IssueRow) :
  fst a = fst b -> issue_leb a b = (snd a <=? snd b).
Proof.
  intros E. unfold issue_leb, issue_name, issue_complaint, issue_time.
  rewrite E, !string_compare_refl. reflexivity.
Qed.

(** ** Groups of a sorted frame *)

Lemma group_times_cons (key : string * string) (x : IssueRow) (rows : list IssueRow) :
  group_times key (x :: rows)
  = if Spec.key_eqb key (fst x) then snd x :: group_times key rows
    else group_times key rows.
Proof.
  unfold group_times. cbn [List.filter].
  destruct (Spec.key_eqb key (fst x)); reflexivity.
Qed.

Lemma group_times_perm (key : string * string) (rows rows' : list IssueRow) :
  Permutation rows rows' -> Permutation (group_times key rows) (group_times key rows').
Proof.
  intros P. unfold group_times. apply Permutation_map.
  induction P; cbn [List.filter].
  - apply perm_nil.
  - destruct (Spec.key_eqb key (fst x)); [now apply perm_skip | assumption].
  - destruct (Spec.key_eqb key (fst x)), (Spec.key_eqb key (fst y));
      try apply Permutation_refl. apply perm_swap.
  - eapply Permutation_trans; eassumption.
Qed.

(** Inserting a row into a sorted frame inserts its entry time into the
    times of its own pair and leaves the other pairs alone. *)
Lemma group_times_insert (key : string * string) (x : IssueRow) (rows : list IssueRow) :
  StronglySorted (leb_rel issue_leb) rows ->
  group_times key (insert_by issue_leb x rows)
  = if Spec.key_eqb key (fst x) then insert_by Z.leb (snd x) (group_times key rows)
    else group_times key rows.
Proof.
  induction 1 as [| y rows Hs IH Hy]; cbn [insert_by].
  - rewrite group_times_cons. unfold group_times. cbn.
    destruct (Spec.key_eqb key (fst x)); reflexivity.
  - destruct (issue_leb x y) eqn:E.
    + rewrite group_times_cons.
      destruct (Spec.key_eqb key (fst x)) eqn:Kx; [| reflexivity].
      apply key_eqb_eq in Kx.
      assert (F : Forall (fun z => issue_leb x z = true) (y :: rows)).
      { constructor; [exact E |].
        eapply Forall_impl; [| exact Hy].
        intros z Hz. exact (issue_leb_trans _ _ _ E Hz). }
      revert F. generalize (y :: rows). intros l F.
      induction F as [| z l Hz F IHF]; [reflexivity |].
      rewrite group_times_cons.
      destruct (Spec.key_eqb key (fst z)) eqn:Kz; [| exact IHF].
      apply key_eqb_eq in Kz.
      cbn [insert_by].
      rewrite <- (issue_leb_same_key x z) by congruence.
      now rewrite Hz.
    + rewrite !group_times_cons, IH.
      destruct (Spec.key_eqb key (fst x)) eqn:Kx,
               (Spec.key_eqb key (fst y)) eqn:Ky; try reflexivity.
      apply key_eqb_eq in Kx, Ky.
      cbn [insert_by].
      rewrite <- (issue_leb_same_key x y) by congruence.
      now rewrite E.
Qed.

Lemma group_times_sorted (key : string * string) (rows : list IssueRow) :
  group_times key (sort_by issue_leb rows) = sort_by Z.leb (group_times key rows).
Proof.
  induction rows as [| x rows IH]; [reflexivity |].
  cbn [sort_by List.fold_right].
  rewrite group_times_insert
    by (apply sort_by_sorted; [apply issue_leb_total | apply issue_leb_trans]).
  fold (sort_by issue_leb rows). rewrite IH, group_times_cons.
  destruct (Spec.key_eqb key (fst x)); reflexivity.
Qed.

(** ** Sums over the pairs *)

Lemma sum_over_ext {A} (f g : A -> Z) (l : list A) :
  (forall k, In k l -> f k = g k) -> sum_over f l = sum_over g l.
Proof.
  induction l as [| k l IH]; intros E; [reflexivity |].
  cbn [sum_over List.fold_right]. fold (sum_over f l). fold (sum_over g l).
  rewrite (E k) by now left.
  rewrite IH; [reflexivity |]. intros k' I. apply E. now right.
Qed.

Lemma sum_over_plus {A} (f g : A -> Z) (l : list A) :
  sum_over (fun k => f k + g k) l = sum_over f l + sum_over g l.
Proof.
  induction l as [| k l IH]; [reflexivity |].
  cbn [sum_over List.fold_right] in *.
  fold (sum_over (fun k => f k + g k) l). fold (sum_over f l). fold (sum_over g l).
  fold (sum_over (fun k => f k + g k) l) in IH. fold (sum_over f l) in IH.
  fold (sum_over g l) in IH. lia.
Qed.

Lemma sum_over_zero {A} (f : A -> Z) (l : list A) :
  (forall k, In k l -> f k = 0) -> sum_over f l = 0.
Proof.
  induction l as [| k l IH]; intros E; [reflexivity |].
  cbn [sum_over List.fold_right]. fold (sum_over f l).
  rewrite (E k) by now left. rewrite IH; [reflexivity |].
  intros k' I. apply E. now right.
Qed.

(** A pair that occurs once in the list of pairs is hit once. *)
Lemma sum_over_indicator (key : string * string) (c : Z) (keys : list (string * string)) :
  NoDup keys -> In key keys ->
  sum_over (fun k => if Spec.key_eqb k key then c else 0) keys = c.
Proof.
  induction 1 as [| k keys Hn Hd IH]; intros I; [contradiction |].
  cbn [sum_over List.fold_right].
  fold (sum_over (fun k => if Spec.key_eqb k key then c else 0) keys).
  destruct I as [-> | I].
  - rewrite key_eqb_refl, sum_over_zero; [lia |].
    intros k' I'. destruct (Spec.key_eqb k' key) eqn:E; [| reflexivity].
    apply key_eqb_eq in E. congruence.
  - rewrite IH by exact I.
    destruct (Spec.key_eqb k key) eqn:E; [| lia].
    apply key_eqb_eq in E. congruence.
Qed.

Lemma sum_over_perm {A} (f : A -> Z) (l l' : list A) :
  Permutation l l' -> sum_over f l = sum_over f l'.
Proof.
  induction 1; cbn [sum_over List.fold_right] in *; try lia.
  fold (sum_over f l) in *. fold (sum_over f l') in *. lia.
Qed.

(** ** Values in order of first appearance *)

Section FirstSeen.

Context {A : Type} (eqb : A -> A -> bool).
Hypothesis eqb_eq : forall x y, eqb x y = true <-> x = y.

Lemma first_seen_In (x : A) (l : list A) : In x (Spec.first_seen eqb l) <-> In x l.
Proof.
  induction l as [| y l IH]; [reflexivity |].
  cbn [Spec.first_seen In]. rewrite List.filter_In, IH.
  split.
  - intros [E | [I _]]; [now left | now right].
  - intros [E | I]; [now left |].
    destruct (eqb y x) eqn:K.
    + left. now apply eqb_eq.
    + right. now split.
Qed.

Lemma first_seen_NoDup (l : list A) : NoDup (Spec.first_seen eqb l).
Proof.
  induction l as [| y l IH]; cbn [Spec.first_seen]; constructor.
  - rewrite List.filter_In. intros [_ H].
    rewrite (proj2 (eqb_eq y y) eq_refl) in H. discriminate.
  - now apply List.NoDup_filter.
Qed.

(** A value seen before changes nothing; a new value comes last. *)
Lemma first_seen_snoc (v : A) (l : list A) :
  Spec.first_seen eqb (l ++ [v])
  = if existsb (eqb v) l then Spec.first_seen eqb l
    else Spec.first_seen eqb l ++ [v].
Proof.
  induction l as [| x l IH]; [reflexivity |].
  cbn [List.app Spec.first_seen existsb]. rewrite IH.
  destruct (existsb (eqb v) l) eqn:E.
  - now rewrite orb_true_r.
  - rewrite orb_false_r, List.filter_app. cbn [List.filter].
    destruct (eqb v x) eqn:Evx.
    + apply eqb_eq in Evx. subst x.
      rewrite (proj2 (eqb_eq v v) eq_refl). cbn [negb].
      now rewrite List.app_nil_r.
    + destruct (eqb x v) eqn:Exv.
      * apply eqb_eq in Exv. subst x.
        rewrite (proj2 (eqb_eq v v) eq_refl) in Evx. discriminate.
      * reflexivity.
Qed.

End FirstSeen.

(** ** Repeated issues *)

(** The float test [diff_days <= 30] is the integer test on the seconds. *)
Lemma repeat_flag_seconds (seconds : Z) :
  repeat_flag (Some seconds) = (seconds <=? Spec.thirty_days).
Proof.
  unfold repeat_flag, Spec.thirty_days.
  change 30%Q with (inject_Z 30). apply days_le_int. lia.
Qed.

Lemma close_successors_after_nil (prev : option Z) : close_successors_after prev [] = 0.
Proof. destruct prev; reflexivity. Qed.

(** The flags of [groupby(...).diff()] add up pair by pair. *)
Lemma group_diff_count (keys : list (string * string)) (rows seen : list IssueRow) :
  NoDup keys ->
  (forall x, In x rows -> In (fst x) keys) ->
  Pandas.mask_sum (List.map repeat_flag (group_diff seen rows))
  = sum_over
      (fun k => close_successors_after (last_time k seen) (group_times k rows)) keys.
Proof.
  intros Hn. revert seen.
  induction rows as [| r rest IH]; intros seen Hc.
  - symmetry. apply sum_over_zero. intros k _. apply close_successors_after_nil.
  - cbn [group_diff List.map]. rewrite mask_sum_cons.
    rewrite (IH (r :: seen)) by (intros x I; apply Hc; now right).
    set (flag := if repeat_flag
                      match List.find (same_group r) seen with
                      | Some p => Some (issue_time r - issue_time p)
                      | None => None
                      end then 1 else 0).
    rewrite (sum_over_ext
               (fun k =>
                  close_successors_after (last_time k seen) (group_times k (r :: rest)))
               (fun k =>
                  close_successors_after (last_time k (r :: seen)) (group_times k rest)
                  + (if Spec.key_eqb k (fst r) then flag else 0))).
    + rewrite sum_over_plus, sum_over_indicator; [lia | exact Hn |].
      apply Hc. now left.
    + intros k _. rewrite group_times_cons. unfold last_time at 2.
      cbn [List.find].
      destruct (Spec.key_eqb k (fst r)) eqn:K; [| fold (last_time k seen); lia].
      apply key_eqb_eq in K. subst k. unfold flag, last_time.
      match goal with
      | |- context [close_successors_after (match ?f with Some _ => _ | None => _ end) _] =>
          change f with (List.find (same_group r) seen)
      end.
      destruct (List.find (same_group r) seen) as [p |].
      * cbv beta iota. rewrite repeat_flag_seconds.
        cbn [close_successors_after Spec.close_successors_from].
        unfold issue_time. lia.
      * cbv beta iota. cbn [close_successors_after Spec.close_successors repeat_flag]. lia.
Qed.

Lemma pairs_first_seen_In (x : string * string) (l : list (string * string)) :
  In x (Spec.first_seen Spec.key_eqb l) <-> In x l.
Proof. apply first_seen_In, key_eqb_eq. Qed.

Lemma pairs_first_seen_NoDup (l : list (string * string)) :
  NoDup (Spec.first_seen Spec.key_eqb l).
Proof. apply first_seen_NoDup, key_eqb_eq. Qed.

Lemma frame_keys (df : DataFrame) :
  dropna (List.map Spec.issue_key df) = List.map fst (dropna_issue df).
Proof.
  induction df as [| r df IH]; [reflexivity |].
  unfold dropna_issue, dropna in *. cbn [List.map List.flat_map].
  rewrite List.map_app, <- IH. f_equal.
  unfold Spec.issue_key.
  destruct (customer_name r), (customer_complaint r), (call_entry_datetime r);
    reflexivity.
Qed.

Lemma frame_entry_times (key : string * string) (df : DataFrame) :
  Spec.entry_times key df = group_times key (dropna_issue df).
Proof.
  induction df as [| r df IH]; [reflexivity |].
  unfold dropna_issue, Spec.entry_times, group_times in *.
  cbn [List.flat_map]. rewrite List.filter_app, List.map_app, <- IH. f_equal.
  unfold Spec.issue_key.
  destruct (customer_name r) as [n |], (customer_complaint r) as [c |],
           (call_entry_datetime r) as [t |]; try reflexivity.
  cbn [List.filter fst snd]. destruct (Spec.key_eqb key (n, c)); reflexivity.
Qed.

Lemma repeated_issues_sum (df : DataFrame) :
  Spec.repeated_issues df
  = sum_over
      (fun key => Spec.close_successors (sort_by Z.leb (group_times key (dropna_issue df))))
      (Spec.first_seen Spec.key_eqb (List.map fst (dropna_issue df))).
Proof.
  unfold Spec.repeated_issues. rewrite frame_keys.
  apply (sum_over_ext
           (fun key => Spec.close_successors (sort_by Z.leb (Spec.entry_times key df)))).
  intros key _. now rewrite frame_entry_times.
Qed.

Lemma repeated_issue_count_spec (df : DataFrame) :
  _repeated_issue_count df = Spec.repeated_issues df.
Proof.
  rewrite repeated_issues_sum. unfold _repeated_issue_count.
  destruct (dropna_issue df) as [| x subset] eqn:S; [reflexivity |].
  rewrite (group_diff_count
             (Spec.first_seen Spec.key_eqb (List.map fst (x :: subset)))).
  - apply sum_over_ext. intros key _.
    cbn [close_successors_after last_time List.find].
    now rewrite group_times_sorted.
  - apply pairs_first_seen_NoDup.
  - intros y I. apply pairs_first_seen_In, List.in_map.
    apply (Permutation_in _ (sort_by_perm issue_leb (x :: subset))). exact I.
Qed.

(** The count does not depend on the order of the rows of the frame, and
    so not on the way a sort orders rows with equal entry times. *)
Lemma repeated_issues_perm (df df' : DataFrame) :
  Permutation df df' -> Spec.repeated_issues df = Spec.repeated_issues df'.
Proof.
  intros P. rewrite !repeated_issues_sum.
  assert (Ps : Permutation (dropna_issue df) (dropna_issue df')).
  { unfold dropna_issue. now apply Permutation_flat_map. }
  rewrite (sum_over_perm _ _
             (Spec.first_seen Spec.key_eqb (List.map fst (dropna_issue df')))).
  - apply sum_over_ext. intros key _. f_equal.
    apply sort_Z_perm, group_times_perm, Ps.
  - apply NoDup_Permutation; try apply pairs_first_seen_NoDup.
    intros k. rewrite !pairs_first_seen_In.
    split; apply Permutation_in; [| apply Permutation_sym]; now apply Permutation_map.
Qed.

Lemma compute_kpis_repeated (df : DataFrame) :
  repeated_issues (compute_kpis df) = _repeated_issue_count df.
Proof.
  unfold compute_kpis.
  destruct df as [| r df]; [reflexivity |].
  replace (Z.of_nat (List.length (r :: df)) =? 0) with false
    by (symmetry; apply Z.eqb_neq; cbn [List.length]; lia).
  reflexivity.
Qed.

(** C4.  [repeated_issues] counts, among the records with a customer
    name, a complaint and an entry time, those that are not the first
    entry of their (name, complaint) pair in chronological order and lie at
    most thirty days (inclusive) after the entry just before them in that
    pair.  The count is the same for every order of the rows, so entries
    with equal timestamps give one reproducible result.  With entries at
    days 0, 20 and 55 only the entry of day 20 counts: day 55 is 35 days
    after its predecessor. *)
Theorem repeated_issues_rule (df : DataFrame) :
  repeated_issues (compute_kpis df) = Spec.repeated_issues df
  /\ (forall df', Permutation df df' ->
        repeated_issues (compute_kpis df') = repeated_issues (compute_kpis df))
  /\ repeated_issues
       (compute_kpis [row_issue 1 "A" "leak" 0; row_issue 2 "A" "leak" 20]) = 1
  /\ repeated_issues
       (compute_kpis [row_issue 1 "A" "leak" 0; row_issue 2 "A" "leak" 20;
                      row_issue 3 "A" "leak" 55]) = 1
  /\ repeated_issues
       (compute_kpis [row_issue 3 "A" "leak" 55; row_issue 2 "A" "leak" 20;
                      row_issue 1 "A" "leak" 0]) = 1
  /\ repeated_issues
       (compute_kpis [row_issue 1 "A" "leak" 0; row_issue 2 "A" "leak" 30;
                      row_issue 3 "A" "leak" 30; row_issue 4 "A" "leak" 61;
                      row_issue 5 "B" "leak" 31; row_issue 6 "A" "noise" 1]) = 2.
Proof.
  split; [| split; [| repeat split; vm_compute; reflexivity]].
  - now rewrite compute_kpis_repeated, repeated_issue_count_spec.
  - intros df' P.
    rewrite !compute_kpis_repeated, !repeated_issue_count_spec.
    symmetry. now apply repeated_issues_perm.
Qed.

Lemma repeated_issues_rule_witness :
  repeated_issues
    (compute_kpis [row_issue 2 "A" "leak" 20; row_issue 1 "A" "leak" 0])
  = repeated_issues
      (compute_kpis [row_issue 1 "A" "leak" 0; row_issue 2 "A" "leak" 20]).
Proof.
  apply (proj1 (proj2 (repeated_issues_rule
                         [row_issue 1 "A" "leak" 0; row_issue 2 "A" "leak" 20]))).
  apply perm_swap.
Defined.

(** ** The tally of a Series *)

Lemma occurrences_snoc (u v : string) (l : list string) :
  Spec.occurrences u (l ++ [v])
  = Spec.occurrences u l + (if String.eqb u v then 1 else 0).
Proof.
  unfold Spec.occurrences, Pandas.count_rows.
  rewrite List.filter_app, List.length_app. cbn [List.filter].
  destruct (String.eqb u v); cbn [List.length]; lia.
Qed.

Lemma occurrences_absent (v : string) (l : list string) :
  existsb (String.eqb v) l = false -> Spec.occurrences v l = 0.
Proof.
  intros E. unfold Spec.occurrences, Pandas.count_rows.
  induction l as [| x l IH]; [reflexivity |].
  cbn [existsb] in E. apply orb_false_iff in E. destruct E as [E1 E2].
  cbn [List.filter]. rewrite E1. now apply IH.
Qed.

Lemma bump_map (v : string) (f : string -> Z) (ks : list string) :
  NoDup ks ->
  bump v (List.map (fun u => (u, f u)) ks)
  = List.map (fun u => (u, f u + (if String.eqb u v then 1 else 0))) ks
    ++ (if existsb (String.eqb v) ks then [] else [(v, 1)]).
Proof.
  induction 1 as [| k ks Hk Hn IH]; [reflexivity |].
  cbn [List.map bump existsb List.app].
  destruct (String.eqb k v) eqn:E.
  - apply String.eqb_eq in E. subst k. rewrite String.eqb_refl. cbn [orb].
    rewrite List.app_nil_r. f_equal.
    apply List.map_ext_in. intros u I.
    destruct (String.eqb u v) eqn:Euv.
    + apply String.eqb_eq in Euv. congruence.
    + f_equal. lia.
  - rewrite IH. rewrite (String.eqb_sym v k), E. cbn [orb].
    rewrite Z.add_0_r. reflexivity.
Qed.

Lemma tally_snoc (v : string) (l : list string) :
  tally (l ++ [v]) = bump v (tally l).
Proof. unfold tally. now rewrite List.fold_left_app. Qed.

(** The tally lists every distinct value once, in order of first
    appearance, with its number of occurrences. *)
Lemma tally_first_seen (vals : list string) :
  tally vals
  = List.map (fun v => (v, Spec.occurrences v vals)) (Spec.first_seen String.eqb vals).
Proof.
  induction vals as [| v l IH] using List.rev_ind; [reflexivity |].
  rewrite tally_snoc, IH, bump_map by (apply first_seen_NoDup, String.eqb_eq).
  rewrite (first_seen_snoc _ String.eqb_eq).
  assert (M : existsb (String.eqb v) (Spec.first_seen String.eqb l)
              = existsb (String.eqb v) l).
  { apply Bool.eq_iff_eq_true. rewrite !List.existsb_exists.
    split; intros (x & I & E); exists x; (split; [| exact E]).
    - exact (proj1 (first_seen_In _ String.eqb_eq _ _) I).
    - exact (proj2 (first_seen_In _ String.eqb_eq _ _) I). }
  rewrite M.
  destruct (existsb (String.eqb v) l) eqn:E.
  - rewrite List.app_nil_r. apply List.map_ext. intros u.
    now rewrite occurrences_snoc.
  - rewrite List.map_app. cbn [List.map]. f_equal.
    + apply List.map_ext. intros u. now rewrite occurrences_snoc.
    + rewrite occurrences_snoc, String.eqb_refl, (occurrences_absent _ _ E).
      reflexivity.
Qed.

(** ** The sort of [value_counts] *)

Lemma count_geb_total (a b : string * Z) : count_geb a b = true \/ count_geb b a = true.
Proof. unfold count_geb. apply Z_leb_total. Qed.

Lemma count_geb_trans (a b c : string * Z) :
  count_geb a b = true -> count_geb b c = true -> count_geb a c = true.
Proof. unfold count_geb. rewrite !Z.leb_le. lia. Qed.

Lemma sorted_descending (l : list (string * Z)) :
  StronglySorted (leb_rel count_geb) l -> StronglySorted Spec.count_ge l.
Proof.
  induction 1 as [| x l Hs IH Hx]; constructor; [exact IH |].
  eapply Forall_impl; [| exact Hx].
  intros y H. unfold leb_rel, count_geb in H. unfold Spec.count_ge.
  now apply Z.leb_le.
Qed.

(** ** Distributions *)

Lemma dropna_replace_blank (series : list string) :
  dropna (replace_blank series)
  = List.filter (fun s => negb (String.eqb s "")) series.
Proof.
  induction series as [| s l IH]; [reflexivity |].
  unfold dropna, replace_blank in *. cbn [List.map List.flat_map List.filter].
  rewrite IH. destruct (String.eqb s ""); reflexivity.
Qed.

Lemma distribution_full (df : DataFrame) (column : TextColumn) :
  prepare_distribution df column None
  = sort_by count_geb (tally (Spec.grouping_values column df)).
Proof.
  unfold prepare_distribution, value_counts, Spec.grouping_values.
  now rewrite dropna_replace_blank.
Qed.

(** The table of a distribution: one row for every grouping value, with
    its number of occurrences, in descending order of the counts. *)
Lemma distribution_table (df : DataFrame) (column : TextColumn) :
  let vals := Spec.grouping_values column df in
  let data := prepare_distribution df column None in
  NoDup (List.map fst data)
  /\ (forall v c, In (v, c) data <-> In v vals /\ c = Spec.occurrences v vals)
  /\ StronglySorted Spec.count_ge data.
Proof.
  intros vals data.
  assert (D : data = sort_by count_geb (tally vals)) by apply distribution_full.
  assert (P : Permutation data (tally vals)) by (rewrite D; apply sort_by_perm).
  pose proof (tally_first_seen vals) as T.
  split; [| split].
  - apply (Permutation_NoDup (l := List.map fst (tally vals))).
    + apply Permutation_sym, Permutation_map, P.
    + rewrite T, List.map_map. cbn [fst]. rewrite List.map_id.
      apply first_seen_NoDup, String.eqb_eq.
  - intros v c. split.
    + intros I. apply (Permutation_in _ P) in I. rewrite T in I.
      apply List.in_map_iff in I. destruct I as (u & [= -> <-] & I).
      split; [| reflexivity]. exact (proj1 (first_seen_In _ String.eqb_eq _ _) I).
    + intros [I ->]. apply (Permutation_in _ (Permutation_sym P)). rewrite T.
      apply List.in_map_iff. exists v. split; [reflexivity |].
      exact (proj2 (first_seen_In _ String.eqb_eq _ _) I).
  - rewrite D. apply sorted_descending, sort_by_sorted;
      [apply count_geb_total | apply count_geb_trans].
Qed.

(** C7, as stated: with one "TX" and then one "CA" the two groups tie,
    and the distribution lists "TX" before "CA": the tie is not broken by
    the ascending order of the values. *)
Lemma distribution_ties_not_lexical :
  prepare_distribution [row_state 1 (Some "TX"); row_state 2 (Some "CA")] col_state None
  = [("TX", 1); ("CA", 1)]
  /\ Spec.ties_ascending
       (prepare_distribution [row_state 1 (Some "TX"); row_state 2 (Some "CA")]
          col_state None) = false.
Proof. split; reflexivity. Qed.

(** C7 (amended).  The distribution of a column groups the present,
    trimmed, non-blank values: every such value appears once, with its
    number of occurrences.  The groups are sorted by descending count;
    no order is stated among groups with equal counts.  A positive limit
    keeps the first N groups.  The values "TX", "TX", "CA", blank, absent
    give TX 2, CA 1. *)
Theorem distribution_rule (df : DataFrame) (column : TextColumn) :
  let vals := Spec.grouping_values column df in
  let data := prepare_distribution df column None in
  NoDup (List.map fst data)
  /\ (forall v c, In (v, c) data <-> In v vals /\ c = Spec.occurrences v vals)
  /\ StronglySorted Spec.count_ge data
  /\ (forall n : positive,
        prepare_distribution df column (Some (Z.pos n))
        = List.firstn (Pos.to_nat n) data)
  /\ prepare_distribution
       (List.map (row_state 0) [Some "TX"; Some "TX"; Some "CA"; Some ""; None])
       col_state None
     = [("TX", 2); ("CA", 1)].
Proof.
  intros vals data.
  pose proof (distribution_table df column) as T. cbv zeta in T.
  destruct T as (N & M & S).
  split; [exact N |]. split; [exact M |]. split; [exact S |].
  split; [intros n; reflexivity | reflexivity].
Qed.

Lemma distribution_rule_witness :
  In ("TX", 2)
    (prepare_distribution
       (List.map (row_state 0) [Some "TX"; Some " TX"; Some "CA"; Some "  "; None])
       col_state None).
Proof.
  apply (proj2 (proj1 (proj2 (distribution_rule
                                 (List.map (row_state 0)
                                    [Some "TX"; Some " TX"; Some "CA"; Some "  "; None])
                                 col_state)) "TX" 2)).
  split; [now left | reflexivity].
Defined.

(** C10.  [prepare_distribution] with [limit = 0] returns the whole
    distribution: one row for every grouping value of the frame, with its
    number of occurrences, as without a limit; it is not empty unless the
    column has no value.  The query path rejects a limit of zero. *)
Theorem distribution_zero_limit (df : DataFrame) (column : TextColumn)
    (filters : QueryTools.Filters) :
  let vals := Spec.grouping_values column df in
  let data := prepare_distribution df column (Some 0) in
  data = prepare_distribution df column None
  /\ NoDup (List.map fst data)
  /\ (forall v c, In (v, c) data <-> In v vals /\ c = Spec.occurrences v vals)
  /\ List.length data = List.length (Spec.first_seen String.eqb vals)
  /\ (vals <> [] -> data <> [])
  /\ QueryTools.fetch_filtered_calls_query filters (Some 0)
     = ValueError "limit must be positive"
  /\ prepare_distribution
       (List.map (row_state 0) [Some "TX"; Some "TX"; Some "CA"]) col_state (Some 0)
     = [("TX", 2); ("CA", 1)].
Proof.
  intros vals data.
  assert (E : data = prepare_distribution df column None) by reflexivity.
  pose proof (distribution_table df column) as T. cbv zeta in T.
  destruct T as (N & M & _).
  rewrite <- E in N, M.
  split; [exact E |]. split; [exact N |]. split; [exact M |].
  split; [| split; [| split; [| reflexivity]]].
  - rewrite E, distribution_full. fold vals.
    rewrite (Permutation_length (sort_by_perm count_geb (tally vals))).
    now rewrite tally_first_seen, List.length_map.
  - intros NE D. rewrite D in M. unfold vals in *.
    destruct (Spec.grouping_values column df) as [| v vals']; [now apply NE |].
    exact (proj2 (M v _) (conj (or_introl eq_refl) eq_refl)).
  - unfold QueryTools.fetch_filtered_calls_query.
    destruct (QueryTools.append_filters filters _). reflexivity.
Qed.

(** ** Query construction *)

Lemma members_nonblank (vs : list (option string)) :
  members vs = QueryTools.nonblank vs.
Proof.
  unfold members, QueryTools.nonblank, dropna.
  induction vs as [| v vs IH]; [reflexivity |].
  cbn [List.map List.flat_map]. rewrite IH.
  destruct v as [[| c s] |]; reflexivity.
Qed.

(** One turn of the loop over [FILTER_COLUMN_MAP]. *)
Lemma append_condition_step (column : string) (value : Criterion)
    (acc : list string * list Param) :
  (if negb (QueryTools.truthy value) then acc
   else QueryTools._append_condition column value acc)
  = (fst acc ++ List.map cond_sql (criterion_conds column value),
     snd acc ++ List.flat_map cond_params (criterion_conds column value)).
Proof.
  destruct acc as [conditions params].
  destruct value as [| v | vs]; cbn [QueryTools.truthy negb fst snd].
  - cbn. now rewrite !List.app_nil_r.
  - destruct v as [| c s]; cbn; now rewrite ?List.app_nil_r.
  - unfold QueryTools._append_condition, criterion_conds.
    rewrite members_nonblank.
    destruct vs as [| v vs].
    + cbn. now rewrite !List.app_nil_r.
    + cbn [negb].
      destruct (QueryTools.nonblank (v :: vs)) as [| m ms].
      * cbn. now rewrite !List.app_nil_r.
      * cbn [List.map List.flat_map cond_sql cond_params].
        now rewrite List.app_nil_r.
Qed.

Lemma append_filters_conds (filters : QueryTools.Filters)
    (acc : list string * list Param) :
  QueryTools.append_filters filters acc
  = (fst acc
     ++ List.map cond_sql
          (List.flat_map
             (fun kc => criterion_conds (snd kc) (QueryTools.get filters (fst kc)))
             QueryTools.FILTER_COLUMN_MAP),
     snd acc
     ++ List.flat_map cond_params
          (List.flat_map
             (fun kc => criterion_conds (snd kc) (QueryTools.get filters (fst kc)))
             QueryTools.FILTER_COLUMN_MAP)).
Proof.
  unfold QueryTools.append_filters.
  generalize QueryTools.FILTER_COLUMN_MAP. intros m. revert acc.
  induction m as [| kc m IH]; intros acc.
  - cbn. rewrite !List.app_nil_r. now destruct acc.
  - cbn [List.fold_left List.flat_map]. rewrite append_condition_step, IH.
    cbn [fst snd]. rewrite List.map_app, List.flat_map_app, <- !List.app_assoc.
    reflexivity.
Qed.

(** [fetch_filtered_calls] submits the conjunction of the conditions of
    its criteria, or rejects the limit. *)
Lemma fetch_filtered_calls_render (filters : QueryTools.Filters) (limit : option Z) :
  QueryTools.fetch_filtered_calls_query filters limit
  = match limit with
    | Some n =>
        if n <=? 0 then ValueError "limit must be positive"
        else Ok (render_query (filter_conds filters) (Some n))
    | None => Ok (render_query (filter_conds filters) None)
    end.
Proof.
  unfold QueryTools.fetch_filtered_calls_query. rewrite append_filters_conds.
  unfold render_query, filter_conds, date_conds.
  set (K := List.flat_map _ QueryTools.FILTER_COLUMN_MAP).
  destruct (QueryTools.start_date filters) as [d1 |],
           (QueryTools.end_date filters) as [d2 |];
    destruct K as [| k K];
    cbn [fst snd List.app List.map List.flat_map cond_sql cond_params];
    destruct limit as [n |]; try destruct (n <=? 0);
    rewrite ?List.app_nil_r; reflexivity.
Qed.

(** The text of a condition depends on the shape of its criterion only. *)
Lemma criterion_sql_shape (column : string) (c1 c2 : Criterion) :
  Spec.criterion_shape c1 = Spec.criterion_shape c2 ->
  List.map cond_sql (criterion_conds column c1)
  = List.map cond_sql (criterion_conds column c2).
Proof.
  unfold Spec.criterion_shape, criterion_conds.
  destruct c1 as [| [| a1 v1] | vs1], c2 as [| [| a2 v2] | vs2];
    try destruct (members vs1) as [| m1 ms1];
    try destruct (members vs2) as [| m2 ms2];
    cbn [List.length List.map cond_sql]; try discriminate; try reflexivity.
  intros [= E]. now rewrite E.
Qed.

Lemma filter_conds_sql_shape (f1 f2 : QueryTools.Filters) :
  Spec.filters_shape f1 = Spec.filters_shape f2 ->
  List.map cond_sql (filter_conds f1) = List.map cond_sql (filter_conds f2).
Proof.
  unfold Spec.filters_shape, Spec.criteria_keys. cbn [List.map].
  intros [= Hs He K1 K2 K3 K4 K5 K6 K7].
  unfold filter_conds, QueryTools.FILTER_COLUMN_MAP.
  cbn [List.flat_map fst snd]. rewrite !List.map_app.
  rewrite (criterion_sql_shape _ _ _ K1), (criterion_sql_shape _ _ _ K2),
    (criterion_sql_shape _ _ _ K3), (criterion_sql_shape _ _ _ K4),
    (criterion_sql_shape _ _ _ K5), (criterion_sql_shape _ _ _ K6),
    (criterion_sql_shape _ _ _ K7).
  f_equal. unfold date_conds.
  destruct (QueryTools.start_date f1), (QueryTools.start_date f2);
    try discriminate;
    destruct (QueryTools.end_date f1), (QueryTools.end_date f2);
    try discriminate; reflexivity.
Qed.

Lemma render_query_sql (conds1 conds2 : list Cond) (l1 l2 : option Z) :
  List.map cond_sql conds1 = List.map cond_sql conds2 ->
  Spec.is_present l1 = Spec.is_present l2 ->
  sql (render_query conds1 l1) = sql (render_query conds2 l2).
Proof.
  intros E L. unfold render_query. cbn [sql]. rewrite <- E.
  destruct conds1, conds2; try discriminate;
    destruct l1, l2; try discriminate; reflexivity.
Qed.

(** [build_service_calls_query] in closed form. *)
Lemma builder_fold (filters : QueryBuilder.Filters) (m : list (string * string))
    (acc : list string * list Param) :
  List.fold_left
    (fun acc kc =>
       match QueryBuilder.get filters (fst kc) with
       | None => acc
       | Some value =>
           (fst acc ++ [(snd kc ++ " = ?")%string], snd acc ++ [PText value])
       end) m acc
  = (fst acc
     ++ List.flat_map
          (fun kc =>
             match QueryBuilder.get filters (fst kc) with
             | Some _ => [(snd kc ++ " = ?")%string]
             | None => []
             end) m,
     snd acc
     ++ List.map PText
          (dropna (List.map (fun kc => QueryBuilder.get filters (fst kc)) m))).
Proof.
  revert acc. induction m as [| kc m IH]; intros acc.
  - cbn. rewrite !List.app_nil_r. now destruct acc.
  - cbn [List.fold_left List.flat_map List.map dropna].
    rewrite IH. fold (@dropna string).
    destruct (QueryBuilder.get filters (fst kc)); cbn [fst snd List.app List.map].
    + now rewrite <- !List.app_assoc.
    + reflexivity.
Qed.

Lemma build_service_calls_query_closed (filters : QueryBuilder.Filters)
    (limit : option Z) :
  QueryBuilder.build_service_calls_query filters limit
  = let where_clause :=
      match builder_conditions filters with
      | [] => ""
      | _ => (" WHERE " ++ PyStr.join " AND " (builder_conditions filters))%string
      end in
    match limit with
    | Some n =>
        if n <=? 0 then ValueError "limit must be positive"
        else
          Ok {| sql := PyStr.strip (select_template where_clause " LIMIT ?");
                params := builder_values filters ++ [PInt n] |}
    | None =>
        Ok {| sql := PyStr.strip (select_template where_clause "");
              params := builder_values filters |}
    end.
Proof.
  unfold QueryBuilder.build_service_calls_query. rewrite builder_fold.
  unfold builder_conditions, builder_values, QueryBuilder._coerce_date,
    QueryBuilder.DATE_COLUMN.
  cbn [fst snd List.app].
  set (K := List.flat_map _ QueryBuilder.FILTER_COLUMN_MAP).
  set (V := List.map PText _).
  destruct (QueryBuilder.start_date filters) as [d1 |],
           (QueryBuilder.end_date filters) as [d2 |];
    cbn [fst snd List.app List.map dropna List.flat_map];
    rewrite <- ?List.app_assoc, ?List.app_nil_r; cbn [List.app];
    destruct limit as [n |]; try destruct (n <=? 0); try reflexivity.
Qed.

Lemma builder_conditions_shape (f1 f2 : QueryBuilder.Filters) :
  Spec.builder_shape f1 = Spec.builder_shape f2 ->
  builder_conditions f1 = builder_conditions f2.
Proof.
  unfold Spec.builder_shape, Spec.builder_keys. cbn [List.map].
  intros [= Hs He K1 K2 K3 K4 K5].
  unfold builder_conditions, QueryBuilder.FILTER_COLUMN_MAP.
  cbn [List.flat_map fst snd].
  destruct (QueryBuilder.get f1 "state"), (QueryBuilder.get f2 "state");
    try discriminate;
    destruct (QueryBuilder.get f1 "model"), (QueryBuilder.get f2 "model");
    try discriminate;
    destruct (QueryBuilder.get f1 "engineer"), (QueryBuilder.get f2 "engineer");
    try discriminate;
    destruct (QueryBuilder.get f1 "status"), (QueryBuilder.get f2 "status");
    try discriminate;
    destruct (QueryBuilder.get f1 "instrument_status"),
             (QueryBuilder.get f2 "instrument_status");
    try discriminate;
    destruct (QueryBuilder.start_date f1), (QueryBuilder.start_date f2);
    try discriminate;
    destruct (QueryBuilder.end_date f1), (QueryBuilder.end_date f2);
    try discriminate; reflexivity.
Qed.

(** C6.  The statement text of both query builders is determined by
    which criteria are present and by the number of members of each set:
    two filter specifications of the same shape give the same text,
    whatever their values.  The values go to the bound parameters, in
    order, followed by the limit. *)
Theorem sql_text_depends_on_shape_only :
  (forall (f1 f2 : QueryTools.Filters) (l1 l2 : option Z) (q1 q2 : Query),
      Spec.filters_shape f1 = Spec.filters_shape f2 ->
      Spec.is_present l1 = Spec.is_present l2 ->
      QueryTools.fetch_filtered_calls_query f1 l1 = Ok q1 ->
      QueryTools.fetch_filtered_calls_query f2 l2 = Ok q2 ->
      sql q1 = sql q2)
  /\ (forall (f1 f2 : QueryBuilder.Filters) (l1 l2 : option Z) (q1 q2 : Query),
        Spec.builder_shape f1 = Spec.builder_shape f2 ->
        Spec.is_present l1 = Spec.is_present l2 ->
        QueryBuilder.build_service_calls_query f1 l1 = Ok q1 ->
        QueryBuilder.build_service_calls_query f2 l2 = Ok q2 ->
        sql q1 = sql q2)
  /\ (forall (f : QueryTools.Filters) (l : option Z) (q : Query),
        QueryTools.fetch_filtered_calls_query f l = Ok q ->
        params q = List.flat_map cond_params (filter_conds f) ++ limit_params l)
  /\ (forall (f : QueryBuilder.Filters) (l : option Z) (q : Query),
        QueryBuilder.build_service_calls_query f l = Ok q ->
        params q = builder_values f ++ limit_params l).
Proof.
  split; [| split; [| split]].
  - intros f1 f2 l1 l2 q1 q2 S L E1 E2.
    rewrite fetch_filtered_calls_render in E1, E2.
    assert (Q1 : q1 = render_query (filter_conds f1) l1).
    { destruct l1 as [n |]; [destruct (n <=? 0); [discriminate |] |]; congruence. }
    assert (Q2 : q2 = render_query (filter_conds f2) l2).
    { destruct l2 as [n |]; [destruct (n <=? 0); [discriminate |] |]; congruence. }
    subst q1 q2. apply render_query_sql; [| exact L].
    now apply filter_conds_sql_shape.
  - intros f1 f2 l1 l2 q1 q2 S L E1 E2.
    rewrite build_service_calls_query_closed in E1, E2.
    cbv zeta in E1, E2. rewrite (builder_conditions_shape _ _ S) in E1.
    destruct l1 as [n1 |], l2 as [n2 |]; try discriminate;
      try destruct (n1 <=? 0); try destruct (n2 <=? 0); try discriminate.
    + injection E1 as <-. injection E2 as <-. reflexivity.
    + injection E1 as <-. injection E2 as <-. reflexivity.
  - intros f l q E. rewrite fetch_filtered_calls_render in E.
    destruct l as [n |]; [destruct (n <=? 0); [discriminate |] |];
      injection E as <-; reflexivity.
  - intros f l q E. rewrite build_service_calls_query_closed in E.
    cbv zeta in E.
    destruct l as [n |]; [destruct (n <=? 0); [discriminate |] |];
      injection E as <-; cbn [params limit_params];
      rewrite ?List.app_nil_r; reflexivity.
Qed.

Lemma sql_text_depends_on_shape_only_witness :
  statement (QueryTools.fetch_filtered_calls_query
               (sample_filters [Some "TX"; None; Some "CA"]) (Some 5))
  = statement (QueryTools.fetch_filtered_calls_query
                 (sample_filters [Some "x' OR '1'='1"; Some "; DROP TABLE service_calls"; Some ""])
                 (Some 700))
  /\ statement (QueryBuilder.build_service_calls_query
                  (sample_builder_filters "GX-200") None)
     = statement (QueryBuilder.build_service_calls_query
                    (sample_builder_filters "' OR 1=1 --") None).
Proof.
  destruct (QueryTools.fetch_filtered_calls_query
              (sample_filters [Some "TX"; None; Some "CA"]) (Some 5)) as [q1 | m1] eqn:E1;
    [| discriminate E1].
  destruct (QueryTools.fetch_filtered_calls_query
              (sample_filters [Some "x' OR '1'='1"; Some "; DROP TABLE service_calls"; Some ""])
              (Some 700)) as [q2 | m2] eqn:E2; [| discriminate E2].
  destruct (QueryBuilder.build_service_calls_query
              (sample_builder_filters "GX-200") None) as [q3 | m3] eqn:E3;
    [| discriminate E3].
  destruct (QueryBuilder.build_service_calls_query
              (sample_builder_filters "' OR 1=1 --") None) as [q4 | m4] eqn:E4;
    [| discriminate E4].
  cbn [statement]. split; f_equal.
  - exact (proj1 sql_text_depends_on_shape_only
             (sample_filters [Some "TX"; None; Some "CA"])
             (sample_filters
                [Some "x' OR '1'='1"; Some "; DROP TABLE service_calls"; Some ""])
             (Some 5) (Some 700) q1 q2 eq_refl eq_refl E1 E2).
  - exact (proj1 (proj2 sql_text_depends_on_shape_only)
             (sample_builder_filters "GX-200") (sample_builder_filters "' OR 1=1 --")
             None None q3 q4 eq_refl eq_refl E3 E4).
Defined.

(** ** What the conditions select *)







(** ** The words of a statement *)












(** ** Reading the statement back *)















(** The statement for the states TX or CA, the status Open and entries
    from 2024-01-01 on, run on six calls: calls 5 and 1 are returned, the
    later one first. *)
Lemma execute_sample :
  match QueryTools.fetch_filtered_calls_query
          (sample_filters [Some "TX"; None; Some "CA"]) (Some 5) with
  | Ok q =>
      option_map (List.map call_id)
        (Sqlite.execute (sql q) (params q)
           [row_call 1 (Some "TX") (Some "Open") (Some (19724 * 86400));
            row_call 2 (Some "NY") (Some "Open") (Some (19725 * 86400));
            row_call 3 (Some "CA") (Some "Closed") (Some (19726 * 86400));
            row_call 4 (Some "CA") (Some "Open") None;
            row_call 5 (Some "CA") (Some "Open") (Some (19730 * 86400 + 60));
            row_call 6 (Some "TX") (Some "Open") (Some (19722 * 86400))])
      = Some [5; 1]
  | ValueError _ => False
  end.
Proof. vm_compute. reflexivity. Qed.

(** C9.  Both query builders reject a limit of zero or below with the
    error "limit must be positive": no statement is produced and the limit
    is not replaced by another value. *)
Theorem nonpositive_limit_rejected
    (filters : QueryTools.Filters) (rest_filters : QueryBuilder.Filters) (n : Z) :
  n <= 0 ->
  QueryTools.fetch_filtered_calls_query filters (Some n)
  = ValueError "limit must be positive"
  /\ QueryBuilder.build_service_calls_query rest_filters (Some n)
     = ValueError "limit must be positive".
Proof.
  intros H. apply Z.leb_le in H.
  rewrite fetch_filtered_calls_render, build_service_calls_query_closed.
  cbv zeta. now rewrite H.
Qed.

Lemma nonpositive_limit_rejected_witness :
  QueryTools.fetch_filtered_calls_query (sample_filters [Some "TX"]) (Some (-3))
  = ValueError "limit must be positive"
  /\ QueryBuilder.build_service_calls_query (sample_builder_filters "GX-200") (Some (-3))
     = ValueError "limit must be positive".
Proof.
  apply (nonpositive_limit_rejected _ _ (-3)). lia.
Defined.

(** * Further properties of the query and aggregation layer *)

(** ** Bounds on the indicators *)

Lemma count_rows_le {A} (p : A -> bool) (l : list A) :
  0 <= Pandas.count_rows p l <= Z.of_nat (List.length l).
Proof.
  unfold Pandas.count_rows. pose proof (List.filter_length_le p l). lia.
Qed.

Lemma count_rows_impl {A} (p q : A -> bool) (l : list A) :
  (forall x, implb (p x) (q x) = true) ->
  Pandas.count_rows p l <= Pandas.count_rows q l.
Proof.
  intros H. induction l as [| x l IH]; [reflexivity |].
  rewrite !count_rows_cons. specialize (H x).
  destruct (p x), (q x); try discriminate; lia.
Qed.

Lemma closed_dashboard_implied (r : CallRecord) :
  implb (Spec.is_closed r) (Spec.is_closed_dashboard r) = true.
Proof.
  unfold Spec.is_closed, Spec.is_closed_dashboard, Spec.closed_words.
  destruct (Spec.is_one_of _ (status r)); [reflexivity |].
  cbn [orb existsb].
  destruct (Spec.starts_with "solved" (call_status r)); reflexivity.
Qed.

Lemma pending_dashboard_implied (r : CallRecord) :
  implb (Spec.is_pending r) (Spec.is_pending_dashboard r) = true.
Proof.
  unfold Spec.is_pending, Spec.is_pending_dashboard.
  destruct (Spec.is_one_of _ (status r)); reflexivity.
Qed.

Lemma get_stats_closed_count (rows : DataFrame) :
  get_stats_closed_calls rows = Pandas.count_rows Spec.is_closed rows.
Proof.
  unfold get_stats_closed_calls. rewrite sum_case_count.
  apply count_rows_ext, stats_closed_row.
Qed.

Lemma get_stats_pending_count (rows : DataFrame) :
  get_stats_pending_calls rows = Pandas.count_rows Spec.is_pending rows.
Proof.
  unfold get_stats_pending_calls. rewrite sum_case_count.
  apply count_rows_ext, stats_pending_row.
Qed.

(** X1.  [total_calls] is the number of rows of the frame, and on both
    paths (the dashboard's [compute_kpis] and the REST [get_stats]) the
    closed and the pending counts lie between 0 and the total. *)
Theorem kpi_counts_within_total (df : DataFrame) :
  total_calls (compute_kpis df) = Z.of_nat (List.length df)
  /\ 0 <= closed_calls (compute_kpis df) <= total_calls (compute_kpis df)
  /\ 0 <= pending_calls (compute_kpis df) <= total_calls (compute_kpis df)
  /\ 0 <= get_stats_closed_calls df <= get_stats_total_calls df
  /\ 0 <= get_stats_pending_calls df <= get_stats_total_calls df.
Proof.
  rewrite compute_kpis_total, compute_kpis_closed, compute_kpis_pending,
    get_stats_closed_count, get_stats_pending_count.
  unfold get_stats_total_calls.
  repeat split; apply count_rows_le.
Qed.

(** X2.  On one collection the REST statistics and the dashboard KPIs
    report the same total, and the REST closed and pending counts never
    exceed the dashboard's.  On a collection in which no record has a
    [call_status] the two paths report the same counts. *)
Theorem dashboard_counts_cover_api_counts (rows : DataFrame) :
  get_stats_total_calls rows = total_calls (compute_kpis rows)
  /\ get_stats_closed_calls rows <= closed_calls (compute_kpis rows)
  /\ get_stats_pending_calls rows <= pending_calls (compute_kpis rows)
  /\ (Forall (fun r => call_status r = None) rows ->
      get_stats_closed_calls rows = closed_calls (compute_kpis rows)
      /\ get_stats_pending_calls rows = pending_calls (compute_kpis rows)).
Proof.
  rewrite compute_kpis_total, compute_kpis_closed, compute_kpis_pending,
    get_stats_closed_count, get_stats_pending_count.
  split; [reflexivity |].
  split; [apply count_rows_impl, closed_dashboard_implied |].
  split; [apply count_rows_impl, pending_dashboard_implied |].
  intros H. induction H as [| r rows Hr _ [IH1 IH2]]; [split; reflexivity |].
  rewrite !count_rows_cons, IH1, IH2.
  unfold Spec.is_closed, Spec.is_closed_dashboard, Spec.is_pending,
    Spec.is_pending_dashboard, Spec.starts_with.
  rewrite Hr. cbn [existsb]. rewrite !orb_false_r. split; reflexivity.
Qed.

Lemma dashboard_counts_cover_api_counts_witness :
  get_stats_closed_calls [row_status 1 (Some "Closed") None; row_status 2 (Some "open") None]
  = closed_calls
      (compute_kpis [row_status 1 (Some "Closed") None; row_status 2 (Some "open") None]).
Proof.
  apply (proj2 (proj2 (proj2 (dashboard_counts_cover_api_counts
           [row_status 1 (Some "Closed") None; row_status 2 (Some "open") None])))).
  repeat constructor.
Defined.

(** ** Rounding keeps integer bounds *)

(** X3.  [sla_compliance] always lies between 0 and 100, rounding
    included. *)
Theorem sla_compliance_is_a_percentage (df : DataFrame) :
  (0 <= sla_compliance (compute_kpis df) <= 100)%Q.
Proof.
  rewrite compute_kpis_sla.
  destruct (_resolution_days df) as [| d days] eqn:E; [split; discriminate |].
  set (l := d :: days).
  assert (N : 0 < Z.of_nat (List.length l)) by (cbn [l List.length]; lia).
  assert (H : 0 <= Z.of_nat (List.length (sla_hits l)) <= Z.of_nat (List.length l)).
  { unfold sla_hits. pose proof (List.filter_length_le (fun d => Qle_bool d 2) l). lia. }
  exact (proj2 (proj2 (percentage_rounding _ _ H N))).
Qed.

(** ** The average resolution time *)








(** ** A bound on the repeated issues *)

Lemma sum_over_le {A} (f g : A -> Z) (l : list A) :
  (forall k, In k l -> f k <= g k) -> sum_over f l <= sum_over g l.
Proof.
  induction l as [| k l IH]; intros H; [reflexivity |].
  cbn [sum_over List.fold_right]. fold (sum_over f l). fold (sum_over g l).
  pose proof (H k (or_introl eq_refl)).
  assert (sum_over f l <= sum_over g l) by (apply IH; intros; apply H; now right).
  lia.
Qed.

Lemma sum_over_pred {A} (g : A -> Z) (l : list A) :
  sum_over (fun k => g k - 1) l = sum_over g l - Z.of_nat (List.length l).
Proof.
  induction l as [| k l IH]; [reflexivity |].
  cbn [sum_over List.fold_right List.length].
  fold (sum_over (fun k => g k - 1) l). fold (sum_over g l). lia.
Qed.

Lemma close_successors_from_bounds (prev : Z) (times : list Z) :
  0 <= Spec.close_successors_from prev times <= Z.of_nat (List.length times).
Proof.
  revert prev. induction times as [| t l IH]; intros prev; cbn [Spec.close_successors_from List.length].
  - lia.
  - specialize (IH t). destruct (t - prev <=? Spec.thirty_days); lia.
Qed.

Lemma close_successors_bounds (times : list Z) :
  0 <= Spec.close_successors times
  /\ (times <> [] -> Spec.close_successors times <= Z.of_nat (List.length times) - 1).
Proof.
  destruct times as [| t l]; cbn [Spec.close_successors List.length].
  - split; [lia | congruence].
  - pose proof (close_successors_from_bounds t l). split; [lia | intros _; lia].
Qed.

(** The groups of the pairs partition the rows. *)
Lemma group_times_partition (keys : list (string * string)) (rows : list IssueRow) :
  NoDup keys ->
  (forall x, In x rows -> In (fst x) keys) ->
  sum_over (fun k => Z.of_nat (List.length (group_times k rows))) keys
  = Z.of_nat (List.length rows).
Proof.
  intros Hn. induction rows as [| r rows IH]; intros Hc.
  - apply sum_over_zero. reflexivity.
  - rewrite (sum_over_ext _
               (fun k => Z.of_nat (List.length (group_times k rows))
                         + (if Spec.key_eqb k (fst r) then 1 else 0))).
    + rewrite sum_over_plus, IH, sum_over_indicator.
      * cbn [List.length]. lia.
      * exact Hn.
      * apply Hc. now left.
      * intros x I. apply Hc. now right.
    + intros k _. rewrite group_times_cons.
      destruct (Spec.key_eqb k (fst r)); cbn [List.length]; lia.
Qed.

Lemma group_times_nonempty (key : string * string) (rows : list IssueRow) :
  In key (List.map fst rows) -> group_times key rows <> [].
Proof.
  induction rows as [| r rows IH]; [intros [] |].
  intros [E | I]; rewrite group_times_cons.
  - rewrite E, key_eqb_refl. discriminate.
  - destruct (Spec.key_eqb key (fst r)); [discriminate | now apply IH].
Qed.

(** X6.  The repeated-issue count is never negative and never more than
    the number of eligible records minus the number of distinct
    (customer, complaint) pairs among them: the first record of a pair is
    never a repeat.  When no two eligible records share a pair it is 0. *)
Theorem repeated_issues_bounded (df : DataFrame) :
  let eligible := dropna_issue df in
  let pairs := Spec.first_seen Spec.key_eqb (List.map fst eligible) in
  0 <= _repeated_issue_count df
  /\ _repeated_issue_count df + Z.of_nat (List.length pairs)
     <= Z.of_nat (List.length eligible)
  /\ (NoDup (List.map fst eligible) -> _repeated_issue_count df = 0).
Proof.
  intros eligible pairs.
  rewrite repeated_issue_count_spec, repeated_issues_sum. fold eligible. fold pairs.
  set (f := fun key => Spec.close_successors (sort_by Z.leb (group_times key eligible))).
  assert (L : 0 <= sum_over f pairs).
  { rewrite <- (sum_over_zero (fun _ : string * string => 0) pairs) by reflexivity.
    apply sum_over_le. intros k _. apply close_successors_bounds. }
  assert (U : sum_over f pairs + Z.of_nat (List.length pairs)
              <= Z.of_nat (List.length eligible)).
  { rewrite <- (group_times_partition pairs eligible).
    - assert (H : sum_over f pairs
                  <= sum_over (fun k => Z.of_nat (List.length (group_times k eligible)) - 1)
                       pairs).
      { apply sum_over_le. intros k I. unfold f.
        rewrite <- (Permutation_length (sort_by_perm Z.leb (group_times k eligible))).
        apply close_successors_bounds.
        intros E.
        apply (group_times_nonempty k eligible).
        - exact (proj1 (pairs_first_seen_In _ _) I).
        - apply Permutation_nil. rewrite <- E. apply sort_by_perm. }
      rewrite sum_over_pred in H. lia.
    - apply pairs_first_seen_NoDup.
    - intros x I. apply (proj2 (pairs_first_seen_In _ _)). now apply List.in_map. }
  split; [exact L | split; [exact U |]].
  intros N.
  assert (P : Permutation pairs (List.map fst eligible)).
  { apply NoDup_Permutation; [apply pairs_first_seen_NoDup | exact N |].
    intros k. apply pairs_first_seen_In. }
  apply Permutation_length in P. rewrite List.length_map in P.
  revert L U P. generalize (sum_over f pairs). unfold IssueRow in *.
  intros; lia.
Qed.

Lemma repeated_issues_bounded_witness :
  _repeated_issue_count
    [row_issue 1 "A" "leak" 0; row_issue 2 "A" "noise" 3; row_issue 3 "B" "leak" 5] = 0.
Proof.
  apply (proj2 (proj2 (repeated_issues_bounded
           [row_issue 1 "A" "leak" 0; row_issue 2 "A" "noise" 3; row_issue 3 "B" "leak" 5]))).
  cbn. repeat constructor; cbn; intuition discriminate.
Defined.

(** ** Time series *)

Lemma sort_by_sorted_id {A} (leb : A -> A -> bool) (l : list A) :
  StronglySorted (leb_rel leb) l -> sort_by leb l = l.
Proof.
  induction 1 as [| x l Hs IH Hx]; [reflexivity |].
  cbn [sort_by List.fold_right]. fold (sort_by leb l). rewrite IH.
  destruct Hx as [| y l Hy _]; [reflexivity |].
  cbn [insert_by]. unfold leb_rel in Hy. now rewrite Hy.
Qed.

Lemma day_bump_above (k day : Z) (sizes : list (Z * Z)) :
  k < day -> Forall (date_lt (k, 0)) sizes -> Forall (date_lt (k, 0)) (day_bump day sizes).
Proof.
  intros Hk. induction 1 as [| [d c] rest Hd Hr IH]; cbn [day_bump].
  - constructor; [exact Hk | constructor].
  - destruct (day <? d); [| destruct (day =? d)].
    + constructor; [exact Hk |]. now constructor.
    + now constructor.
    + now constructor.
Qed.

Lemma date_lt_head (k c c' : Z) (sizes : list (Z * Z)) :
  Forall (date_lt (k, c)) sizes -> Forall (date_lt (k, c')) sizes.
Proof. apply Forall_impl. intros a H. exact H. Qed.

Lemma day_bump_sorted (day : Z) (sizes : list (Z * Z)) :
  StronglySorted date_lt sizes -> StronglySorted date_lt (day_bump day sizes).
Proof.
  induction 1 as [| [d c] rest Hs IH Hd]; cbn [day_bump].
  - repeat constructor.
  - destruct (day <? d) eqn:L; [| destruct (day =? d) eqn:E].
    + apply Z.ltb_lt in L. constructor; [now constructor |].
      constructor; [exact L |].
      eapply Forall_impl; [| exact Hd].
      intros a H. unfold date_lt in *. cbn [fst] in *. lia.
    + constructor; [exact Hs |]. now apply (date_lt_head d c).
    + apply Z.ltb_ge in L. apply Z.eqb_neq in E.
      constructor; [exact IH |].
      apply (date_lt_head d 0), day_bump_above; [lia |].
      now apply (date_lt_head d c).
Qed.

Lemma size_at_cons (day : Z) (kc : Z * Z) (sizes : list (Z * Z)) :
  size_at day (kc :: sizes) = (if fst kc =? day then snd kc else 0) + size_at day sizes.
Proof. reflexivity. Qed.

Lemma size_at_bump (day' day : Z) (sizes : list (Z * Z)) :
  size_at day' (day_bump day sizes)
  = size_at day' sizes + (if day =? day' then 1 else 0).
Proof.
  induction sizes as [| [d c] rest IH]; cbn [day_bump].
  - rewrite size_at_cons. cbn [fst snd]. unfold size_at. cbn.
    destruct (day =? day'); reflexivity.
  - destruct (day <? d); [| destruct (day =? d) eqn:E].
    + rewrite (size_at_cons day' (day, 1)). cbn [fst snd].
      destruct (day =? day'); lia.
    + apply Z.eqb_eq in E. subst d. rewrite !size_at_cons. cbn [fst snd].
      destruct (day =? day'); lia.
    + rewrite !size_at_cons, IH. lia.
Qed.

Lemma sizes_sum_bump (day : Z) (sizes : list (Z * Z)) :
  sum_over snd (day_bump day sizes) = sum_over snd sizes + 1.
Proof.
  induction sizes as [| [d c] rest IH]; cbn [day_bump]; [reflexivity |].
  destruct (day <? d); [| destruct (day =? d)];
    cbn [sum_over List.fold_right snd] in *;
    fold (sum_over snd rest) in *; fold (sum_over snd (day_bump day rest)) in *; lia.
Qed.

Lemma sizes_positive_bump (day : Z) (sizes : list (Z * Z)) :
  Forall (fun kc => 0 < snd kc) sizes ->
  Forall (fun kc => 0 < snd kc) (day_bump day sizes).
Proof.
  induction 1 as [| [d c] rest Hc Hr IH]; cbn [day_bump].
  - repeat constructor.
  - cbn [snd] in Hc.
    destruct (day <? d); [| destruct (day =? d)]; repeat constructor;
      cbn [snd]; try lia; assumption.
Qed.

(** What the fold of [group_sizes] keeps. *)
Lemma group_sizes_fold (dates : list Z) (sizes : list (Z * Z)) :
  StronglySorted date_lt sizes ->
  Forall (fun kc => 0 < snd kc) sizes ->
  let result := List.fold_left (fun sizes d => day_bump d sizes) dates sizes in
  StronglySorted date_lt result
  /\ Forall (fun kc => 0 < snd kc) result
  /\ (forall day, size_at day result
                  = size_at day sizes + Pandas.count_rows (Z.eqb day) dates)
  /\ sum_over snd result = sum_over snd sizes + Z.of_nat (List.length dates).
Proof.
  revert sizes. induction dates as [| d dates IH]; intros sizes Hs Hp.
  - cbn [List.fold_left]. repeat split; try assumption.
    + intros day. unfold Pandas.count_rows. cbn [List.filter List.length]. lia.
    + cbn [List.length]. lia.
  - cbn [List.fold_left].
    destruct (IH (day_bump d sizes) (day_bump_sorted d sizes Hs)
                (sizes_positive_bump d sizes Hp)) as (S & P & C & T).
    repeat split; try assumption.
    + intros day. rewrite C, size_at_bump, count_rows_cons, (Z.eqb_sym day d). lia.
    + rewrite T, sizes_sum_bump. cbn [List.length]. lia.
Qed.

Lemma size_at_absent (day : Z) (sizes : list (Z * Z)) :
  Forall (fun kc => day < fst kc) sizes -> size_at day sizes = 0.
Proof.
  induction 1 as [| kc rest H _ IH]; [reflexivity |].
  rewrite size_at_cons, IH.
  destruct (fst kc =? day) eqn:E; [apply Z.eqb_eq in E; lia | reflexivity].
Qed.

(** In a table sorted by date a row holds the size of its date. *)
Lemma size_at_row (day c : Z) (sizes : list (Z * Z)) :
  StronglySorted date_lt sizes -> In (day, c) sizes -> size_at day sizes = c.
Proof.
  induction 1 as [| kc rest Hs IH Hk]; [intros [] |].
  intros [E | I]; rewrite size_at_cons.
  - subst kc. cbn [fst snd]. rewrite Z.eqb_refl, size_at_absent; [lia |].
    exact Hk.
  - rewrite IH by exact I.
    rewrite Forall_forall in Hk. specialize (Hk _ I). unfold date_lt in Hk.
    cbn [fst] in Hk.
    destruct (fst kc =? day) eqn:E; [apply Z.eqb_eq in E; lia | reflexivity].
Qed.

Lemma size_at_found (day : Z) (sizes : list (Z * Z)) :
  size_at day sizes <> 0 -> exists c, In (day, c) sizes.
Proof.
  induction sizes as [| [d c] rest IH]; [intros H; now contradiction H |].
  rewrite size_at_cons. cbn [fst snd].
  destruct (d =? day) eqn:E.
  - apply Z.eqb_eq in E. subst d. intros _. exists c. now left.
  - intros H. destruct IH as [c' I]; [lia |]. exists c'. now right.
Qed.

Lemma count_rows_pos_In (day : Z) (dates : list Z) :
  0 < Pandas.count_rows (Z.eqb day) dates <-> In day dates.
Proof.
  induction dates as [| d dates IH]; [cbn; split; [lia | intros []] |].
  rewrite count_rows_cons. cbn [In].
  destruct (Z.eqb_spec day d) as [-> | N].
  - split; [now left |]. intros _.
    assert (0 <= Pandas.count_rows (Z.eqb d) dates) by (unfold Pandas.count_rows; lia).
    lia.
  - rewrite Z.add_0_l, IH. split; [now right |]. intros [E | I]; [congruence | exact I].
Qed.

(** The per-day table of a list of dates. *)
Lemma group_sizes_table (dates : list Z) :
  let data := sort_by date_leb (group_sizes dates) in
  StronglySorted date_lt data
  /\ (forall day c,
        In (day, c) data <-> In day dates /\ c = Pandas.count_rows (Z.eqb day) dates)
  /\ sum_over snd data = Z.of_nat (List.length dates).
Proof.
  destruct (group_sizes_fold dates [] (SSorted_nil _) (Forall_nil _)) as (S & P & C & T).
  fold (group_sizes dates) in S, P, C, T.
  assert (E : sort_by date_leb (group_sizes dates) = group_sizes dates).
  { apply sort_by_sorted_id. clear - S.
    induction S as [| a l Hs IH Ha]; constructor; [exact IH |].
    eapply Forall_impl; [| exact Ha].
    intros b H. unfold leb_rel, date_leb, date_lt in *. apply Z.leb_le. lia. }
  cbv zeta. rewrite E. split; [exact S | split; [| exact T]].
  intros day c. split.
  - intros I. pose proof (size_at_row day c _ S I) as R.
    rewrite C in R. cbn in R.
    rewrite Forall_forall in P. specialize (P _ I). cbn [snd] in P.
    split; [apply count_rows_pos_In; lia | lia].
  - intros [I ->]. apply count_rows_pos_In in I.
    destruct (size_at_found day (group_sizes dates)) as [c I'].
    + rewrite C. cbn. lia.
    + pose proof (size_at_row day c _ S I') as R. rewrite C in R. cbn in R.
      now replace (Pandas.count_rows (Z.eqb day) dates) with c by lia.
Qed.

(** X7.  [prepare_calls_logged_per_day] has one row per calendar day on
    which a record was entered and no other row, in strictly ascending order
    of the day; the count of a day is the number of records entered that
    day, and the counts add up to the number of records with an entry time. *)
Theorem calls_logged_per_day_table (df : DataFrame) :
  let dates := List.map day_of (dropna (List.map call_entry_datetime df)) in
  let data := prepare_calls_logged_per_day df in
  StronglySorted date_lt data
  /\ (forall day c,
        In (day, c) data <-> In day dates /\ c = Pandas.count_rows (Z.eqb day) dates)
  /\ sum_over snd data = Z.of_nat (List.length dates).
Proof.
  destruct df as [| r df].
  - cbn. split; [constructor | split; [| reflexivity]].
    intros day c. split; [intros [] | intros [[] _]].
  - apply group_sizes_table.
Qed.

(** X8.  [prepare_calls_closed_per_day] has one row per calendar day on
    which a record was solved and no other row, in strictly ascending order
    of the day; the count of a day is the number of records solved that day,
    and the counts add up to the number of records with a solved time. *)
Theorem calls_closed_per_day_table (df : DataFrame) :
  let dates := List.map day_of (dropna (List.map call_solved_datetime df)) in
  let data := prepare_calls_closed_per_day df in
  StronglySorted date_lt data
  /\ (forall day c,
        In (day, c) data <-> In day dates /\ c = Pandas.count_rows (Z.eqb day) dates)
  /\ sum_over snd data = Z.of_nat (List.length dates).
Proof.
  destruct df as [| r df].
  - cbn. split; [constructor | split; [| reflexivity]].
    intros day c. split; [intros [] | intros [[] _]].
  - apply group_sizes_table.
Qed.

(** ** Totals and prefixes of a distribution *)

Lemma bump_sum (v : string) (acc : list (string * Z)) :
  sum_over snd (bump v acc) = sum_over snd acc + 1.
Proof.
  induction acc as [| [k c] acc IH]; cbn [bump]; [reflexivity |].
  destruct (String.eqb k v); cbn [sum_over List.fold_right snd] in *;
    fold (sum_over snd acc) in *; fold (sum_over snd (bump v acc)) in *; lia.
Qed.

Lemma bump_positive (v : string) (acc : list (string * Z)) :
  Forall (fun g => 1 <= snd g) acc -> Forall (fun g => 1 <= snd g) (bump v acc).
Proof.
  induction 1 as [| [k c] acc Hc Hr IH]; cbn [bump].
  - repeat constructor. cbn. lia.
  - cbn [snd] in Hc. destruct (String.eqb k v); constructor; cbn [snd]; try lia; assumption.
Qed.

Lemma tally_totals (series : list string) :
  sum_over snd (tally series) = Z.of_nat (List.length series)
  /\ Forall (fun g => 1 <= snd g) (tally series).
Proof.
  induction series as [| v l [IH1 IH2]] using List.rev_ind.
  - split; [reflexivity | constructor].
  - rewrite tally_snoc, bump_sum, IH1, List.length_app. cbn [List.length].
    split; [lia | now apply bump_positive].
Qed.

Lemma head_prefix {A} (n : Z) (l : list A) : exists rest, l = head n l ++ rest.
Proof.
  unfold head. destruct (0 <=? n).
  - exists (List.skipn (Z.to_nat n) l). now rewrite List.firstn_skipn.
  - exists (List.skipn (List.length l - Z.to_nat (- n)) l). now rewrite List.firstn_skipn.
Qed.

Lemma head_length {A} (n : Z) (l : list A) :
  0 <= n -> List.length (head n l) = Nat.min (Z.to_nat n) (List.length l).
Proof.
  intros H. unfold head. apply Z.leb_le in H. rewrite H. apply List.length_firstn.
Qed.

(** X9.  The counts of an unlimited distribution add up to the number of
    non-blank values of the column and each is at least 1.  With any limit
    the result is a prefix of the unlimited one; a positive limit [n] keeps
    [min n groups] rows and a negative limit [-k] is not rejected: it drops
    the last [k] rows. *)
Theorem distribution_totals (df : DataFrame) (column : TextColumn) :
  let vals := Spec.grouping_values column df in
  let full := prepare_distribution df column None in
  sum_over snd full = Z.of_nat (List.length vals)
  /\ Forall (fun g => 1 <= snd g) full
  /\ (forall limit, exists rest, full = prepare_distribution df column limit ++ rest)
  /\ (forall n, 0 < n ->
        List.length (prepare_distribution df column (Some n))
        = Nat.min (Z.to_nat n) (List.length full))
  /\ (forall n, n < 0 ->
        List.length (prepare_distribution df column (Some n))
        = (List.length full - Z.to_nat (- n))%nat).
Proof.
  intros vals full.
  assert (D : full = sort_by count_geb (tally vals)) by apply distribution_full.
  assert (P : Permutation full (tally vals)) by (rewrite D; apply sort_by_perm).
  destruct (tally_totals vals) as [T1 T2].
  split; [| split; [| split; [| split]]].
  - now rewrite (sum_over_perm _ _ _ P).
  - apply (Permutation_Forall (Permutation_sym P)), T2.
  - intros [n |].
    + unfold full, prepare_distribution. cbv zeta.
      destruct (n =? 0); [exists []; now rewrite List.app_nil_r | apply head_prefix].
    + exists []. now rewrite List.app_nil_r.
  - intros n H. unfold full, prepare_distribution. cbv zeta.
    replace (n =? 0) with false by (symmetry; apply Z.eqb_neq; lia).
    apply head_length. lia.
  - intros n H. unfold full, prepare_distribution. cbv zeta.
    replace (n =? 0) with false by (symmetry; apply Z.eqb_neq; lia).
    unfold head. replace (0 <=? n) with false by (symmetry; apply Z.leb_gt; lia).
    rewrite List.length_firstn. lia.
Qed.

Lemma distribution_totals_witness :
  List.length
    (prepare_distribution
       (List.map (row_state 0) [Some "TX"; Some "CA"; Some "TX"; Some "AL"]) col_state
       (Some 2))
  = 2%nat.
Proof.
  rewrite (proj1 (proj2 (proj2 (proj2 (distribution_totals
             (List.map (row_state 0) [Some "TX"; Some "CA"; Some "TX"; Some "AL"])
             col_state)))) 2) by lia.
  reflexivity.
Defined.

Lemma top_issues_full (df : DataFrame) :
  value_counts
    (dropna (replace_blank
               (List.map PyStr.strip (dropna (column_series col_customer_complaint df)))))
  = prepare_distribution df col_customer_complaint None.
Proof. reflexivity. Qed.

(** X10.  [prepare_top_issues(df, limit)] is [head(limit)] of the unlimited
    distribution of [customer_complaint].  For a limit other than 0 it is
    [prepare_distribution] with the same limit; for the limit 0 it is
    empty, where [prepare_distribution] has a row for every complaint of
    the frame.  It has [min limit groups] rows for a limit that is not
    negative, in descending order of the count. *)
Theorem top_issues_and_distribution (df : DataFrame) (limit : Z) :
  prepare_top_issues df limit
  = head limit (prepare_distribution df col_customer_complaint None)
  /\ (limit <> 0 ->
      prepare_top_issues df limit
      = prepare_distribution df col_customer_complaint (Some limit))
  /\ prepare_top_issues df 0 = []
  /\ (0 <= limit ->
      List.length (prepare_top_issues df limit)
      = Nat.min (Z.to_nat limit)
          (List.length (prepare_distribution df col_customer_complaint None)))
  /\ StronglySorted Spec.count_ge (prepare_top_issues df limit)
  /\ (forall v c,
        In (v, c) (prepare_distribution df col_customer_complaint (Some 0))
        <-> In v (Spec.grouping_values col_customer_complaint df)
            /\ c = Spec.occurrences v (Spec.grouping_values col_customer_complaint df)).
Proof.
  unfold prepare_top_issues. cbv zeta. rewrite !top_issues_full.
  split; [reflexivity | split; [| split; [| split; [| split]]]];
    [| | | | exact (proj1 (proj2 (distribution_table df col_customer_complaint)))].
  - intros H. unfold prepare_distribution at 2. cbv zeta.
    now replace (limit =? 0) with false by (symmetry; now apply Z.eqb_neq).
  - reflexivity.
  - apply head_length.
  - destruct (head_prefix limit (prepare_distribution df col_customer_complaint None))
      as [rest E].
    assert (S : StronglySorted Spec.count_ge
                  (prepare_distribution df col_customer_complaint None)).
    { rewrite distribution_full.
      apply sorted_descending, sort_by_sorted;
        [apply count_geb_total | apply count_geb_trans]. }
    rewrite E in S. revert S.
    generalize (head limit (prepare_distribution df col_customer_complaint None)).
    intros l. induction l as [| x l IH]; intros S; [constructor |].
    cbn [List.app] in S. apply StronglySorted_inv in S. destruct S as [S F].
    constructor; [now apply IH |].
    apply Forall_app in F. tauto.
Qed.

Lemma top_issues_and_distribution_witness :
  List.length
    (prepare_top_issues
       [row_issue 1 "A" "leak" 0; row_issue 2 "B" "noise" 1; row_issue 3 "C" "leak" 2] 1)
  = 1%nat.
Proof.
  rewrite (proj1 (proj2 (proj2 (proj2 (top_issues_and_distribution
             [row_issue 1 "A" "leak" 0; row_issue 2 "B" "noise" 1; row_issue 3 "C" "leak" 2]
             1))))) by lia.
  reflexivity.
Defined.

(** ** Placeholders and parameters *)

Lemma count_char_append (c : ascii) (s t : string) :
  count_char c (s ++ t) = (count_char c s + count_char c t)%nat.
Proof.
  induction s as [| a s IH]; [reflexivity |].
  cbn [String.append count_char]. rewrite IH. lia.
Qed.

Lemma count_char_lstrip (c : ascii) (s : string) :
  PyStr.is_space c = false -> count_char c (PyStr.lstrip s) = count_char c s.
Proof.
  intros H. induction s as [| a s IH]; [reflexivity |].
  cbn [PyStr.lstrip]. destruct (PyStr.is_space a) eqn:E; [| reflexivity].
  rewrite IH. cbn [count_char].
  destruct (Ascii.eqb_spec a c) as [-> | _]; [congruence | reflexivity].
Qed.

Lemma count_char_rstrip (c : ascii) (s : string) :
  PyStr.is_space c = false -> count_char c (PyStr.rstrip s) = count_char c s.
Proof.
  intros H. induction s as [| a s IH]; [reflexivity |].
  cbn [PyStr.rstrip count_char]. rewrite <- IH.
  destruct (PyStr.rstrip s) as [| b r].
  - destruct (PyStr.is_space a) eqn:E; cbn [count_char]; [| lia].
    destruct (Ascii.eqb_spec a c) as [-> | _]; [congruence | reflexivity].
  - reflexivity.
Qed.

Lemma placeholders_strip (s : string) :
  placeholders (PyStr.strip s) = placeholders s.
Proof.
  unfold placeholders, PyStr.strip.
  now rewrite count_char_rstrip, count_char_lstrip.
Qed.

Lemma placeholders_append (s t : string) :
  placeholders (s ++ t) = (placeholders s + placeholders t)%nat.
Proof. apply count_char_append. Qed.

Lemma placeholders_join (sep : string) (parts : list string) :
  placeholders sep = O ->
  placeholders (PyStr.join sep parts) = List.list_sum (List.map placeholders parts).
Proof.
  intros H. unfold PyStr.join.
  induction parts as [| p parts IH]; [reflexivity |].
  cbn [String.concat List.map List.list_sum].
  destruct parts as [| p' parts].
  - cbn. lia.
  - rewrite !placeholders_append, H, IH. reflexivity.
Qed.

Lemma placeholders_template (where_clause limit_clause : string) :
  placeholders (PyStr.strip (select_template where_clause limit_clause))
  = (placeholders where_clause + placeholders limit_clause)%nat.
Proof.
  rewrite placeholders_strip. unfold select_template.
  rewrite !placeholders_append. cbn. lia.
Qed.

Lemma placeholders_marks (n : nat) :
  placeholders (PyStr.join ", " (List.repeat "?" n)) = n.
Proof.
  rewrite placeholders_join by reflexivity. unfold List.list_sum.
  induction n as [| n IH]; [reflexivity |].
  cbn [List.repeat List.map List.fold_right]. rewrite IH. reflexivity.
Qed.

(** A condition has as many placeholders as it binds values, when the
    name of its column has none. *)
Lemma criterion_placeholders (column : string) (c : Criterion) :
  placeholders column = O ->
  List.list_sum (List.map (fun k => placeholders (cond_sql k)) (criterion_conds column c))
  = List.length (List.flat_map cond_params (criterion_conds column c)).
Proof.
  intros H. unfold criterion_conds.
  destruct c as [| [| a v] | vs]; try reflexivity.
  - cbn [List.map List.list_sum List.flat_map cond_sql cond_params List.app List.length].
    rewrite placeholders_append, H. reflexivity.
  - destruct (members vs) as [| m ms]; [reflexivity |].
    generalize (m :: ms). intros l.
    cbn [List.map List.list_sum List.fold_right List.flat_map cond_sql cond_params].
    rewrite !placeholders_append, H, placeholders_marks, List.app_nil_r, List.length_map.
    cbn. lia.
Qed.

Lemma filter_conds_placeholders (filters : QueryTools.Filters) :
  List.list_sum (List.map (fun k => placeholders (cond_sql k)) (filter_conds filters))
  = List.length (List.flat_map cond_params (filter_conds filters)).
Proof.
  unfold filter_conds.
  rewrite List.map_app, List.list_sum_app, List.flat_map_app, List.length_app.
  f_equal.
  - unfold date_conds.
    destruct (QueryTools.start_date filters), (QueryTools.end_date filters); reflexivity.
  - assert (F : Forall (fun kc : string * string => placeholders (snd kc) = O)
                  QueryTools.FILTER_COLUMN_MAP) by (repeat constructor).
    induction F as [| kc m H _ IH]; [reflexivity |].
    cbn [List.flat_map].
    rewrite List.map_app, List.list_sum_app, List.flat_map_app, List.length_app, IH.
    now rewrite criterion_placeholders.
Qed.

(** X11.  Every statement [fetch_filtered_calls] builds has as many [?]
    placeholders as bound parameters, whatever the filters: filter values
    never reach the text of the statement. *)
Theorem fetch_placeholders_match_parameters
    (filters : QueryTools.Filters) (limit : option Z) (q : Query) :
  QueryTools.fetch_filtered_calls_query filters limit = Ok q ->
  placeholders (sql q) = List.length (params q).
Proof.
  rewrite fetch_filtered_calls_render. intros E.
  assert (Q : q = render_query (filter_conds filters) limit).
  { destruct limit as [n |]; [destruct (n <=? 0); [discriminate |] |]; congruence. }
  subst q. clear E. unfold render_query. cbn [sql params].
  rewrite placeholders_template, List.length_app, <- filter_conds_placeholders.
  f_equal.
  - destruct (filter_conds filters) as [| k conds]; [reflexivity |].
    rewrite placeholders_append, placeholders_join by reflexivity.
    now rewrite List.map_map.
  - destruct limit; reflexivity.
Qed.

Lemma fetch_placeholders_match_parameters_witness :
  placeholders
    (sql (render_query (filter_conds (sample_filters [Some "TX"; None; Some "CA"])) (Some 5)))
  = 5%nat.
Proof.
  rewrite (fetch_placeholders_match_parameters
             (sample_filters [Some "TX"; None; Some "CA"]) (Some 5)
             (render_query (filter_conds (sample_filters [Some "TX"; None; Some "CA"]))
                (Some 5))) by reflexivity.
  reflexivity.
Defined.

Lemma builder_conditions_one_each (filters : QueryBuilder.Filters) :
  List.list_sum (List.map placeholders (builder_conditions filters))
  = List.length (builder_values filters).
Proof.
  unfold builder_conditions, builder_values.
  rewrite !List.map_app, !List.list_sum_app, List.length_app, !List.length_map.
  f_equal.
  - assert (F : Forall (fun kc : string * string => placeholders (snd kc) = O)
                  QueryBuilder.FILTER_COLUMN_MAP) by (repeat constructor).
    induction F as [| kc m H _ IH]; [reflexivity |].
    cbn [List.flat_map List.map dropna].
    rewrite List.map_app, List.list_sum_app, List.length_app.
    fold (@dropna string). rewrite IH. f_equal.
    destruct (QueryBuilder.get filters (fst kc)); [| reflexivity].
    cbn [List.map List.list_sum List.length]. rewrite placeholders_append, H. reflexivity.
  - destruct (QueryBuilder.start_date filters), (QueryBuilder.end_date filters); reflexivity.
Qed.

Lemma builder_placeholders
    (filters : QueryBuilder.Filters) (limit : option Z) (q : Query) :
  QueryBuilder.build_service_calls_query filters limit = Ok q ->
  placeholders (sql q) = List.length (params q).
Proof.
  rewrite build_service_calls_query_closed. cbv zeta.
  match goal with
  | |- context [select_template ?w _] => set (where_clause := w)
  end.
  assert (W : placeholders where_clause = List.length (builder_values filters)).
  { unfold where_clause. rewrite <- builder_conditions_one_each.
    destruct (builder_conditions filters) as [| c conds]; [reflexivity |].
    now rewrite placeholders_append, placeholders_join by reflexivity. }
  clearbody where_clause. intros E.
  destruct limit as [n |]; [destruct (n <=? 0); [discriminate |] |];
    injection E as <-; cbn [sql params];
    rewrite placeholders_template, W, ?List.length_app; cbn; lia.
Qed.

(** X12.  Every statement [build_service_calls_query] builds has as many
    [?] placeholders as bound parameters. *)
Theorem build_placeholders_match_parameters
    (filters : QueryBuilder.Filters) (limit : option Z) (q : Query) :
  QueryBuilder.build_service_calls_query filters limit = Ok q ->
  placeholders (sql q) = List.length (params q).
Proof.
  exact (builder_placeholders filters limit q).
Qed.

Lemma build_placeholders_match_parameters_witness :
  match QueryBuilder.build_service_calls_query (sample_builder_filters "GX-200") (Some 10) with
  | Ok q => placeholders (sql q) = 3%nat
  | ValueError _ => False
  end.
Proof.
  destruct (QueryBuilder.build_service_calls_query (sample_builder_filters "GX-200") (Some 10))
    as [q | msg] eqn:E; [| discriminate E].
  rewrite (build_placeholders_match_parameters _ _ q E).
  injection E as <-. reflexivity.
Defined.

(** ** The limit of the REST filter *)

(** X13.  A positive limit is never rejected and never clamped by either
    builder: the statement is built and the limit is its last parameter,
    after the parameters of the filters. *)
Theorem positive_limit_is_bound_unchanged
    (filters : QueryTools.Filters) (rest_filters : QueryBuilder.Filters) (n : Z) :
  0 < n ->
  (exists q, QueryTools.fetch_filtered_calls_query filters (Some n) = Ok q
             /\ params q = List.flat_map cond_params (filter_conds filters) ++ [PInt n])
  /\ (exists q, QueryBuilder.build_service_calls_query rest_filters (Some n) = Ok q
                /\ params q = builder_values rest_filters ++ [PInt n]).
Proof.
  intros H.
  assert (E : (n <=? 0) = false) by (apply Z.leb_gt; lia).
  rewrite fetch_filtered_calls_render, build_service_calls_query_closed.
  cbv zeta. rewrite E. split; eexists; split; reflexivity.
Qed.

Lemma positive_limit_is_bound_unchanged_witness :
  exists q, QueryBuilder.build_service_calls_query (sample_builder_filters "GX-200")
              (Some 1000000) = Ok q
            /\ params q = builder_values (sample_builder_filters "GX-200") ++ [PInt 1000000].
Proof.
  apply (positive_limit_is_bound_unchanged (sample_filters []) _ 1000000). lia.
Defined.

(** X14.  The REST filter endpoint builds a statement exactly when the
    limit (1000 when omitted) lies between 1 and 5000, and answers 422
    otherwise; in particular the builder's own ValueError is never raised
    there.  The limit is the last parameter of the statement. *)
Theorem filter_calls_limit_window
    (state model engineer : option string) (start_date end_date : option Z)
    (status instrument_status : option string) (limit : option Z) :
  let effective := match limit with Some n => n | None => 1000 end in
  match filter_calls_query state model engineer start_date end_date
          status instrument_status limit with
  | Served q =>
      1 <= effective <= 5000
      /\ params q
         = builder_values
             (filter_calls_filters state model engineer start_date end_date
                status instrument_status)
           ++ [PInt effective]
      /\ placeholders (sql q) = List.length (params q)
  | Unprocessable => effective < 1 \/ 5000 < effective
  | NotFound _ => False
  | InternalError _ => False
  end.
Proof.
  unfold filter_calls_query. cbv zeta.
  change FILTER_DEFAULT_LIMIT with 1000.
  set (effective := match limit with Some n => n | None => 1000 end).
  destruct (effective <? 1) eqn:L; [left; now apply Z.ltb_lt |].
  destruct (5000 <? effective) eqn:U; [right; now apply Z.ltb_lt |].
  cbn [orb]. apply Z.ltb_ge in L, U.
  destruct (QueryBuilder.build_service_calls_query _ (Some effective)) as [q | msg] eqn:E.
  - split; [lia |]. split; [| exact (builder_placeholders _ _ _ E)].
    rewrite build_service_calls_query_closed in E. cbv zeta in E.
    destruct (effective <=? 0); [discriminate |]. now injection E as <-.
  - rewrite build_service_calls_query_closed in E. cbv zeta in E.
    replace (effective <=? 0) with false in E by (symmetry; apply Z.leb_gt; lia).
    discriminate.
Qed.

(** ** A filter without criteria *)

Lemma builder_conditions_none (filters : QueryBuilder.Filters) :
  Spec.builder_shape filters = (false, false, [false; false; false; false; false]) ->
  builder_conditions filters = [] /\ builder_values filters = [].
Proof.
  unfold Spec.builder_shape, Spec.builder_keys. cbn [List.map].
  intros [= Hs He K1 K2 K3 K4 K5].
  unfold builder_conditions, builder_values, QueryBuilder.FILTER_COLUMN_MAP.
  cbn [List.flat_map List.map fst snd].
  destruct (QueryBuilder.get filters "state"); [discriminate |].
  destruct (QueryBuilder.get filters "model"); [discriminate |].
  destruct (QueryBuilder.get filters "engineer"); [discriminate |].
  destruct (QueryBuilder.get filters "status"); [discriminate |].
  destruct (QueryBuilder.get filters "instrument_status"); [discriminate |].
  destruct (QueryBuilder.start_date filters); [discriminate |].
  destruct (QueryBuilder.end_date filters); [discriminate |].
  split; reflexivity.
Qed.

(** X15.  With no criterion and no date bound, [build_service_calls_query]
    produces, up to white space, the statement of [get_all_calls], with the
    limit as its only parameter. *)
Theorem filter_without_criteria_lists_all (filters : QueryBuilder.Filters) (n : Z) :
  Spec.builder_shape filters = (false, false, [false; false; false; false; false]) ->
  0 < n ->
  exists q,
    QueryBuilder.build_service_calls_query filters (Some n) = Ok q
    /\ sql_words (sql q) = sql_words (sql get_all_calls_query)
    /\ params q = [PInt n]
    /\ (n = ALL_CALLS_LIMIT -> params q = params get_all_calls_query).
Proof.
  intros S H.
  destruct (builder_conditions_none filters S) as [C V].
  rewrite build_service_calls_query_closed. cbv zeta. rewrite C, V.
  replace (n <=? 0) with false by (symmetry; apply Z.leb_gt; lia).
  eexists. split; [reflexivity |]. cbn [sql params List.app].
  split; [vm_compute; reflexivity | split; [reflexivity |]].
  intros ->. reflexivity.
Qed.

Lemma filter_without_criteria_lists_all_witness :
  exists q,
    QueryBuilder.build_service_calls_query
      (filter_calls_filters None None None None None None None) (Some 2000) = Ok q
    /\ sql_words (sql q) = sql_words (sql get_all_calls_query)
    /\ params q = [PInt 2000]
    /\ (2000 = ALL_CALLS_LIMIT -> params q = params get_all_calls_query).
Proof.
  apply (filter_without_criteria_lists_all
           (filter_calls_filters None None None None None None None) 2000);
    [reflexivity | lia].
Defined.

(** ** Filter metadata *)

Lemma string_leb_spec (s t : string) :
  String.leb s t = true <-> String.compare s t = Lt \/ s = t.
Proof.
  unfold String.leb. rewrite <- string_compare_eq.
  destruct (String.compare s t); intuition congruence.
Qed.

Lemma string_leb_trans (s t u : string) :
  String.leb s t = true -> String.leb t u = true -> String.leb s u = true.
Proof.
  rewrite !string_leb_spec.
  intros [H1 | ->] [H2 | ->]; try (now left); try (now right).
  left. now apply string_compare_lt_trans with t.
Qed.

Lemma sorted_distinct_strict (l : list string) :
  StronglySorted (leb_rel String.leb) l -> NoDup l -> StronglySorted string_lt l.
Proof.
  induction 1 as [| x l Hs IH Hx]; intros N; [constructor |].
  inversion N as [| ? ? Hn Hd]; subst.
  constructor; [now apply IH |].
  rewrite Forall_forall in *. intros y I.
  specialize (Hx y I). unfold leb_rel in Hx. apply string_leb_spec in Hx.
  destruct Hx as [H | ->]; [exact H | contradiction].
Qed.

Lemma sql_trim_empty : sql_trim "" = "".
Proof. reflexivity. Qed.

Lemma nonblank_selection (selection : list string) :
  Forall (fun v => v <> "") selection ->
  QueryTools.nonblank (List.map Some selection) = selection.
Proof.
  induction 1 as [| v l H _ IH]; [reflexivity |].
  cbn [List.map QueryTools.nonblank List.flat_map].
  fold (QueryTools.nonblank (List.map Some l)). rewrite IH.
  destruct (String.eqb_spec v ""); [contradiction | reflexivity].
Qed.

(** X16.  The options [_fetch_distinct_values] offers for a filter column
    are the values stored in that column that are not blank after SQL
    [TRIM], each once, in strictly ascending order.  Any selection among
    them passes [_append_condition] whole: no option is dropped as blank. *)
Theorem distinct_values_are_options (rows : DataFrame) (column : string) :
  In column (List.map snd QueryTools.FILTER_COLUMN_MAP) ->
  let options := _fetch_distinct_values rows column in
  StronglySorted string_lt options
  /\ (forall v,
        In v options
        <-> (exists r, In r rows /\ Store.text_column column r = Some v)
            /\ sql_trim v <> "")
  /\ (forall selection,
        incl selection options ->
        QueryTools.nonblank (List.map Some selection) = selection).
Proof.
  intros _ options.
  set (present := dropna (List.map (Store.text_column column) rows)).
  set (kept := List.filter (fun v => negb (String.eqb (sql_trim v) "")) present).
  assert (P : Permutation options (Spec.first_seen String.eqb kept))
    by apply sort_by_perm.
  assert (M : forall v,
             In v options
             <-> (exists r, In r rows /\ Store.text_column column r = Some v)
                 /\ sql_trim v <> "").
  { intros v. transitivity (In v kept).
    - split; intros I.
      + apply (Permutation_in _ P) in I.
        exact (proj1 (first_seen_In _ String.eqb_eq _ _) I).
      + apply (Permutation_in _ (Permutation_sym P)).
        exact (proj2 (first_seen_In _ String.eqb_eq _ _) I).
    - unfold kept. rewrite List.filter_In, negb_true_iff, String.eqb_neq.
      apply and_iff_compat_r. unfold present, dropna.
      rewrite List.in_flat_map. split.
      + intros (o & I & Hv). apply List.in_map_iff in I. destruct I as (r & <- & I).
        exists r. split; [exact I |].
        destruct (Store.text_column column r) as [s |]; [| contradiction].
        destruct Hv as [-> | []]. reflexivity.
      + intros (r & I & E). exists (Some v). split; [| now left].
        apply List.in_map_iff. now exists r. }
  split; [| split; [exact M |]].
  - apply sorted_distinct_strict.
    + apply sort_by_sorted; [apply String.leb_total | apply string_leb_trans].
    + apply (Permutation_NoDup (Permutation_sym P)), first_seen_NoDup, String.eqb_eq.
  - intros selection I. apply nonblank_selection.
    rewrite Forall_forall. intros v Hv E. subst v.
    apply I, M in Hv. destruct Hv as [_ H]. now apply H.
Qed.

Lemma distinct_values_are_options_witness :
  QueryTools.nonblank (List.map Some ["CA"; "TX"]) = ["CA"; "TX"].
Proof.
  apply (proj2 (proj2 (distinct_values_are_options
           [row_state 1 (Some "TX"); row_state 2 (Some "  "); row_state 3 (Some "CA");
            row_state 4 None; row_state 5 (Some "TX")] "state"
           ltac:(cbn; now left)))).
  intros v I. exact I.
Defined.

(** ** The date range of the store *)

Lemma fold_min_le (rest : list Z) (v : Z) :
  List.fold_left Z.min rest v <= v
  /\ Forall (fun d => List.fold_left Z.min rest v <= d) rest.
Proof.
  revert v. induction rest as [| x rest IH]; intros v; cbn [List.fold_left].
  - split; [lia | constructor].
  - destruct (IH (Z.min v x)) as [H F]. split; [lia |].
    constructor; [lia | exact F].
Qed.

Lemma fold_max_ge (rest : list Z) (v : Z) :
  v <= List.fold_left Z.max rest v
  /\ Forall (fun d => d <= List.fold_left Z.max rest v) rest.
Proof.
  revert v. induction rest as [| x rest IH]; intros v; cbn [List.fold_left].
  - split; [lia | constructor].
  - destruct (IH (Z.max v x)) as [H F]. split; [lia |].
    constructor; [lia | exact F].
Qed.

Lemma sql_min_max_bounds (days : list Z) (lo hi : Z) :
  sql_min days = Some lo -> sql_max days = Some hi ->
  Forall (fun d => lo <= d <= hi) days.
Proof.
  destruct days as [| v rest]; [discriminate |].
  cbn [sql_min sql_max]. intros [= <-] [= <-].
  destruct (fold_min_le rest v) as [L FL], (fold_max_ge rest v) as [U FU].
  constructor; [lia |].
  rewrite Forall_forall in *. intros d I.
  specialize (FL d I). specialize (FU d I). lia.
Qed.

Lemma date_range_conds (start_date end_date : option Z) :
  filter_conds (date_range_filters start_date end_date)
  = date_conds start_date end_date.
Proof.
  unfold filter_conds, date_range_filters,
    QueryTools.start_date, QueryTools.end_date, QueryTools.get.
  cbn. now rewrite List.app_nil_r.
Qed.

(** X17.  [date_min] and [date_max] of the filter metadata are absent
    together, exactly when no record has an entry time.  Otherwise
    [date_min <= date_max], and filtering on that range alone selects a
    stored record exactly when it has an entry time. *)
Theorem metadata_date_range (rows : DataFrame) :
  let meta := get_filter_metadata rows in
  (date_min meta = None <-> Forall (fun r => call_entry_datetime r = None) rows)
  /\ (date_max meta = None <-> date_min meta = None)
  /\ (forall lo hi,
        date_min meta = Some lo -> date_max meta = Some hi ->
        lo <= hi
        /\ forall r, In r rows ->
             (Store.selects (filter_conds (date_range_filters (Some lo) (Some hi))) r = true
              <-> call_entry_datetime r <> None)).
Proof.
  intros meta. unfold meta, get_filter_metadata. cbn [date_min date_max].
  set (days := dropna (List.map Store.entry_day rows)).
  assert (D : days = [] <-> Forall (fun r => call_entry_datetime r = None) rows).
  { unfold days, dropna, Store.entry_day. clear.
    induction rows as [| r rows IH]; [split; [constructor | reflexivity] |].
    cbn [List.map List.flat_map].
    destruct (call_entry_datetime r) as [t |] eqn:E.
    - split; [discriminate | intros H; inversion H; congruence].
    - cbn [List.app]. rewrite IH. split; [now constructor | now inversion 1]. }
  split; [| split].
  - rewrite <- D. destruct days; split; (discriminate || reflexivity).
  - destruct days; split; (discriminate || reflexivity).
  - intros lo hi Hlo Hhi.
    pose proof (sql_min_max_bounds days lo hi Hlo Hhi) as B.
    split.
    + destruct days as [| d l]; [discriminate |]. inversion B; lia.
    + intros r I. rewrite date_range_conds. unfold Store.selects, date_conds.
      cbn [List.app List.forallb Store.cond_holds]. rewrite andb_true_r.
      unfold Store.entry_day at 1 2.
      destruct (call_entry_datetime r) as [t |] eqn:E.
      * split; [discriminate |]. intros _.
        assert (Id : In (t / 86400) days).
        { unfold days, dropna. apply List.in_flat_map.
          exists (Some (t / 86400)). split; [| now left].
          apply List.in_map_iff. exists r. split; [| exact I].
          unfold Store.entry_day. now rewrite E. }
        rewrite Forall_forall in B. specialize (B _ Id).
        apply andb_true_iff. split; apply Z.leb_le; lia.
      * split; [discriminate | congruence].
Qed.

Lemma metadata_date_range_witness :
  Store.selects (filter_conds (date_range_filters (Some 0) (Some 3)))
    (row_times 1 (Some 86400) None) = true.
Proof.
  apply (proj2 (proj2 (metadata_date_range
           [row_times 1 (Some 86400) None; row_times 2 None None;
            row_times 3 (Some 10) None; row_times 4 (Some (3 * 86400 + 5)) None]))
           0 3 eq_refl eq_refl).
  - now left.
  - discriminate.
Defined.

(** ** Reading one record *)

(** X18.  For a [call_id] that fits 64 signed bits, [get_call_by_id]
    returns a stored record with that [call_id], and answers 404 only when
    no stored record has it; a larger [call_id] makes the request fail.
    When the identifiers are unique, asking for the identifier of a stored
    record returns that record. *)
Theorem get_call_by_id_lookup (rows : DataFrame) (id : Z) :
  match get_call_by_id rows id with
  | Served row => In row rows /\ call_id row = id
  | NotFound _ => - 2 ^ 63 <= id < 2 ^ 63 /\ forall r, In r rows -> call_id r <> id
  | Unprocessable => False
  | InternalError _ => id < - 2 ^ 63 \/ 2 ^ 63 <= id
  end
  /\ (NoDup (List.map call_id rows) ->
      forall r, In r rows -> - 2 ^ 63 <= call_id r < 2 ^ 63 ->
                get_call_by_id rows (call_id r) = Served r).
Proof.
  unfold get_call_by_id, sqlite_integer. split.
  - destruct (- 2 ^ 63 <=? id) eqn:L; cbn [andb negb];
      [| apply Z.leb_gt in L; now left].
    destruct (id <? 2 ^ 63) eqn:U; cbn [negb];
      [| apply Z.ltb_ge in U; now right].
    apply Z.leb_le in L. apply Z.ltb_lt in U.
    destruct (List.find (fun r => call_id r =? id) rows) as [row |] eqn:F.
    + apply List.find_some in F. destruct F as [I E]. apply Z.eqb_eq in E. now split.
    + split; [lia |]. intros r I E. pose proof (List.find_none _ _ F r I) as N.
      cbv beta in N. rewrite E, Z.eqb_refl in N. discriminate.
  - intros N r I [L U].
    replace (- 2 ^ 63 <=? call_id r) with true by (symmetry; now apply Z.leb_le).
    replace (call_id r <? 2 ^ 63) with true by (symmetry; now apply Z.ltb_lt).
    cbn [andb negb]. clear L U. revert N r I.
    induction rows as [| x rows IH]; intros N r I; [contradiction |].
    cbn [List.map] in N. inversion N as [| ? ? Hx Hn]; subst.
    cbn [List.find]. destruct I as [-> | I].
    + now rewrite Z.eqb_refl.
    + destruct (Z.eqb_spec (call_id x) (call_id r)) as [E | _].
      * exfalso. apply Hx. rewrite E. now apply List.in_map.
      * now apply IH.
Qed.

Lemma get_call_by_id_lookup_witness :
  get_call_by_id [row_status 7 None None; row_status 9 (Some "Open") None] 9
  = Served (row_status 9 (Some "Open") None).
Proof.
  apply (proj2 (get_call_by_id_lookup
                  [row_status 7 None None; row_status 9 (Some "Open") None] 0)
           ltac:(repeat constructor; cbn; intuition discriminate)
           (row_status 9 (Some "Open") None)).
  - right. now left.
  - cbn. lia.
Defined.

(** ** Listing the latest calls *)

Lemma entry_desc_leb_total (a b : CallRecord) :
  entry_desc_leb a b = true \/ entry_desc_leb b a = true.
Proof.
  unfold entry_desc_leb.
  destruct (call_entry_datetime a) as [x |], (call_entry_datetime b) as [y |]; auto.
  destruct (Z.leb_spec y x); [now left | right; apply Z.leb_le; lia].
Qed.

Lemma entry_desc_leb_trans (a b c : CallRecord) :
  entry_desc_leb a b = true -> entry_desc_leb b c = true -> entry_desc_leb a c = true.
Proof.
  unfold entry_desc_leb.
  destruct (call_entry_datetime a), (call_entry_datetime b), (call_entry_datetime c);
    try discriminate; try reflexivity.
  rewrite !Z.leb_le. lia.
Qed.

Lemma sorted_app_split {A} (R : A -> A -> Prop) (l1 l2 : list A) :
  StronglySorted R (l1 ++ l2) ->
  StronglySorted R l1 /\ (forall a b, In a l1 -> In b l2 -> R a b).
Proof.
  induction l1 as [| x l1 IH]; cbn [List.app]; intros S.
  - split; [constructor | intros a b []].
  - apply StronglySorted_inv in S. destruct S as [S F].
    destruct (IH S) as [S1 H]. apply Forall_app in F. destruct F as [F1 F2].
    split; [now constructor |].
    intros a b [<- | Ia] Ib; [| now apply H].
    rewrite Forall_forall in F2. now apply F2.
Qed.

(** X19.  [get_all_calls] returns [min 2000 n] of the [n] stored records,
    latest entry time first and records without one last; every record left
    out is no later than every record returned. *)
Theorem get_all_calls_latest_first (rows : DataFrame) :
  let listed := get_all_calls rows in
  List.length listed = Nat.min 2000 (List.length rows)
  /\ StronglySorted (leb_rel entry_desc_leb) listed
  /\ exists rest,
       Permutation (listed ++ rest) rows
       /\ forall a b, In a listed -> In b rest -> entry_desc_leb a b = true.
Proof.
  intros listed. unfold listed, get_all_calls.
  change (Z.to_nat ALL_CALLS_LIMIT) with 2000%nat.
  pose proof (sort_by_perm entry_desc_leb rows) as P.
  pose proof (sort_by_sorted entry_desc_leb entry_desc_leb_total entry_desc_leb_trans rows) as S.
  rewrite <- (List.firstn_skipn 2000 (sort_by entry_desc_leb rows)) in S, P.
  apply sorted_app_split in S. destruct S as [S H].
  split; [| split; [exact S |]].
  - rewrite List.length_firstn.
    now rewrite (Permutation_length (sort_by_perm entry_desc_leb rows)).
  - exists (List.skipn 2000 (sort_by entry_desc_leb rows)). split; [exact P | exact H].
Qed.

(** ** The latest update *)

Lemma text_leb_refl (a : option string) : text_leb a a = true.
Proof.
  destruct a as [s |]; [| reflexivity]. cbn. apply string_leb_spec. now right.
Qed.

Lemma text_leb_total (a b : option string) : text_leb a b = true \/ text_leb b a = true.
Proof.
  destruct a as [s |], b as [t |]; cbn; auto. apply String.leb_total.
Qed.

Lemma text_leb_trans (a b c : option string) :
  text_leb a b = true -> text_leb b c = true -> text_leb a c = true.
Proof.
  destruct a as [s |], b as [t |], c as [u |]; cbn; try discriminate; try reflexivity.
  apply string_leb_trans.
Qed.

Lemma sql_max_text_fold (values : list (option string)) (best : option string) :
  let result :=
    List.fold_left (fun best v => if text_leb v best then best else v) values best in
  text_leb best result = true
  /\ Forall (fun v => text_leb v result = true) values
  /\ (result = best \/ In result values).
Proof.
  revert best. induction values as [| v values IH]; intros best; cbn [List.fold_left].
  - split; [apply text_leb_refl | split; [constructor | now left]].
  - destruct (text_leb v best) eqn:E.
    + destruct (IH best) as (B & F & M). cbv zeta in *.
      split; [exact B | split].
      * constructor; [now apply text_leb_trans with best | exact F].
      * destruct M as [M | M]; [now left | right; now right].
    + destruct (IH v) as (B & F & M). cbv zeta in *.
      assert (L : text_leb best v = true).
      { destruct (text_leb_total best v) as [H | H]; [exact H | congruence]. }
      split; [now apply text_leb_trans with v | split].
      * constructor; [exact B | exact F].
      * right. destruct M as [-> | M]; [now left | now right].
Qed.

Lemma sql_max_text_bounds (values : list (option string)) :
  Forall (fun v => text_leb v (sql_max_text values) = true) values
  /\ (sql_max_text values = None \/ In (sql_max_text values) values).
Proof.
  destruct (sql_max_text_fold values None) as (_ & F & M). now split.
Qed.

(** X20.  [get_latest_update] answers from [update_history] whenever
    that table exists and has a row: the row returned has the greatest
    [updated_at], and the answer is not marked as a fallback.  Otherwise it
    answers from [service_calls], marked as a fallback, with the number of
    stored records and the greatest entry time.  It answers 404 exactly
    when there is no history row and no stored record. *)
Theorem latest_update_prefers_history (db : UpdateStore) :
  match get_latest_update db with
  | Served u =>
      match update_history db with
      | Some ((_ :: _) as history) =>
          source u = "update_history" /\ fallback u = false /\ metadata u = None
          /\ (exists row, In row history
                          /\ updated_at u = h_updated_at row
                          /\ file_name u = h_file_name row
                          /\ rows_processed u = h_rows_processed row
                          /\ new_rows u = h_new_rows row)
          /\ (forall row, In row history ->
                          text_leb (h_updated_at row) (updated_at u) = true)
      | _ =>
          source u = "service_calls" /\ fallback u = true
          /\ service_calls db <> []
          /\ rows_processed u = Some (Z.of_nat (List.length (service_calls db)))
          /\ (forall c, In c (service_calls db) ->
                        text_leb (entry_text c) (updated_at u) = true)
          /\ (updated_at u = None
              \/ exists c, In c (service_calls db) /\ entry_text c = updated_at u)
      end
  | NotFound _ =>
      (update_history db = None \/ update_history db = Some [])
      /\ service_calls db = []
  | Unprocessable => False
  | InternalError _ => False
  end.
Proof.
  assert (FB : match _fallback_latest_update db with
               | Some u =>
                   source u = "service_calls" /\ fallback u = true
                   /\ service_calls db <> []
                   /\ rows_processed u = Some (Z.of_nat (List.length (service_calls db)))
                   /\ (forall c, In c (service_calls db) ->
                                 text_leb (entry_text c) (updated_at u) = true)
                   /\ (updated_at u = None
                       \/ exists c, In c (service_calls db) /\ entry_text c = updated_at u)
               | None => service_calls db = []
               end).
  { unfold _fallback_latest_update. cbv zeta.
    destruct (service_calls db) as [| c calls] eqn:C; [reflexivity |].
    replace (Z.of_nat (List.length (c :: calls)) =? 0) with false
      by (symmetry; apply Z.eqb_neq; cbn [List.length]; lia).
    cbn [source fallback rows_processed updated_at].
    destruct (sql_max_text_bounds (List.map entry_text (c :: calls))) as [F M].
    split; [reflexivity | split; [reflexivity | split; [discriminate | split; [reflexivity | split]]]].
    - intros x I. rewrite Forall_forall in F. apply F. now apply List.in_map.
    - destruct M as [M | M]; [now left | right].
      apply List.in_map_iff in M. destruct M as (x & E & I). now exists x. }
  unfold get_latest_update, _latest_update_from_history.
  destruct (update_history db) as [history |].
  - pose proof (sort_by_perm updated_desc_leb history) as P.
    pose proof (sort_by_sorted updated_desc_leb) as S.
    specialize (S (fun a b => text_leb_total (h_updated_at b) (h_updated_at a))).
    specialize (S (fun a b c H1 H2 =>
                     text_leb_trans (h_updated_at c) (h_updated_at b) (h_updated_at a) H2 H1)).
    specialize (S history).
    destruct (sort_by updated_desc_leb history) as [| row sorted] eqn:E.
    + apply Permutation_nil in P. subst history.
      destruct (_fallback_latest_update db); [exact FB | split; [now right | exact FB]].
    + destruct history as [| h hs]; [symmetry in P; now apply Permutation_nil in P |].
      cbn [source fallback metadata updated_at file_name rows_processed new_rows].
      split; [reflexivity | split; [reflexivity | split; [reflexivity | split]]].
      * exists row. split; [apply (Permutation_in _ P); now left |].
        split; [reflexivity | split; [reflexivity | split; reflexivity]].
      * intros x I. apply (Permutation_in _ (Permutation_sym P)) in I.
        destruct I as [<- | I]; [apply text_leb_refl |].
        apply StronglySorted_inv in S. destruct S as [_ F].
        rewrite Forall_forall in F. exact (F x I).
  - destruct (_fallback_latest_update db); [exact FB | split; [now left | exact FB]].
Qed.
